(** * ARC: job-status parsing and level-of-theory resolution

    A shallow embedding of [arc/main.py] (the [ARC] object: its constructor,
    [execute] and [check_model_chemistry]; the function
    [delete_all_arc_jobs]) and of the queue-status parser exercised by
    [arc/job/sshTest.py], with the properties the specification states about
    them and further properties of the code. *)

From Stdlib Require Import String Ascii List ZArith Lia Bool Arith.
From Stdlib Require Import DecimalString DecimalZ DecimalPos.
Import ListNotations.
Open Scope list_scope.
Open Scope string_scope.

(* ===================================================================== *)
(** ** Python byte strings *)
(* ===================================================================== *)

(** The methods of Python 2 [str] that the code calls, over [string].
    [sub] and [sep] arguments are non-empty wherever the code uses them. *)
Module PyStr.

(** [bool(s)]: a string is true when it is not empty. *)
Definition truthy (s : string) : bool := negb (s =? "").

Definition is_upper (c : ascii) : bool :=
  ((65 <=? nat_of_ascii c) && (nat_of_ascii c <=? 90))%nat.

Definition lower_char (c : ascii) : ascii :=
  if is_upper c then ascii_of_nat (nat_of_ascii c + 32) else c.

(** [s.lower()] *)
Fixpoint lower (s : string) : string :=
  match s with
  | EmptyString => EmptyString
  | String c s' => String (lower_char c) (lower s')
  end.

(** [s.startswith(sub)] *)
Fixpoint startswith (sub s : string) : bool :=
  match sub, s with
  | EmptyString, _ => true
  | String _ _, EmptyString => false
  | String a sub', String b s' => Ascii.eqb a b && startswith sub' s'
  end.

(** [s.find(sub)]: index of the leftmost occurrence, [None] for -1. *)
Fixpoint find (sub s : string) : option nat :=
  if startswith sub s then Some 0
  else match s with
       | EmptyString => None
       | String _ s' => option_map S (find sub s')
       end.

(** [sub in s] *)
Definition contains (sub s : string) : bool :=
  match find sub s with Some _ => true | None => false end.

(** [s.count(sub)]: occurrences counted left to right without overlap;
    [skip] is the number of characters of the last match still to pass. *)
Fixpoint count_go (sub : string) (skip : nat) (s : string) : nat :=
  match s with
  | EmptyString => 0
  | String _ s' =>
      match skip with
      | S k => count_go sub k s'
      | O => if startswith sub s
             then S (count_go sub (String.length sub - 1) s')
             else count_go sub 0 s'
      end
  end.

Definition count (sub s : string) : nat := count_go sub 0 s.

(** [s.split(sep)] for an explicit separator: [cur] is the piece being
    read; an empty piece is kept. *)
Fixpoint split_go (sep : string) (skip : nat) (cur s : string) : list string :=
  match s with
  | EmptyString => [cur]
  | String c s' =>
      match skip with
      | S k => split_go sep k cur s'
      | O => if startswith sep s
             then cur :: split_go sep (String.length sep - 1) "" s'
             else split_go sep 0 (cur ++ String c "") s'
      end
  end.

Definition split (sep s : string) : list string := split_go sep 0 "" s.

(** [s.replace(old, new)] *)
Fixpoint replace_go (old new : string) (skip : nat) (s : string) : string :=
  match s with
  | EmptyString => EmptyString
  | String c s' =>
      match skip with
      | S k => replace_go old new k s'
      | O => if startswith old s
             then new ++ replace_go old new (String.length old - 1) s'
             else String c (replace_go old new 0 s')
      end
  end.

Definition replace (old new s : string) : string := replace_go old new 0 s.

(** [l[i]] on a list of strings that is long enough. *)
Definition item (l : list string) (i : nat) : string := nth i l "".

(** [x in l] for a list of strings. *)
Definition mem (x : string) (l : list string) : bool :=
  existsb (String.eqb x) l.

(** The white space of [str.split()] and [str.isspace()]. *)
Definition is_space (c : ascii) : bool :=
  let n := nat_of_ascii c in ((n =? 32) || ((9 <=? n) && (n <=? 13)))%nat.

(** [s.split()]: fields between runs of white space, none of them empty. *)
Fixpoint split_ws_go (cur s : string) : list string :=
  match s with
  | EmptyString => if truthy cur then [cur] else []
  | String c s' =>
      if is_space c
      then (if truthy cur then cur :: split_ws_go "" s' else split_ws_go "" s')
      else split_ws_go (cur ++ String c "") s'
  end.

Definition split_ws (s : string) : list string := split_ws_go "" s.

Definition LF : ascii := ascii_of_nat 10.
Definition CR : ascii := ascii_of_nat 13.

(** [s.splitlines()]: lines end at LF, CR or CR LF; no last empty line. *)
Fixpoint splitlines_go (cur s : string) : list string :=
  match s with
  | EmptyString => if truthy cur then [cur] else []
  | String c s' =>
      if Ascii.eqb c LF then cur :: splitlines_go "" s'
      else if Ascii.eqb c CR then
        match s' with
        | String c' s'' =>
            if Ascii.eqb c' LF then cur :: splitlines_go "" s''
            else cur :: splitlines_go "" s'
        | EmptyString => [cur]
        end
      else splitlines_go (cur ++ String c "") s'
  end.

Definition splitlines (s : string) : list string := splitlines_go "" s.

(** [str(n)] for a Python integer. *)
Definition str_of_int (n : Z) : string := NilZero.string_of_int (Z.to_int n).

(** A string with no upper-case letter, which is what [lower] returns. *)
Definition is_lowercased (s : string) : Prop := lower s = s.

Fixpoint no_upper (s : string) : bool :=
  match s with
  | EmptyString => true
  | String c s' => negb (is_upper c) && no_upper s'
  end.

End PyStr.

(* ===================================================================== *)
(** ** The queue-status parser of [arc/job/ssh.py] *)
(* ===================================================================== *)

Module SSH.
Import PyStr.

(** The job states of the data model. *)
Inductive job_status : Type := queued | running | done | errored.

(** The text the parser returns for a state, as [sshTest.py] compares it. *)
Definition status_text (st : job_status) : string :=
  match st with
  | queued => "queued"
  | running => "running"
  | done => "done"
  | errored => "errored"
  end.

(** A job identifier as callers pass it: an integer or already a text. *)
Inductive job_id : Type :=
| IntId (n : Z)
| StrId (s : string).

(** [str(job_id)] *)
Definition str (j : job_id) : string :=
  match j with
  | IntId n => str_of_int n
  | StrId s => s
  end.

(** Modelled from the spec: the job-ID column of [arc/job/ssh.py] is the
    leading white-space-delimited field of a line. *)
Definition job_id_field (line : string) : option string :=
  nth_error (split_ws line) 0.

(** Modelled from the spec: the state code sits in the state column, the
    fifth of the table of section 6 (job-ID, priority, name, user, state). *)
Definition state_code (line : string) : option string :=
  nth_error (split_ws line) 4.

Section Parser.

(** What a server's cluster software makes of a state code other than
    [r] and [e], or of a matching line that has no state column; the
    specification leaves both to the configuration of the cluster type. *)
Variable other_state : string -> option string -> job_status.

(** Modelled from the spec: [arc/job/ssh.py] is not among the sources;
    a line belongs to the job when its leading field equals the string
    form of the identifier. *)
Definition line_matches (j : job_id) (line : string) : bool :=
  match job_id_field line with
  | Some f => f =? str j
  | None => false
  end.

(** Modelled from the spec: the state-code mapping of section 4.1,
    [r] to running and [e] to errored. *)
Definition status_of_line (server line : string) : job_status :=
  match state_code line with
  | Some code =>
      if code =? "r" then running
      else if code =? "e" then errored
      else other_state server (Some code)
  | None => other_state server None
  end.

(** Modelled from the spec: the linear scan of section 4.1; the first
    matching line wins and a job on no line is done. *)
Fixpoint scan_lines (j : job_id) (server : string) (lines : list string) : job_status :=
  match lines with
  | [] => done
  | line :: rest =>
      if line_matches j line then status_of_line server line
      else scan_lines j server rest
  end.

(** Modelled from the spec: [check_job_status_in_stdout(job_id, stdout,
    server)] of [arc/job/ssh.py], which [sshTest.py] calls. *)
Definition check_job_status_in_stdout (j : job_id) (stdout server : string) : job_status :=
  scan_lines j server (splitlines stdout).

End Parser.

(** The first line of a snapshot that carries the job, if any. *)
Fixpoint first_match (j : job_id) (lines : list string) : option string :=
  match lines with
  | [] => None
  | line :: rest => if line_matches j line then Some line else first_match j rest
  end.

(** [a] occurs inside [b] without being all of it. *)
Definition proper_substring (a b : string) : Prop :=
  contains a b = true /\ a <> b.

(** The queue snapshot of [TestSSH.test_check_job_status_in_stdout]. *)
Definition test_stdout : string :=
  "job-ID  prior   name       user         state submit/start at     queue                          slots ja-task-ID "
  ++ String LF
  "-----------------------------------------------------------------------------------------------------------------"
  ++ String LF
  " 582682 0.45451 a9654      alongd       e     04/17/2019 16:22:14 long5@node93.cluster              48"
  ++ String LF
  " 588334 0.45451 pf1005a    alongd       r     05/07/2019 16:24:31 long3@node67.cluster              48"
  ++ String LF
  " 588345 0.45451 a14121     alongd       r     05/08/2019 02:11:42 long3@node69.cluster              48    ".

(** The row of job 582682 in the test, and the same row with state [r]. *)
Definition row_582682 : string :=
  " 582682 0.45451 a9654      alongd       e     04/17/2019 16:22:14 long5@node93.cluster              48".

Definition row_582682_running : string :=
  " 582682 0.45451 a9654      alongd       r     04/17/2019 16:22:14 long5@node93.cluster              48".

(** The snapshot of the test with the row of job 582682 alone. *)
Definition only_582682 : string :=
  "job-ID  prior   name       user         state submit/start at     queue                          slots ja-task-ID "
  ++ String LF
  "-----------------------------------------------------------------------------------------------------------------"
  ++ String LF row_582682.

(** Two rows for one job, the first errored and the second running. *)
Definition twice_listed : string :=
  row_582682 ++ String LF row_582682_running.

End SSH.

(* ===================================================================== *)
(** ** The [ARC] object of [arc/main.py] *)
(* ===================================================================== *)

Module ARC.
Import PyStr.

(** *** Values, exceptions and what a run leaves behind *)

(** The classes [isinstance] is asked about. *)
Inductive py_class : Type := Species | ARCSpecies | Reaction | OtherClass.

Definition py_class_eqb (a b : py_class) : bool :=
  match a, b with
  | Species, Species | ARCSpecies, ARCSpecies
  | Reaction, Reaction | OtherClass, OtherClass => true
  | _, _ => false
  end.

(** An entry of a species or reaction list: its class, its [label], and
    the texts [str(type(x))] and [str(x)] that error messages quote. *)
Record py_obj : Type := mk_obj {
  obj_class : py_class;
  obj_label : string;
  obj_type : string;
  obj_str : string
}.

Definition isinstance (x : py_obj) (c : py_class) : bool :=
  py_class_eqb (obj_class x) c.

(** What an attribute of [self] can hold. *)
Inductive value : Type :=
| VNone
| VStr (s : string)
| VBool (b : bool)
| VNum (n : Z)
| VList (l : list py_obj)
| VDict (d : list (string * string))
| VScheduler.

(** Truth value of an object in a condition. *)
Definition truth (v : value) : bool :=
  match v with
  | VNone => false
  | VStr s => truthy s
  | VBool b => b
  | VNum n => negb (n =? 0)%Z
  | VList l => match l with [] => false | _ => true end
  | VDict d => match d with [] => false | _ => true end
  | VScheduler => true
  end.

Inductive exn : Type :=
| InputError (msg : string)
| ValueError (msg : string)
| AttributeError (name : string).

(** Levels of the [logging] module. *)
Definition DEBUG : Z := 10.
Definition INFO : Z := 20.
Definition WARNING : Z := 30.
Definition ERROR : Z := 40.

(** What the program does to the outside, in order. [SchedulerRun] is the
    construction of the [Scheduler], which submits and follows the jobs on
    the servers; [ProcessorProcess] is the post-processing. *)
Inductive event : Type :=
| Makedirs (path : string)
| Log (level : Z) (msg : string)
| StreamHandler (level : Z)
| FileHandler (filename : string) (level : Z)
| SchedulerRun (kwargs : list (string * value))
| ProcessorProcess (kwargs : list (string * value)).

Definition is_remote_work (ev : event) : bool :=
  match ev with
  | SchedulerRun _ => true
  | _ => false
  end.

(** The instance dictionary of [self] and the events so far. *)
Record world : Type := mk_world {
  self : string -> option value;
  trace : list event
}.

Definition no_attrs : string -> option value := fun _ => None.

(** The dictionary [d] after [d[name] = v]. *)
Definition upd (d : string -> option value) (name : string) (v : value)
  : string -> option value :=
  fun n => if n =? name then Some v else d n.

(** *** Statements: state, exceptions, sequencing *)

Definition M (A : Type) : Type := world -> (exn + A) * world.

Definition ret {A} (x : A) : M A := fun w => (inr x, w).

Definition bind {A B} (c : M A) (k : A -> M B) : M B :=
  fun w => match c w with
           | (inl e, w') => (inl e, w')
           | (inr x, w') => k x w'
           end.

Definition raise {A} (e : exn) : M A := fun w => (inl e, w).

Notation "x <- c ;; k" := (bind c (fun x => k))
  (at level 61, c at next level, right associativity).
Notation "c ;; k" := (bind c (fun _ => k))
  (at level 61, right associativity).

Definition emit (ev : event) : M unit :=
  fun w => (inr tt, mk_world (self w) (trace w ++ [ev])%list).

(** [self.name = v] *)
Definition setattr (name : string) (v : value) : M unit :=
  fun w => (inr tt, mk_world (upd (self w) name v) (trace w)).

(** [self.name] *)
Definition getattr (name : string) : M value :=
  fun w => match self w name with
           | Some v => (inr v, w)
           | None => (inl (AttributeError name), w)
           end.

(** [self.name] where the code goes on to use it as a string. *)
Definition getstr (name : string) : M string :=
  v <- getattr name ;;
  match v with
  | VStr s => ret s
  | _ => raise (AttributeError "lower")
  end.

(** [self.name] where the code iterates over it. *)
Definition getlist (name : string) : M (list py_obj) :=
  v <- getattr name ;;
  match v with
  | VList l => ret l
  | _ => raise (AttributeError "__iter__")
  end.

(** [for x in l: body] *)
Fixpoint for_each {A} (l : list A) (body : A -> M unit) : M unit :=
  match l with
  | [] => ret tt
  | x :: rest => body x ;; for_each rest body
  end.

Definition logging_log (level : Z) (msg : string) : M unit := emit (Log level msg).
Definition logging_info (msg : string) : M unit := logging_log INFO msg.
Definition logging_warning (msg : string) : M unit := logging_log WARNING msg.
Definition logging_error (msg : string) : M unit := logging_log ERROR msg.

Definition nl : string := String LF "".

(** The double quote inside a message. *)
Definition dq : string := String (ascii_of_nat 34) "".

(** [os.path.join(a, b)] *)
Definition path_join (a b : string) : string :=
  if startswith "/" b then b
  else if negb (truthy a) || (String.substring (String.length a - 1) 1 a =? "/")
       then a ++ b
       else a ++ "/" ++ b.

(** *** Settings and surroundings that are not in [main.py] *)

Record env : Type := mk_env {
  (** [arc.settings.arc_path] *)
  arc_path : string;
  (** [arc.settings.default_levels_of_theory], with an entry for each of
      the keys the constructor reads. *)
  default_levels_of_theory : string -> string;
  (** [os.path.exists] *)
  path_exists : string -> bool;
  (** [time.time()] at construction, in whole seconds. *)
  time_time : Z;
  (** [time.asctime()] when the header and the footer are written. *)
  asctime_header : string;
  asctime_footer : string;
  (** The formatted duration in the footer. *)
  execution_time : string;
  (** [ARCSpecies(is_ts, rmg_species)] of [arc/species.py]. *)
  new_ARCSpecies : bool -> py_obj -> py_obj;
  (** [scheduler.output] once the jobs are over: label and status. *)
  scheduler_output : list (string * string)
}.

(** The arguments of the constructor. *)
Record init_args : Type := mk_args {
  project : string;
  rmg_species_list : list py_obj;
  arc_species_list : list py_obj;
  rxn_list : list py_obj;
  level_of_theory : string;
  conformer_level : string;
  composite_method : string;
  opt_level : string;
  freq_level : string;
  sp_level : string;
  scan_level : string;
  fine : bool;
  generate_conformers : bool;
  scan_rotors : bool;
  use_bac : bool;
  model_chemistry : string;
  verbose : Z
}.

(** The defaults of the signature of [__init__]. *)
Definition default_args (project : string) : init_args :=
  mk_args project [] [] [] "" "" "" "" "" "" "" true true true true "" INFO.

(** The model chemistries Arkane has bond additivity corrections for. *)
Definition bac_model_chemistries : list string :=
  ["cbs-qb3"; "cbs-qb3-paraskevas"; "ccsd(t)-f12/cc-pvdz-f12";
   "ccsd(t)-f12/cc-pvtz-f12"; "ccsd(t)-f12/cc-pvqz-f12";
   "b3lyp/cbsb7"; "b3lyp/6-311g(2d,d,p)"; "b3lyp/6-311+g(3df,2p)";
   "b3lyp/6-31g**"].

(** The sp levels that stand for their [-f12] basis set. *)
Definition f12_sp_levels : list string :=
  ["ccsd(t)-f12/cc-pvdz"; "ccsd(t)-f12/cc-pvtz"; "ccsd(t)-f12/cc-pvqz"].

(** The model chemistries Arkane has atom energy corrections for. *)
Definition aec_model_chemistries : list string :=
  ["m06-2x/cc-pvtz"; "g3"; "m08so/mg3s*"; "klip_1"; "klip_2"; "klip_3"; "klip_2_cc";
   "ccsd(t)-f12/cc-pvdz-f12_h-tz"; "ccsd(t)-f12/cc-pvdz-f12_h-qz";
   "ccsd(t)-f12/cc-pvdz-f12"; "ccsd(t)-f12/cc-pvtz-f12"; "ccsd(t)-f12/cc-pvqz-f12";
   "ccsd(t)-f12/cc-pcvdz-f12"; "ccsd(t)-f12/cc-pcvtz-f12"; "ccsd(t)-f12/cc-pcvqz-f12";
   "ccsd(t)-f12/cc-pvtz-f12(-pp)"; "ccsd(t)/aug-cc-pvtz(-pp)"; "ccsd(t)-f12/aug-cc-pvdz";
   "ccsd(t)-f12/aug-cc-pvtz"; "ccsd(t)-f12/aug-cc-pvqz"; "b-ccsd(t)-f12/cc-pvdz-f12";
   "b-ccsd(t)-f12/cc-pvtz-f12"; "b-ccsd(t)-f12/cc-pvqz-f12"; "b-ccsd(t)-f12/cc-pcvdz-f12";
   "b-ccsd(t)-f12/cc-pcvtz-f12"; "b-ccsd(t)-f12/cc-pcvqz-f12"; "b-ccsd(t)-f12/aug-cc-pvdz";
   "b-ccsd(t)-f12/aug-cc-pvtz"; "b-ccsd(t)-f12/aug-cc-pvqz"; "mp2_rmp2_pvdz";
   "mp2_rmp2_pvtz"; "mp2_rmp2_pvqz"; "ccsd-f12/cc-pvdz-f12";
   "ccsd(t)-f12/cc-pvdz-f12_noscale"; "g03_pbepbe_6-311++g_d_p"; "fci/cc-pvdz";
   "fci/cc-pvtz"; "fci/cc-pvqz"; "bmk/cbsb7"; "bmk/6-311g(2d,d,p)"; "b3lyp/6-31g**";
   "b3lyp/6-311+g(3df,2p)"; "MRCI+Davidson/aug-cc-pV(T+d)Z"].

Definition msg_model_chemistry (mc : string) : string :=
  "Using " ++ mc ++ " as model chemistry for energy corrections in Arkane".

Definition msg_no_bac (mc : string) : string :=
  "No bond additivity corrections (BAC) are available in Arkane for " ++ dq ++ "model chemistry" ++ dq
  ++ " " ++ mc ++ ". As a result, thermodynamic parameters are expected to be inaccurate. Make sure that"
  ++ " atom energy corrections (AEC) were supplied or are available in Arkane to avoid"
  ++ " error.".

Definition msg_undetermined : string :=
  "Could not determine appropriate model chemistry to be used in Arkane for"
  ++ " thermochemical parameter calculations. Either turn off the " ++ dq ++ "use_bac" ++ dq ++ " flag"
  ++ " (and BAC will not be used), or specify a correct model chemistry. For a"
  ++ " comprehensive model chemistry list allowed in Arkane, see the Arkane documentation"
  ++ " on the RMG website, rmg.mit.edu.".

(** [ARC.check_model_chemistry] *)
Definition check_model_chemistry : M unit :=
  mc <- getattr "model_chemistry" ;;
  if truth mc then
    mc <- getstr "model_chemistry" ;;
    setattr "model_chemistry" (VStr (lower mc)) ;;
    mc <- getstr "model_chemistry" ;;
    logging_info (msg_model_chemistry mc) ;;
    mc <- getstr "model_chemistry" ;;
    if negb (mem mc bac_model_chemistries) then
      mc <- getstr "model_chemistry" ;;
      logging_warning (msg_no_bac mc)
    else ret tt
  else
    (* model chemistry was not given, try to determine it from the sp_level *)
    let model_chemistry := "" in
    sp <- getstr "sp_level" ;;
    let sp_level := lower sp in
    let sp_level := replace "f12b" "f12" (replace "f12a" "f12" sp_level) in
    model_chemistry <-
      (if mem sp_level f12_sp_levels then
         logging_warning ("Using model chemistry " ++ (sp_level ++ "-f12")
                          ++ " based on sp level " ++ sp_level ++ ".") ;;
         ret (sp_level ++ "-f12")
       else if negb (truthy model_chemistry) && mem sp_level bac_model_chemistries then
         ret sp_level
       else
         ub <- getattr "use_bac" ;;
         if truth ub then raise (InputError msg_undetermined)
         else
           (* use_bac is False, and no model chemistry was specified *)
           if mem sp_level aec_model_chemistries then ret sp_level
           else ret model_chemistry) ;;
    setattr "model_chemistry" (VStr model_chemistry) ;;
    mc <- getstr "model_chemistry" ;;
    logging_info (msg_model_chemistry mc).

Section Run.

Variable E : env.

(** [ARC.log_header] *)
Definition log_header (level : Z) : M unit :=
  logging_log level ("ARC execution initiated at " ++ asctime_header E) ;;
  logging_log level "" ;;
  logging_log level "###############################################################" ;;
  logging_log level "#                                                             #" ;;
  logging_log level "#                            ARC                              #" ;;
  logging_log level "#                                                             #" ;;
  logging_log level "#   Version: 0.1                                              #" ;;
  logging_log level "#                                                             #" ;;
  logging_log level "###############################################################" ;;
  logging_log level "".

(** [ARC.log_footer]; the duration is the text the surroundings give. *)
Definition log_footer (level : Z) : M unit :=
  logging_log level "" ;;
  _ <- getattr "t0" ;;
  logging_log level ("Total execution time: " ++ execution_time E) ;;
  logging_log level ("ARC execution terminated at " ++ asctime_footer E).

(** [ARC.initialize_log]: the handlers of the root logger are replaced
    by a console handler and, with a log file, a file handler. *)
Definition initialize_log (verbose : Z) (log_file : string) : M unit :=
  emit (StreamHandler verbose) ;;
  if truthy log_file then
    emit (FileHandler log_file (Z.min DEBUG verbose)) ;;
    log_header INFO
  else ret tt.

(** [ARC.__init__], lines 62 to 87: the plain attributes, the project
    directory and the log. *)
Definition init_attributes (a : init_args) : M unit :=
  setattr "project" (VStr (project a)) ;;
  setattr "t0" (VNum (time_time E)) ;;
  p <- getstr "project" ;;
  setattr "output_directory" (VStr (path_join (path_join (arc_path E) "Projects") p)) ;;
  od <- getstr "output_directory" ;;
  (if negb (path_exists E od) then
     od <- getstr "output_directory" ;;
     emit (Makedirs od)
   else ret tt) ;;
  setattr "fine" (VBool (fine a)) ;;
  setattr "generate_conformers" (VBool (generate_conformers a)) ;;
  setattr "scan_rotors" (VBool (scan_rotors a)) ;;
  setattr "use_bac" (VBool (use_bac a)) ;;
  setattr "model_chemistry" (VStr (model_chemistry a)) ;;
  mc <- getattr "model_chemistry" ;;
  (if truth mc then
     mc <- getstr "model_chemistry" ;;
     logging_info (msg_model_chemistry mc)
   else ret tt) ;;
  f <- getattr "fine" ;;
  (if negb (truth f) then
     logging_info nl ;;
     logging_warning "Not using a fine grid for geometry optimization jobs" ;;
     logging_info nl
   else ret tt) ;;
  sr <- getattr "scan_rotors" ;;
  (if negb (truth sr) then
     logging_info nl ;;
     logging_warning ("Not running rotor scans."
                      ++ " This might compromise geometry as dihedral angles won't be corrected") ;;
     logging_info nl
   else ret tt) ;;
  setattr "output" (VDict []) ;;
  setattr "verbose" (VNum (verbose a)) ;;
  v <- getattr "verbose" ;;
  od <- getstr "output_directory" ;;
  initialize_log (match v with VNum n => n | _ => INFO end) (path_join od "arc.log") ;;
  p <- getstr "project" ;;
  logging_info ("Starting project " ++ p ++ nl ++ nl).

(** Lines 89 to 92: at most one separator in [level_of_theory]. *)
Definition check_separators (a : init_args) : M unit :=
  if (1 <? count "//" (level_of_theory a))%nat then
    raise (InputError
             ("Level of theory seems wrong. It should either be a composite method (like CBS-QB3)"
              ++ " or be of the form sp//geometry, e.g., CCSD(T)-F12/avtz//wB97x-D3/6-311++g**."
              ++ " Got: " ++ level_of_theory a))
  else ret tt.

(** Lines 94 to 103 *)
Definition resolve_conformer_level (a : init_args) : M unit :=
  if truthy (conformer_level a) then
    logging_info ("Using " ++ conformer_level a
                  ++ " for refined conformer searches (after filtering via force fields)") ;;
    setattr "conformer_level" (VStr (lower (conformer_level a)))
  else
    gc <- getattr "generate_conformers" ;;
    if truth gc then
      setattr "conformer_level" (VStr (lower (default_levels_of_theory E "conformer"))) ;;
      logging_info ("Using default level " ++ default_levels_of_theory E "conformer"
                    ++ " for refined conformer searches (after filtering via force"
                    ++ " fields)")
    else setattr "conformer_level" (VStr "").

(** Lines 106 to 125: a combined [level_of_theory] was given. *)
Definition resolve_level_of_theory (a : init_args) : M unit :=
  let level_of_theory := level_of_theory a in
  if negb (contains "/" level_of_theory) then
    (* assume this is a composite method *)
    setattr "composite_method" (VStr (lower level_of_theory)) ;;
    cm <- getstr "composite_method" ;;
    logging_info ("Using composite method " ++ cm)
  else if contains "//" level_of_theory then
    setattr "opt_level" (VStr (item (split "//" (lower level_of_theory)) 1)) ;;
    setattr "freq_level" (VStr (item (split "//" (lower level_of_theory)) 1)) ;;
    setattr "sp_level" (VStr (item (split "//" (lower level_of_theory)) 0)) ;;
    logging_info ("Using " ++ item (split "//" level_of_theory) 1 ++ " for geometry optimizations") ;;
    logging_info ("Using " ++ item (split "//" level_of_theory) 1 ++ " for frequency calculations") ;;
    logging_info ("Using " ++ item (split "//" level_of_theory) 0 ++ " for single point calculations")
  else if contains "/" level_of_theory && negb (contains "//" level_of_theory) then
    (* not a composite method: opt, freq and sp all run at this level *)
    setattr "opt_level" (VStr (lower level_of_theory)) ;;
    setattr "freq_level" (VStr (lower level_of_theory)) ;;
    setattr "sp_level" (VStr (lower level_of_theory)) ;;
    logging_info ("Using " ++ level_of_theory ++ " for geometry optimizations") ;;
    logging_info ("Using " ++ level_of_theory ++ " for frequency calculations") ;;
    logging_info ("Using " ++ level_of_theory ++ " for single point calculations")
  else ret tt.

(** Lines 127 to 138: the composite method given on its own. *)
Definition resolve_composite_method (a : init_args) : M unit :=
  setattr "composite_method" (VStr (lower (composite_method a))) ;;
  cm <- getattr "composite_method" ;;
  if truth cm then
    (if truthy (level_of_theory a) then
       (* [level_of_theory.lower] is the method itself, never equal to a string *)
       _ <- getattr "composite_method" ;;
       raise (InputError "Specify either composite_method or level_of_theory")
     else ret tt) ;;
    logging_info ("Using composite method " ++ composite_method a) ;;
    cm <- getstr "composite_method" ;;
    if cm =? "cbs-qb3" then
      cm <- getattr "composite_method" ;;
      setattr "model_chemistry" cm ;;
      mc <- getstr "model_chemistry" ;;
      logging_info (msg_model_chemistry mc)
    else
      ub <- getattr "use_bac" ;;
      if truth ub then
        cm <- getstr "composite_method" ;;
        raise (InputError ("Could not determine model chemistry to use for composite method " ++ cm))
      else ret tt
  else ret tt.

(** Lines 140 to 149 *)
Definition resolve_opt_level (a : init_args) : M unit :=
  if truthy (opt_level a) then
    setattr "opt_level" (VStr (lower (opt_level a))) ;;
    l <- getstr "opt_level" ;;
    logging_info ("Using " ++ l ++ " for geometry optimizations")
  else
    cm <- getattr "composite_method" ;;
    if negb (truth cm) then
      setattr "opt_level" (VStr (lower (default_levels_of_theory E "opt"))) ;;
      l <- getstr "opt_level" ;;
      logging_info ("Using default level " ++ l ++ " for geometry optimizations")
    else setattr "opt_level" (VStr "").

(** Lines 151 to 167 *)
Definition resolve_freq_level (a : init_args) : M unit :=
  if truthy (freq_level a) then
    setattr "freq_level" (VStr (lower (freq_level a))) ;;
    l <- getstr "freq_level" ;;
    logging_info ("Using " ++ l ++ " for frequency calculations")
  else
    cm <- getattr "composite_method" ;;
    if negb (truth cm) then
      if truthy (opt_level a) then
        setattr "freq_level" (VStr (lower (opt_level a))) ;;
        l <- getstr "freq_level" ;;
        logging_info ("Using user-defined opt level " ++ l ++ " for frequency calculations as well")
      else
        setattr "freq_level" (VStr (lower (default_levels_of_theory E "freq"))) ;;
        l <- getstr "freq_level" ;;
        logging_info ("Using default level " ++ l ++ " for frequency calculations")
    else
      setattr "freq_level" (VStr (lower (default_levels_of_theory E "freq_for_composite"))) ;;
      l <- getstr "freq_level" ;;
      logging_info ("Using default level " ++ l ++ " for frequency calculations after composite jobs").

(** Lines 169 to 178 *)
Definition resolve_sp_level (a : init_args) : M unit :=
  if truthy (sp_level a) then
    setattr "sp_level" (VStr (lower (sp_level a))) ;;
    l <- getstr "sp_level" ;;
    logging_info ("Using " ++ l ++ " for single point calculations") ;;
    check_model_chemistry
  else
    cm <- getattr "composite_method" ;;
    if negb (truth cm) then
      setattr "sp_level" (VStr (lower (default_levels_of_theory E "sp"))) ;;
      l <- getstr "sp_level" ;;
      logging_info ("Using default level " ++ l ++ " for single point calculations") ;;
      check_model_chemistry
    else setattr "sp_level" (VStr "").

(** Lines 105 to 178 *)
Definition resolve_levels (a : init_args) : M unit :=
  if truthy (level_of_theory a) then resolve_level_of_theory a
  else
    resolve_composite_method a ;;
    resolve_opt_level a ;;
    resolve_freq_level a ;;
    resolve_sp_level a.

(** Lines 180 to 187 *)
Definition resolve_scan_level (a : init_args) : M unit :=
  if truthy (scan_level a) then
    setattr "scan_level" (VStr (lower (scan_level a))) ;;
    l <- getstr "scan_level" ;;
    logging_info ("Using " ++ l ++ " for rotor scans")
  else
    sr <- getattr "scan_rotors" ;;
    if truth sr then
      setattr "scan_level" (VStr (lower (default_levels_of_theory E "scan"))) ;;
      l <- getstr "scan_level" ;;
      logging_info ("Using default level " ++ l ++ " for rotor scans")
    else setattr "scan_level" (VStr "").

(** Lines 194 to 200: the body of the loop over [rmg_species_list]. *)
Definition add_rmg_species (rmg_spc : py_obj) : M unit :=
  if negb (isinstance rmg_spc Species) then
    raise (InputError ("All entries of rmg_species_list have to be RMG Species objects."
                       ++ " Got: " ++ obj_type rmg_spc))
  else if negb (truthy (obj_label rmg_spc)) then
    raise (InputError ("Missing label on RMG Species object " ++ obj_str rmg_spc))
  else
    (* assuming an RMG Species is not a TS *)
    let arc_spc := new_ARCSpecies E false rmg_spc in
    l <- getlist "arc_species_list" ;;
    setattr "arc_species_list" (VList (l ++ [arc_spc])%list).

(** Lines 189 to 204 *)
Definition store_lists (a : init_args) : M unit :=
  setattr "arc_species_list" (VList []) ;;
  l <- getlist "arc_species_list" ;;
  setattr "arc_species_list" (VList (l ++ arc_species_list a)%list) ;;
  setattr "rmg_species_list" (VList (rmg_species_list a)) ;;
  rl <- getattr "rmg_species_list" ;;
  (if truth rl then
     rl <- getlist "rmg_species_list" ;;
     for_each rl add_rmg_species
   else ret tt) ;;
  setattr "rxn_list" (VList (rxn_list a)) ;;
  setattr "scheduler" VNone.

(** Lines 62 to 187: the configuration and its levels of theory. *)
Definition resolve (a : init_args) : M unit :=
  init_attributes a ;;
  check_separators a ;;
  resolve_conformer_level a ;;
  resolve_levels a ;;
  resolve_scan_level a.

(** [ARC.__init__] *)
Definition __init__ (a : init_args) : M unit :=
  resolve a ;;
  store_lists a.

(** [ARC.summary] *)
Definition summary : M unit :=
  logging_info (nl ++ nl ++ nl ++ "All jobs terminated. Project summary:" ++ nl) ;;
  _ <- getattr "scheduler" ;;
  for_each (scheduler_output E)
    (fun '(label, status) =>
       if status =? "converged" then
         logging_info ("Species " ++ label ++ " converged successfully")
       else
         logging_info ("Species " ++ label ++ " failed with message:" ++ nl ++ "  " ++ status)).

(** Lines 209 to 212: the body of the loop over the species. *)
Definition consider_species (species : py_obj) : M unit :=
  if negb (isinstance species ARCSpecies) then
    raise (ValueError ("All species in species_list must be ARCSpecies objects."
                       ++ " Got " ++ obj_type species))
  else logging_info ("Considering species: " ++ obj_label species).

(** Lines 215 to 218: the body of the loop over the reactions. *)
Definition consider_reaction (rxn : py_obj) : M unit :=
  if negb (isinstance rxn Reaction) then
    logging_error ("`rxn_list` must be a list of RMG.Reaction objects. Got " ++ obj_type rxn) ;;
    raise (ValueError "")
  else logging_info ("Considering reacrion " ++ obj_str rxn).

(** [ARC.execute] *)
Definition execute : M unit :=
  logging_info (nl ++ nl) ;;
  sl <- getlist "arc_species_list" ;;
  for_each sl consider_species ;;
  logging_info nl ;;
  rl <- getlist "rxn_list" ;;
  for_each rl consider_reaction ;;
  logging_info nl ;;
  project <- getattr "project" ;;
  species_list <- getattr "arc_species_list" ;;
  composite_method <- getattr "composite_method" ;;
  conformer_level <- getattr "conformer_level" ;;
  opt_level <- getattr "opt_level" ;;
  freq_level <- getattr "freq_level" ;;
  sp_level <- getattr "sp_level" ;;
  scan_level <- getattr "scan_level" ;;
  fine <- getattr "fine" ;;
  generate_conformers <- getattr "generate_conformers" ;;
  scan_rotors <- getattr "scan_rotors" ;;
  emit (SchedulerRun [("project", project); ("species_list", species_list);
                      ("composite_method", composite_method);
                      ("conformer_level", conformer_level);
                      ("opt_level", opt_level); ("freq_level", freq_level);
                      ("sp_level", sp_level); ("scan_level", scan_level);
                      ("fine", fine); ("generate_conformers", generate_conformers);
                      ("scan_rotors", scan_rotors)]) ;;
  setattr "scheduler" VScheduler ;;
  project <- getattr "project" ;;
  _ <- getattr "scheduler" ;;
  _ <- getattr "scheduler" ;;
  use_bac <- getattr "use_bac" ;;
  model_chemistry <- getattr "model_chemistry" ;;
  emit (ProcessorProcess [("project", project); ("use_bac", use_bac);
                          ("model_chemistry", model_chemistry)]) ;;
  summary ;;
  log_footer INFO.

(** A world with no object yet and nothing done. *)
Definition start : world := mk_world no_attrs [].

(** [ARC(...)]: the outcome of the constructor and the world it leaves. *)
Definition construct (a : init_args) : (exn + unit) * world := __init__ a start.

(** [ARC(...).execute()] *)
Definition construct_and_execute (a : init_args) : (exn + unit) * world :=
  (__init__ a ;; execute) start.

End Run.

(** *** What the properties speak of *)

(** The attribute [name] of the object in [w], when it is a string. *)
Definition attr_str (w : world) (name : string) : option string :=
  match self w name with
  | Some (VStr s) => Some s
  | _ => None
  end.

Definition raised {A} (r : (exn + A) * world) : option exn :=
  match fst r with inl e => Some e | inr _ => None end.

Definition succeeded {A} (r : (exn + A) * world) : bool :=
  match fst r with inl _ => false | inr _ => true end.

Definition is_InputError (e : exn) : bool :=
  match e with InputError _ => true | _ => false end.

Definition is_ValueError (e : exn) : bool :=
  match e with ValueError _ => true | _ => false end.

(** No job was handed to a server. *)
Definition no_remote_work (w : world) : Prop :=
  forallb (fun ev => negb (is_remote_work ev)) (trace w) = true.

(** The attributes that hold a level of theory. *)
Definition level_attributes : list string :=
  ["conformer_level"; "composite_method"; "opt_level"; "freq_level"; "sp_level"; "scan_level"].

(** *** The attributes each block of the constructor leaves *)

(** After lines 62 to 87. *)
Definition plain_attributes (E : env) (a : init_args) (d : string -> option value)
  : string -> option value :=
  upd (upd (upd (upd (upd (upd (upd (upd (upd (upd d
    "project" (VStr (project a)))
    "t0" (VNum (time_time E)))
    "output_directory" (VStr (path_join (path_join (arc_path E) "Projects") (project a))))
    "fine" (VBool (fine a)))
    "generate_conformers" (VBool (generate_conformers a)))
    "scan_rotors" (VBool (scan_rotors a)))
    "use_bac" (VBool (use_bac a)))
    "model_chemistry" (VStr (model_chemistry a)))
    "output" (VDict []))
    "verbose" (VNum (verbose a)).

(** The value lines 94 to 103 store in [conformer_level]. *)
Definition conformer_value (E : env) (a : init_args) : string :=
  if truthy (conformer_level a) then lower (conformer_level a)
  else if generate_conformers a then lower (default_levels_of_theory E "conformer")
  else "".

(** The attributes lines 106 to 125 store. *)
Definition level_of_theory_attributes (a : init_args) (d : string -> option value)
  : string -> option value :=
  let lot := level_of_theory a in
  if negb (contains "/" lot) then upd d "composite_method" (VStr (lower lot))
  else if contains "//" lot then
    upd (upd (upd d
      "opt_level" (VStr (item (split "//" (lower lot)) 1)))
      "freq_level" (VStr (item (split "//" (lower lot)) 1)))
      "sp_level" (VStr (item (split "//" (lower lot)) 0))
  else if contains "/" lot && negb (contains "//" lot) then
    upd (upd (upd d
      "opt_level" (VStr (lower lot)))
      "freq_level" (VStr (lower lot)))
      "sp_level" (VStr (lower lot))
  else d.

(** Lines 127 to 138 when no [level_of_theory] was given: the outcome and
    the attributes. *)
Definition composite_outcome (a : init_args) : exn + unit :=
  let cm := lower (composite_method a) in
  if truthy cm then
    if cm =? "cbs-qb3" then inr tt
    else if use_bac a then
      inl (InputError ("Could not determine model chemistry to use for composite method " ++ cm))
    else inr tt
  else inr tt.

Definition composite_attributes (a : init_args) (d : string -> option value)
  : string -> option value :=
  let cm := lower (composite_method a) in
  let d1 := upd d "composite_method" (VStr cm) in
  if truthy cm then
    if cm =? "cbs-qb3" then upd d1 "model_chemistry" (VStr cm) else d1
  else d1.

(** The value lines 140 to 149 store in [opt_level]. *)
Definition opt_value (E : env) (a : init_args) : string :=
  if truthy (opt_level a) then lower (opt_level a)
  else if negb (truthy (lower (composite_method a)))
       then lower (default_levels_of_theory E "opt")
       else "".

(** The value lines 151 to 167 store in [freq_level]. *)
Definition freq_value (E : env) (a : init_args) : string :=
  if truthy (freq_level a) then lower (freq_level a)
  else if negb (truthy (lower (composite_method a))) then
         if truthy (opt_level a) then lower (opt_level a)
         else lower (default_levels_of_theory E "freq")
       else lower (default_levels_of_theory E "freq_for_composite").

(** The sp level as [check_model_chemistry] looks it up. *)
Definition normalized_sp_level (sp : string) : string :=
  replace "f12b" "f12" (replace "f12a" "f12" (lower sp)).

(** The model chemistry [check_model_chemistry] infers from an sp level;
    [None] when it gives up, which it does only with [use_bac]. *)
Definition inferred_model_chemistry (use_bac : bool) (sp : string) : option string :=
  let sp_level := normalized_sp_level sp in
  if mem sp_level f12_sp_levels then Some (sp_level ++ "-f12")
  else if mem sp_level bac_model_chemistries then Some sp_level
  else if use_bac then None
  else if mem sp_level aec_model_chemistries then Some sp_level
  else Some "".

(** [check_model_chemistry] on an object whose [model_chemistry],
    [sp_level] and [use_bac] are [mc], [sp] and [ub]. *)
Definition check_outcome (mc sp : string) (ub : bool) : exn + unit :=
  if truthy mc then inr tt
  else match inferred_model_chemistry ub sp with
       | Some _ => inr tt
       | None => inl (InputError msg_undetermined)
       end.

Definition check_attributes (mc sp : string) (ub : bool) (d : string -> option value)
  : string -> option value :=
  if truthy mc then upd d "model_chemistry" (VStr (lower mc))
  else match inferred_model_chemistry ub sp with
       | Some m => upd d "model_chemistry" (VStr m)
       | None => d
       end.

(** The model chemistry when lines 169 to 178 are reached. *)
Definition model_chemistry_before_sp (a : init_args) : string :=
  if truthy (lower (composite_method a)) && (lower (composite_method a) =? "cbs-qb3")
  then lower (composite_method a) else model_chemistry a.

(** The value lines 169 to 178 store in [sp_level]. *)
Definition sp_value (E : env) (a : init_args) : string :=
  if truthy (sp_level a) then lower (sp_level a)
  else if negb (truthy (lower (composite_method a)))
       then lower (default_levels_of_theory E "sp")
       else "".

(** Whether lines 169 to 178 call [check_model_chemistry]. *)
Definition checks_model_chemistry (a : init_args) : bool :=
  truthy (sp_level a) || negb (truthy (lower (composite_method a))).

Definition sp_outcome (E : env) (a : init_args) : exn + unit :=
  if checks_model_chemistry a
  then check_outcome (model_chemistry_before_sp a) (sp_value E a) (use_bac a)
  else inr tt.

Definition sp_attributes (E : env) (a : init_args) (d : string -> option value)
  : string -> option value :=
  let d1 := upd d "sp_level" (VStr (sp_value E a)) in
  if checks_model_chemistry a
  then check_attributes (model_chemistry_before_sp a) (sp_value E a) (use_bac a) d1
  else d1.

(** The value lines 180 to 187 store in [scan_level]. *)
Definition scan_value (E : env) (a : init_args) : string :=
  if truthy (scan_level a) then lower (scan_level a)
  else if scan_rotors a then lower (default_levels_of_theory E "scan")
  else "".

(** Lines 127 to 178, the levels given one by one. *)
Definition individual_outcome (E : env) (a : init_args) : exn + unit :=
  match composite_outcome a with
  | inl e => inl e
  | inr _ => sp_outcome E a
  end.

Definition individual_attributes (E : env) (a : init_args) (d : string -> option value)
  : string -> option value :=
  match composite_outcome a with
  | inl _ => composite_attributes a d
  | inr _ =>
      sp_attributes E a
        (upd (upd (composite_attributes a d)
           "opt_level" (VStr (opt_value E a)))
           "freq_level" (VStr (freq_value E a)))
  end.

(** Lines 62 to 187 as a whole. *)
Definition resolve_outcome (E : env) (a : init_args) : exn + unit :=
  if (1 <? count "//" (level_of_theory a))%nat then
    inl (InputError
           ("Level of theory seems wrong. It should either be a composite method (like CBS-QB3)"
            ++ " or be of the form sp//geometry, e.g., CCSD(T)-F12/avtz//wB97x-D3/6-311++g**."
            ++ " Got: " ++ level_of_theory a))
  else if truthy (level_of_theory a) then inr tt
  else individual_outcome E a.

Definition resolve_attributes (E : env) (a : init_args) : string -> option value :=
  let d0 := plain_attributes E a no_attrs in
  if (1 <? count "//" (level_of_theory a))%nat then d0
  else
    let d1 := upd d0 "conformer_level" (VStr (conformer_value E a)) in
    if truthy (level_of_theory a) then
      upd (level_of_theory_attributes a d1) "scan_level" (VStr (scan_value E a))
    else
      match individual_outcome E a with
      | inl _ => individual_attributes E a d1
      | inr _ => upd (individual_attributes E a d1) "scan_level" (VStr (scan_value E a))
      end.

(** The loop of lines 193 to 200: the error of the first entry it refuses. *)
Fixpoint rmg_outcome (l : list py_obj) : exn + unit :=
  match l with
  | [] => inr tt
  | rmg_spc :: rest =>
      if negb (isinstance rmg_spc Species) then
        inl (InputError ("All entries of rmg_species_list have to be RMG Species objects."
                         ++ " Got: " ++ obj_type rmg_spc))
      else if negb (truthy (obj_label rmg_spc)) then
        inl (InputError ("Missing label on RMG Species object " ++ obj_str rmg_spc))
      else rmg_outcome rest
  end.

(** The first loop of [execute]: the error of the first entry it refuses. *)
Fixpoint species_outcome (l : list py_obj) : exn + unit :=
  match l with
  | [] => inr tt
  | species :: rest =>
      if negb (isinstance species ARCSpecies) then
        inl (ValueError ("All species in species_list must be ARCSpecies objects."
                         ++ " Got " ++ obj_type species))
      else species_outcome rest
  end.

(** The second loop of [execute]. *)
Fixpoint reactions_outcome (l : list py_obj) : exn + unit :=
  match l with
  | [] => inr tt
  | rxn :: rest =>
      if negb (isinstance rxn Reaction) then inl (ValueError "")
      else reactions_outcome rest
  end.

(** The outcome of the constructor. *)
Definition init_outcome (E : env) (a : init_args) : exn + unit :=
  match resolve_outcome E a with
  | inl e => inl e
  | inr _ => rmg_outcome (rmg_species_list a)
  end.

(** Some entry of [l] is not an instance of [c]. *)
Definition has_other_than (c : py_class) (l : list py_obj) : bool :=
  existsb (fun x => negb (isinstance x c)) l.

(** No event of the list is a job handed to a server. *)
Definition quiet (t : list event) : bool :=
  forallb (fun ev => negb (is_remote_work ev)) t.

(** Statement [c] run in [w] ends with outcome [r] and attributes [d],
    and hands no job to a server. *)
Definition steps (c : M unit) (w : world) (r : exn + unit) (d : string -> option value) : Prop :=
  exists t, c w = (r, mk_world d t) /\ (quiet (trace w) = true -> quiet t = true).

(** Every string held by an attribute among [names] is lower case. *)
Definition lowercased_on (names : list string) (d : string -> option value) : Prop :=
  forall n v, In n names -> d n = Some (VStr v) -> is_lowercased v.

(** Settings to run examples with. *)
Definition sample_env : env :=
  mk_env "/home/user/ARC"
    (fun key =>
       if key =? "conformer" then "b97-d3/6-311+g(d,p)"
       else if key =? "opt" then "wb97x-d3/6-311+g(d,p)"
       else if key =? "freq" then "wb97x-d3/6-311+g(d,p)"
       else if key =? "sp" then "ccsd(t)-f12/cc-pvtz-f12"
       else if key =? "scan" then "b3lyp/6-311+g(d,p)"
       else if key =? "freq_for_composite" then "b3lyp/cbsb7"
       else "")
    (fun _ => true) 0 "Mon May  6 10:00:00 2019" "Mon May  6 11:00:00 2019" "01:00:00"
    (fun is_ts spc => mk_obj ARCSpecies (obj_label spc) "<class 'arc.species.ARCSpecies'>" (obj_str spc))
    [].

(** Arguments of the examples. *)
Definition with_level_of_theory (lot : string) : init_args :=
  mk_args "demo" [] [] [] lot "" "" "" "" "" "" true true true true "" INFO.

Definition with_composite_method (cm : string) : init_args :=
  mk_args "demo" [] [] [] "" "" cm "" "" "" "" true true true true "" INFO.

(** An [opt_level] on its own, with conformers and rotor scans off. *)
Definition with_opt_level_only (opt : string) : init_args :=
  mk_args "demo" [] [] [] "" "" "" opt "" "" "" true false false true "" INFO.

(** Entries of the lists in the examples. *)
Definition a_species : py_obj :=
  mk_obj Species "CH4" "<class 'rmgpy.species.Species'>" "CH4".

Definition an_integer : py_obj := mk_obj OtherClass "" "<type 'int'>" "42".

Definition with_lists (rmg arc rxn : list py_obj) : init_args :=
  mk_args "demo" rmg arc rxn "" "" "" "" "" "" "" true true true true "" INFO.

Definition with_model_chemistry (lot mc : string) : init_args :=
  mk_args "demo" [] [] [] lot "" "" "" "" "" "" true true true true mc INFO.

End ARC.

(* ===================================================================== *)
(** ** Notions for further properties of the [ARC] object *)
(* ===================================================================== *)

Module ARCNotions.
Import PyStr ARC.

(** An entry the loop of lines 193 to 200 accepts: an RMG [Species] that
    has a label. *)
Definition labelled_species (x : py_obj) : bool :=
  isinstance x Species && truthy (obj_label x).

(** The arguments [a] with other levels given one by one. *)
Definition with_individual_levels (a : init_args) (cm opt freq sp : string) : init_args :=
  mk_args (project a) (rmg_species_list a) (arc_species_list a) (rxn_list a)
    (level_of_theory a) (conformer_level a) cm opt freq sp (scan_level a)
    (fine a) (generate_conformers a) (scan_rotors a) (use_bac a)
    (model_chemistry a) (verbose a).

(** The attributes the constructor assigns before and after the lists. *)
Definition is_list_attribute (n : string) : bool :=
  (n =? "arc_species_list") || (n =? "rmg_species_list")
  || (n =? "rxn_list") || (n =? "scheduler").

(** The messages of the [InputError]s of the constructor. *)
Definition msg_separators (level_of_theory : string) : string :=
  "Level of theory seems wrong. It should either be a composite method (like CBS-QB3)"
  ++ " or be of the form sp//geometry, e.g., CCSD(T)-F12/avtz//wB97x-D3/6-311++g**."
  ++ " Got: " ++ level_of_theory.

Definition msg_composite (composite_method : string) : string :=
  "Could not determine model chemistry to use for composite method " ++ composite_method.

Definition msg_not_species (x : py_obj) : string :=
  "All entries of rmg_species_list have to be RMG Species objects."
  ++ " Got: " ++ obj_type x.

Definition msg_no_label (x : py_obj) : string :=
  "Missing label on RMG Species object " ++ obj_str x.

Definition msg_either : string := "Specify either composite_method or level_of_theory".

(** Arguments of the examples. *)
Definition without_bac (lot cm sp : string) : init_args :=
  mk_args "demo" [] [] [] lot "" cm "" "" sp "" true true true false "" INFO.

Definition unlabelled_species : py_obj :=
  mk_obj Species "" "<class 'rmgpy.species.Species'>" "<Species>".

(** What [execute] logs for an entry it accepts, and its errors. *)
Definition considering_species (species : py_obj) : event :=
  Log INFO ("Considering species: " ++ obj_label species).

Definition considering_reaction (rxn : py_obj) : event :=
  Log INFO ("Considering reacrion " ++ obj_str rxn).

Definition msg_not_arc_species (species : py_obj) : string :=
  "All species in species_list must be ARCSpecies objects."
  ++ " Got " ++ obj_type species.

Definition msg_not_reaction (rxn : py_obj) : string :=
  "`rxn_list` must be a list of RMG.Reaction objects. Got " ++ obj_type rxn.

(** The keyword arguments of [Scheduler] and of [Processor] in [execute],
    each with the attribute of [self] it is read from. *)
Definition scheduler_arguments : list (string * string) :=
  [("project", "project"); ("species_list", "arc_species_list");
   ("composite_method", "composite_method"); ("conformer_level", "conformer_level");
   ("opt_level", "opt_level"); ("freq_level", "freq_level");
   ("sp_level", "sp_level"); ("scan_level", "scan_level");
   ("fine", "fine"); ("generate_conformers", "generate_conformers");
   ("scan_rotors", "scan_rotors")].

Definition processor_arguments : list (string * string) :=
  [("project", "project"); ("use_bac", "use_bac"); ("model_chemistry", "model_chemistry")].

(** The keyword arguments read from the attributes [d]; [None] when one
    of the attributes is not assigned. *)
Fixpoint read_arguments (d : string -> option value) (names : list (string * string))
  : option (list (string * value)) :=
  match names with
  | [] => Some []
  | (keyword, attribute) :: rest =>
      match d attribute, read_arguments d rest with
      | Some v, Some kwargs => Some ((keyword, v) :: kwargs)
      | _, _ => None
      end
  end.

(** The lines [summary] and [log_footer] write. *)
Definition summary_line (entry : string * string) : event :=
  let '(label, status) := entry in
  if status =? "converged"
  then Log INFO ("Species " ++ label ++ " converged successfully")
  else Log INFO ("Species " ++ label ++ " failed with message:" ++ nl ++ "  " ++ status).

Definition closing_lines (E : env) : list event :=
  (Log INFO (nl ++ nl ++ nl ++ "All jobs terminated. Project summary:" ++ nl)
   :: map summary_line (scheduler_output E))
  ++ [Log INFO ""; Log INFO ("Total execution time: " ++ execution_time E);
      Log INFO ("ARC execution terminated at " ++ asctime_footer E)].

(** Settings whose [ARCSpecies] constructor gives an [ARCSpecies]. *)
Definition makes_arc_species (E : env) : Prop :=
  forall is_ts x, isinstance (new_ARCSpecies E is_ts x) ARCSpecies = true.

Definition a_reaction : py_obj :=
  mk_obj Reaction "" "<class 'rmgpy.reaction.Reaction'>" "CH4 + OH <=> CH3 + H2O".

Definition an_arc_species : py_obj :=
  mk_obj ARCSpecies "OH" "<class 'arc.species.ARCSpecies'>" "OH".

(** The handlers of the root logger. *)
Definition is_handler (ev : event) : bool :=
  match ev with StreamHandler _ | FileHandler _ _ => true | _ => false end.

(** The directory of the project and its log file. *)
Definition project_directory (E : env) (a : init_args) : string :=
  path_join (path_join (arc_path E) "Projects") (project a).

Definition log_file (E : env) (a : init_args) : string :=
  path_join (project_directory E a) "arc.log".

(** What lines 72 to 82 log, before the log is set up. *)
Definition early_lines (a : init_args) : list event :=
  ((if truthy (model_chemistry a)
    then [Log INFO (msg_model_chemistry (model_chemistry a))] else [])
   ++ (if fine a then []
       else [Log INFO nl;
             Log WARNING "Not using a fine grid for geometry optimization jobs";
             Log INFO nl])
   ++ (if scan_rotors a then []
       else [Log INFO nl;
             Log WARNING ("Not running rotor scans."
                          ++ " This might compromise geometry as dihedral angles won't be corrected");
             Log INFO nl]))%list.

(** The header [log_header] writes. *)
Definition header_lines (E : env) : list event :=
  map (Log INFO)
    ["ARC execution initiated at " ++ asctime_header E;
     "";
     "###############################################################";
     "#                                                             #";
     "#                            ARC                              #";
     "#                                                             #";
     "#   Version: 0.1                                              #";
     "#                                                             #";
     "###############################################################";
     ""].

(** Lines 62 to 87 as seen from outside. *)
Definition startup (E : env) (a : init_args) : list event :=
  ((if path_exists E (project_directory E a) then [] else [Makedirs (project_directory E a)])
   ++ early_lines a
   ++ StreamHandler (verbose a)
      :: FileHandler (log_file E a) (Z.min DEBUG (verbose a))
      :: header_lines E
   ++ [Log INFO ("Starting project " ++ project a ++ nl ++ nl)])%list.

(** Arguments that switch the fine grid and the rotor scans off. *)
Definition coarse_args : init_args :=
  mk_args "demo" [] [] [] "a//b//c" "" "" "" "" "" "" false true false true "" WARNING.

(** Statement [c] adds events to those there are, all of them of kind [P]. *)
Definition appends {A} (P : event -> bool) (c : M A) : Prop :=
  forall w, exists t, trace (snd (c w)) = (trace w ++ t)%list /\ forallb P t = true.

(** Arguments with a list of [ARCSpecies] and an [sp_level]. *)
Definition with_species_and_sp_level (arc : list py_obj) (sp : string) : init_args :=
  mk_args "demo" [] arc [] "" "" "" "" "" sp "" true true true true "" INFO.

End ARCNotions.

(* ===================================================================== *)
(** ** [delete_all_arc_jobs] of [arc/main.py] *)
(* ===================================================================== *)

Module Cluster.
Import PyStr.

(** [\d] of the [re] module on a byte string. *)
Definition is_digit (c : ascii) : bool :=
  ((48 <=? nat_of_ascii c) && (nat_of_ascii c <=? 57))%nat.

(** The longest run of digits a string starts with, what [\d+] takes. *)
Fixpoint leading_digits (s : string) : string :=
  match s with
  | EmptyString => EmptyString
  | String c s' => if is_digit c then String c (leading_digits s') else EmptyString
  end.

(** What [re.match] and [re.search] return when the pattern is found:
    where it starts and the text it covers. *)
Record match_object : Type := mk_match {
  match_start : nat;
  match_text : string
}.

(** The text [' a\d+'] covers when it is found at the start of [s]. *)
Definition arc_job_here (s : string) : option string :=
  match s with
  | String c1 (String c2 (String c3 rest)) =>
      if Ascii.eqb c1 " " && Ascii.eqb c2 "a" && is_digit c3
      then Some (String c1 (String c2 (leading_digits (String c3 rest))))
      else None
  | _ => None
  end.

(** [re.match(' a\d', s)]: the pattern at the start of [s] only. *)
Definition re_match_arc_job (s : string) : option match_object :=
  match s with
  | String c1 (String c2 (String c3 _)) =>
      if Ascii.eqb c1 " " && Ascii.eqb c2 "a" && is_digit c3
      then Some (mk_match 0 (String c1 (String c2 (String c3 ""))))
      else None
  | _ => None
  end.

(** [re.search(' a\d+', s)]: the leftmost place where the pattern is found,
    [i] characters having been passed. *)
Fixpoint re_search_from (i : nat) (s : string) : option match_object :=
  match arc_job_here s with
  | Some text => Some (mk_match i text)
  | None =>
      match s with
      | EmptyString => None
      | String _ s' => re_search_from (S i) s'
      end
  end.

Definition re_search_arc_job (s : string) : option match_object := re_search_from 0 s.

(** What the function can raise: a key missing from the settings, or
    whatever [SSH_Client.delete_job] raises. *)
Inductive exn : Type :=
| KeyError (key : string)
| DeleteError (what : string).

(** What the function does to the outside, in order. *)
Inductive action : Type :=
| Info (msg : string)
| NewClient (server_name : string)
| SendCommand (server_name cmd : string)
| DeleteJob (server_name : string) (job_id : option match_object).

Definition is_delete (x : action) : bool :=
  match x with DeleteJob _ _ => true | _ => false end.

Definition connects (x : action) : bool :=
  match x with NewClient _ | SendCommand _ _ => true | _ => false end.

Section Settings.

(** [arc.settings.servers]: the settings of each server by name, each a
    dictionary itself. *)
Variable servers : string -> option (string -> option string).

(** [arc.settings.check_status_command]: the status command of each
    cluster software. *)
Variable check_status_command : string -> option string.

(** The lines [SSH_Client(server).send_command_to_server(cmd)] returns as
    standard output. *)
Variable remote_stdout : string -> string -> list string.

(** [SSH_Client(server).delete_job(job_id)]: what it raises, if anything. *)
Variable delete_job : string -> option match_object -> option exn.

(** The text [format] makes of a match object, or of [None]. *)
Variable match_repr : option match_object -> string.

(** Lines 377 to 381: the loop over the status lines. *)
Fixpoint delete_arc_jobs (server_name : string) (stdout : list string)
  : (exn + unit) * list action :=
  match stdout with
  | [] => (inr tt, [])
  | status_line :: rest =>
      match re_match_arc_job status_line with
      | Some _ =>
          let job_id := re_search_arc_job status_line in
          match delete_job server_name job_id with
          | Some e => (inl e, [DeleteJob server_name job_id])
          | None =>
              (fst (delete_arc_jobs server_name rest),
               DeleteJob server_name job_id
               :: Info ("deleted job " ++ match_repr job_id)
               :: snd (delete_arc_jobs server_name rest))
          end
      | None => delete_arc_jobs server_name rest
      end
  end.

(** [delete_all_arc_jobs(server_name)]: the outcome and what was done. *)
Definition delete_all_arc_jobs (server_name : string) : (exn + unit) * list action :=
  let announce := Info ("Deleting all ARC jobs from " ++ server_name) in
  match servers server_name with
  | None => (inl (KeyError server_name), [announce])
  | Some server =>
      match server "cluster_soft" with
      | None => (inl (KeyError "cluster_soft"), [announce])
      | Some cluster_soft =>
          match check_status_command cluster_soft with
          | None => (inl (KeyError cluster_soft), [announce])
          | Some status_command =>
              match server "un" with
              | None => (inl (KeyError "un"), [announce])
              | Some un =>
                  let cmd := status_command ++ " -u " ++ un in
                  let stdout := remote_stdout server_name cmd in
                  (fst (delete_arc_jobs server_name stdout),
                   announce :: NewClient server_name :: SendCommand server_name cmd
                   :: snd (delete_arc_jobs server_name stdout))
              end
          end
      end
  end.

(** The status command with the user name, when the settings have the
    server, its cluster software, its user name and the status command of
    that software. *)
Definition status_query (server_name : string) : option string :=
  match servers server_name with
  | Some server =>
      match server "cluster_soft", server "un" with
      | Some soft, Some un =>
          match check_status_command soft with
          | Some status_command => Some (status_command ++ " -u " ++ un)
          | None => None
          end
      | _, _ => None
      end
  | None => None
  end.

End Settings.

(** A line [re.match(' a\d', line)] accepts. *)
Definition is_arc_job_line (line : string) : bool :=
  match re_match_arc_job line with Some _ => true | None => false end.

(** Settings and a queue to run examples with: the rows of [sshTest.py]
    and one line that starts with a job name. *)
Definition sample_servers (name : string) : option (string -> option string) :=
  if name =? "server1"
  then Some (fun key => if key =? "cluster_soft" then Some "OGE"
                        else if key =? "un" then Some "alongd" else None)
  else None.

Definition sample_status_command (soft : string) : option string :=
  if soft =? "OGE" then Some "qstat" else None.

Definition sample_queue : list string :=
  [" 582682 0.45451 a9654      alongd       e     04/17/2019 16:22:14 long5@node93.cluster              48";
   " a14121 alongd";
   " 588345 0.45451 a14121     alongd       r     05/08/2019 02:11:42 long3@node69.cluster              48"].

Definition sample_repr (m : option match_object) : string :=
  match m with
  | Some m => "<match " ++ match_text m ++ ">"
  | None => "None"
  end.

Definition sample_run : string -> (exn + unit) * list action :=
  delete_all_arc_jobs sample_servers sample_status_command
    (fun _ _ => sample_queue) (fun _ _ => None) sample_repr.

End Cluster.

(* ===================================================================== *)
(** ** Facts about the string methods *)
(* ===================================================================== *)

Module PyStrFacts.
Import PyStr.

Lemma lower_char_fixed (c : ascii) : lower_char c = c <-> is_upper c = false.
Proof.
  destruct c as [[] [] [] [] [] [] [] []]; vm_compute; split; congruence.
Qed.

Lemma lower_char_not_upper (c : ascii) : is_upper (lower_char c) = false.
Proof.
  destruct c as [[] [] [] [] [] [] [] []]; reflexivity.
Qed.

Lemma slash_lower_char (c : ascii) : Ascii.eqb "/" (lower_char c) = Ascii.eqb "/" c.
Proof.
  destruct c as [[] [] [] [] [] [] [] []]; reflexivity.
Qed.

Lemma truthy_true (s : string) : truthy s = true <-> s <> "".
Proof.
  unfold truthy. destruct s; simpl; split; congruence.
Qed.

Lemma truthy_false (s : string) : truthy s = false <-> s = "".
Proof.
  unfold truthy. destruct s; simpl; split; congruence.
Qed.

Lemma append_empty_r (s : string) : s ++ "" = s.
Proof.
  induction s as [|c s IH]; simpl; [reflexivity | now rewrite IH].
Qed.

Lemma append_assoc (a b c : string) : (a ++ b) ++ c = a ++ (b ++ c).
Proof.
  induction a as [|x a IH]; simpl; [reflexivity | now rewrite IH].
Qed.

Lemma lower_append (a b : string) : lower (a ++ b) = lower a ++ lower b.
Proof.
  induction a as [|x a IH]; simpl; [reflexivity | now rewrite IH].
Qed.

Lemma no_upper_append (a b : string) :
  no_upper (a ++ b) = no_upper a && no_upper b.
Proof.
  induction a as [|x a IH]; simpl; [reflexivity |].
  rewrite IH. now rewrite andb_assoc.
Qed.

Lemma no_upper_lower (s : string) : no_upper (lower s) = true.
Proof.
  induction s as [|c s IH]; simpl; [reflexivity |].
  now rewrite lower_char_not_upper, IH.
Qed.

(** Being a fixed point of [lower] is having no upper-case letter. *)
Lemma is_lowercased_iff (s : string) : is_lowercased s <-> no_upper s = true.
Proof.
  unfold is_lowercased. induction s as [|c s IH]; simpl.
  - tauto.
  - rewrite andb_true_iff, negb_true_iff, <- IH, <- lower_char_fixed.
    split; [intros H; injection H; auto | intros [-> ->]; reflexivity].
Qed.

Lemma lower_is_lowercased (s : string) : is_lowercased (lower s).
Proof. apply is_lowercased_iff, no_upper_lower. Qed.

Lemma empty_is_lowercased : is_lowercased "".
Proof. reflexivity. Qed.

(** The pieces of a split carry only characters of the string. *)
Lemma split_go_no_upper (sep : string) (s : string) :
  forall skip cur,
    no_upper cur = true -> no_upper s = true ->
    Forall (fun p => no_upper p = true) (split_go sep skip cur s).
Proof.
  induction s as [|c s IH]; intros skip cur Hc Hs; simpl.
  - constructor; [assumption | constructor].
  - simpl in Hs. apply andb_true_iff in Hs as [Hx Hs].
    destruct skip as [|k].
    + destruct (startswith sep (String c s)).
      * constructor; [assumption | now apply IH].
      * apply IH; [| assumption].
        rewrite no_upper_append, Hc. simpl. now rewrite Hx.
    + now apply IH.
Qed.

Lemma item_no_upper (l : list string) (i : nat) :
  Forall (fun p => no_upper p = true) l -> no_upper (item l i) = true.
Proof.
  intros H. unfold item. revert i.
  induction H as [|x l Hx _ IH]; intros [|i]; simpl; auto.
Qed.

Lemma split_item_lowercased (sep s : string) (i : nat) :
  is_lowercased (item (split sep (lower s)) i).
Proof.
  apply is_lowercased_iff, item_no_upper, split_go_no_upper;
    [reflexivity | apply no_upper_lower].
Qed.

Lemma replace_go_no_upper (old new s : string) :
  no_upper new = true ->
  forall skip, no_upper s = true -> no_upper (replace_go old new skip s) = true.
Proof.
  intros Hn. induction s as [|c s IH]; intros skip Hs; simpl; [reflexivity |].
  simpl in Hs. apply andb_true_iff in Hs as [Hx Hs].
  destruct skip as [|k]; [| now apply IH].
  destruct (startswith old (String c s)).
  - rewrite no_upper_append, Hn. now apply IH.
  - simpl. rewrite Hx. now apply IH.
Qed.

Lemma replace_no_upper (old new s : string) :
  no_upper new = true -> no_upper s = true -> no_upper (replace old new s) = true.
Proof. intros Hn Hs. now apply replace_go_no_upper. Qed.

(** *** Splitting at a separator *)

Lemma startswith_append (sep r : string) : startswith sep (sep ++ r) = true.
Proof.
  induction sep as [|c sep IH]; simpl; [reflexivity |].
  now rewrite Ascii.eqb_refl, IH.
Qed.

Lemma startswith_decompose (sep s : string) :
  startswith sep s = true -> exists r, s = sep ++ r.
Proof.
  revert s. induction sep as [|c sep IH]; intros s H; simpl in *.
  - now exists s.
  - destruct s as [|b s]; [discriminate |].
    apply andb_true_iff in H as [Hc Hs]. apply Ascii.eqb_eq in Hc. subst b.
    destruct (IH s Hs) as [r ->]. now exists r.
Qed.

Lemma find_cons (sep : string) (c : ascii) (s : string) :
  find sep (String c s)
  = if startswith sep (String c s) then Some 0 else option_map S (find sep s).
Proof. reflexivity. Qed.

(** A string that has the separator splits around its leftmost one. *)
Lemma find_decompose (sep s : string) (n : nat) :
  find sep s = Some n ->
  exists l r, s = l ++ sep ++ r /\ String.length l = n.
Proof.
  revert n. induction s as [|c s IH]; intros n H.
  - simpl in H. destruct (startswith sep "") eqn:Hp; [| discriminate].
    injection H as <-. destruct (startswith_decompose _ _ Hp) as [r Hr].
    exists "", r. now split.
  - rewrite find_cons in H. destruct (startswith sep (String c s)) eqn:Hp.
    + injection H as <-. destruct (startswith_decompose _ _ Hp) as [r Hr].
      exists "", r. now split.
    + destruct (find sep s) as [m|] eqn:Hf; [| discriminate].
      simpl in H. injection H as <-.
      destruct (IH m eq_refl) as (l & r & -> & Hl).
      exists (String c l), r. simpl. now rewrite Hl.
Qed.

Section Separator.

(** A separator with at least one character. *)
Variable c0 : ascii.
Variable sep' : string.
Let sep : string := String c0 sep'.

Lemma count_go_skip (x r : string) :
  count_go sep (String.length x) (x ++ r) = count_go sep 0 r.
Proof.
  induction x as [|c x IH]; simpl; [reflexivity | exact IH].
Qed.

Lemma split_go_skip (x r cur : string) :
  split_go sep (String.length x) cur (x ++ r) = split_go sep 0 cur r.
Proof.
  induction x as [|c x IH]; simpl; [reflexivity | exact IH].
Qed.

Lemma count_go_at_separator (r : string) :
  count_go sep 0 (sep ++ r) = S (count_go sep 0 r).
Proof.
  unfold sep. cbn [append count_go].
  change (String c0 (sep' ++ r)) with (String c0 sep' ++ r).
  rewrite startswith_append.
  replace (String.length (String c0 sep') - 1) with (String.length sep')
    by (simpl; lia).
  now rewrite count_go_skip.
Qed.

Lemma split_go_at_separator (cur r : string) :
  split_go sep 0 cur (sep ++ r) = cur :: split_go sep 0 "" r.
Proof.
  unfold sep. cbn [append split_go].
  change (String c0 (sep' ++ r)) with (String c0 sep' ++ r).
  rewrite startswith_append.
  replace (String.length (String c0 sep') - 1) with (String.length sep')
    by (simpl; lia).
  now rewrite split_go_skip.
Qed.

Lemma count_at_find (l r : string) :
  find sep (l ++ sep ++ r) = Some (String.length l) ->
  count_go sep 0 (l ++ sep ++ r) = S (count_go sep 0 r).
Proof.
  induction l as [|c l IH]; intros H.
  - apply count_go_at_separator.
  - cbn [append] in *. rewrite find_cons in H. cbn [count_go].
    destruct (startswith sep (String c (l ++ sep ++ r))); [discriminate |].
    destruct (find sep (l ++ sep ++ r)) as [m|] eqn:Hf; [| discriminate].
    simpl in H. injection H as ->. now apply IH.
Qed.

Lemma split_at_find (l r : string) :
  forall cur,
    find sep (l ++ sep ++ r) = Some (String.length l) ->
    split_go sep 0 cur (l ++ sep ++ r) = (cur ++ l) :: split_go sep 0 "" r.
Proof.
  induction l as [|c l IH]; intros cur H.
  - rewrite append_empty_r. apply split_go_at_separator.
  - cbn [append] in *. rewrite find_cons in H. cbn [split_go].
    destruct (startswith sep (String c (l ++ sep ++ r))); [discriminate |].
    destruct (find sep (l ++ sep ++ r)) as [m|] eqn:Hf; [| discriminate].
    simpl in H. injection H as ->.
    rewrite IH by reflexivity. now rewrite append_assoc.
Qed.

Lemma split_without_separator (r : string) :
  forall cur, count_go sep 0 r = 0 -> split_go sep 0 cur r = [cur ++ r].
Proof.
  induction r as [|c r IH]; intros cur H.
  - now rewrite append_empty_r.
  - cbn [count_go split_go] in *.
    destruct (startswith sep (String c r)); [discriminate |].
    rewrite IH by assumption. now rewrite append_assoc.
Qed.

Lemma count_positive_find (s : string) :
  forall k, 0 < count_go sep k s -> exists n, find sep s = Some n.
Proof.
  induction s as [|c s IH]; intros k H; [simpl in H; lia |].
  rewrite find_cons. cbn [count_go] in H.
  destruct (startswith sep (String c s)) eqn:Hp; [now exists 0 |].
  destruct k as [|k]; destruct (IH _ H) as [n ->]; now exists (S n).
Qed.

(** With exactly one separator, the split has the part left of it and
    the part right of it. *)
Lemma split_once (s : string) :
  count sep s = 1 ->
  exists l r, s = l ++ sep ++ r /\ find sep s = Some (String.length l)
              /\ split sep s = [l; r].
Proof.
  intros H. unfold count in H.
  destruct (count_positive_find s 0) as [n Hn]; [lia |].
  destruct (find_decompose _ _ _ Hn) as (l & r & -> & <-).
  exists l, r. split; [reflexivity |]. split; [assumption |].
  rewrite count_at_find in H by assumption.
  unfold split. rewrite split_at_find by assumption.
  now rewrite split_without_separator by lia.
Qed.

End Separator.

Lemma startswith_slash_lower (s : string) :
  startswith "/" (lower s) = startswith "/" s.
Proof.
  destruct s as [|a s]; cbn [lower startswith]; [reflexivity |].
  now rewrite slash_lower_char.
Qed.

Lemma startswith_slashes_lower (s : string) :
  startswith "//" (lower s) = startswith "//" s.
Proof.
  destruct s as [|a [|b s]]; cbn [lower startswith];
    rewrite ?slash_lower_char; reflexivity.
Qed.

Lemma split_go_slashes_lower (s : string) :
  forall k cur,
    split_go "//" k (lower cur) (lower s) = map lower (split_go "//" k cur s).
Proof.
  induction s as [|c s IH]; intros k cur; [reflexivity |].
  cbn [lower split_go]. destruct k as [|k]; [| apply IH].
  change (String (lower_char c) (lower s)) with (lower (String c s)).
  rewrite startswith_slashes_lower.
  destruct (startswith "//" (String c s)).
  - cbn [map]. f_equal. apply (IH _ "").
  - rewrite <- IH. now rewrite lower_append.
Qed.

Lemma split_slashes_lower (s : string) :
  split "//" (lower s) = map lower (split "//" s).
Proof. apply (split_go_slashes_lower s 0 ""). Qed.

Lemma find_slashes_slash (s : string) (n : nat) :
  find "//" s = Some n -> contains "/" s = true.
Proof.
  unfold contains. revert n. induction s as [|c s IH]; intros n H; [discriminate |].
  rewrite find_cons in *. destruct (startswith "//" (String c s)) eqn:Hp.
  - assert (Hq : startswith "/" (String c s) = true).
    { simpl in *. destruct s; [now rewrite andb_false_r in Hp |].
      now apply andb_true_iff in Hp as [-> _]. }
    now rewrite Hq.
  - destruct (find "//" s) as [m|] eqn:Hf; [| discriminate].
    specialize (IH m eq_refl).
    destruct (startswith "/" (String c s)); [reflexivity |].
    destruct (find "/" s); [reflexivity | discriminate].
Qed.

Lemma lower_empty (s : string) : lower s = "" <-> s = "".
Proof. destruct s; simpl; split; congruence. Qed.

Lemma truthy_lower (s : string) : truthy (lower s) = truthy s.
Proof. now destruct s. Qed.

(** *** The methods on examples *)

Example lower_example :
  lower "CCSD(T)-F12a/aug-cc-pVTZ" = "ccsd(t)-f12a/aug-cc-pvtz".
Proof. reflexivity. Qed.

Example count_example :
  count "//" "a//b" = 1 /\ count "//" "a///b" = 1 /\ count "//" "a////b///c" = 3.
Proof. repeat split. Qed.

Example split_example :
  split "//" "a///b//" = ["a"; "/b"; ""] /\ split "//" "cbs-qb3" = ["cbs-qb3"].
Proof. repeat split. Qed.

Example replace_example :
  replace "f12a" "f12" "ccsd(t)-f12a/cc-pvtz-f12a" = "ccsd(t)-f12/cc-pvtz-f12".
Proof. reflexivity. Qed.

Example split_ws_example :
  split_ws "  582682 0.45451   a9654 " = ["582682"; "0.45451"; "a9654"].
Proof. reflexivity. Qed.

Example str_of_int_example :
  str_of_int 588345 = "588345" /\ str_of_int 0 = "0" /\ str_of_int (-12) = "-12".
Proof. repeat split. Qed.

End PyStrFacts.

(* ===================================================================== *)
(** ** The queue-status parser: properties *)
(* ===================================================================== *)

Module SSHFacts.
Import PyStr PyStrFacts SSH.

Lemma line_matches_iff (j : job_id) (line : string) :
  line_matches j line = true <-> job_id_field line = Some (str j).
Proof.
  unfold line_matches. destruct (job_id_field line) as [f|].
  - rewrite String.eqb_eq. split; [now intros -> | now intros [= ->]].
  - split; discriminate.
Qed.

Lemma line_matches_false (j : job_id) (line : string) :
  line_matches j line = false <-> job_id_field line <> Some (str j).
Proof.
  rewrite <- line_matches_iff. destruct (line_matches j line); split; congruence.
Qed.

(** The scan returns what the first line of the job says. *)
Lemma scan_lines_first_match other (j : job_id) (server : string) (lines : list string) :
  scan_lines other j server lines
  = match first_match j lines with
    | Some line => status_of_line other server line
    | None => done
    end.
Proof.
  induction lines as [|line rest IH]; simpl; [reflexivity |].
  now destruct (line_matches j line).
Qed.

(** Only the string form of the identifier matters. *)
Lemma scan_lines_str other (j j' : job_id) (server : string) (lines : list string) :
  str j = str j' ->
  scan_lines other j server lines = scan_lines other j' server lines.
Proof.
  intros H. induction lines as [|line rest IH]; simpl; [reflexivity |].
  unfold line_matches. now rewrite H, IH.
Qed.

Lemma first_match_none (j : job_id) (lines : list string) :
  (forall line, In line lines -> job_id_field line <> Some (str j)) ->
  first_match j lines = None.
Proof.
  induction lines as [|line rest IH]; intros H; simpl; [reflexivity |].
  assert (Hm : line_matches j line = false)
    by (apply line_matches_false, H; now left).
  rewrite Hm. apply IH. intros l Hl. apply H. now right.
Qed.

Lemma to_int_parses (n : Z) :
  NilZero.int_of_string (NilZero.string_of_int (Z.to_int n)) = Some (Z.to_int n).
Proof.
  apply NilZero.isi; destruct n as [|p|p]; simpl; try discriminate;
    intros [= H]; now apply (DecimalPos.Unsigned.to_uint_nonnil p).
Qed.

Lemma str_of_int_injective (n m : Z) : str_of_int n = str_of_int m -> n = m.
Proof.
  unfold str_of_int. intros H.
  apply DecimalZ.to_int_inj.
  assert (Hn := to_int_parses n). rewrite H, to_int_parses in Hn.
  now injection Hn.
Qed.

(** The test of [sshTest.py], whatever a server makes of other codes. *)
Example test_check_job_status_in_stdout other :
  status_text (check_job_status_in_stdout other (IntId 588345) test_stdout "server1") = "running"
  /\ status_text (check_job_status_in_stdout other (IntId 582682) test_stdout "server1") = "errored"
  /\ status_text (check_job_status_in_stdout other (IntId 582600) test_stdout "server1") = "done".
Proof. repeat split. Qed.

(** C1, as stated: any line of the job with state code [r] makes the
    answer running. It fails on a snapshot that lists a job twice: the
    second row is a line of the job and says [r], the first row decides,
    and the answer is errored. *)
Lemma any_matching_line_fails :
  In row_582682_running (splitlines twice_listed)
  /\ job_id_field row_582682_running = Some (str (IntId 582682))
  /\ state_code row_582682_running = Some "r"
  /\ check_job_status_in_stdout (fun _ _ => queued) (IntId 582682) twice_listed "server1"
     = errored
  /\ errored <> running.
Proof.
  split; [right; left; reflexivity |].
  repeat split. discriminate.
Qed.

(** C1, amended: when the first line whose job-ID field equals the string
    form of the identifier has state code [r], the parser returns running;
    when it has [e], errored. *)
Theorem first_matching_line_decides
    other (j : job_id) (stdout server line : string) :
  first_match j (splitlines stdout) = Some line ->
  (state_code line = Some "r" ->
   check_job_status_in_stdout other j stdout server = running)
  /\ (state_code line = Some "e" ->
      check_job_status_in_stdout other j stdout server = errored).
Proof.
  intros Hf. unfold check_job_status_in_stdout.
  rewrite scan_lines_first_match, Hf. unfold status_of_line.
  split; intros ->; reflexivity.
Qed.

Lemma first_matching_line_decides_witness :
  check_job_status_in_stdout (fun _ _ => queued) (IntId 588345) test_stdout "server1" = running
  /\ check_job_status_in_stdout (fun _ _ => queued) (IntId 582682) test_stdout "server1" = errored.
Proof.
  split.
  - apply (first_matching_line_decides (fun _ _ => queued) (IntId 588345) test_stdout "server1"
             (nth 4 (splitlines test_stdout) "")); reflexivity.
  - apply (first_matching_line_decides (fun _ _ => queued) (IntId 582682) test_stdout "server1"
             (nth 2 (splitlines test_stdout) "")); reflexivity.
Defined.

(** C2: a job identifier that is the job-ID field of no line of the
    snapshot is done. *)
Theorem absent_job_is_done other (j : job_id) (stdout server : string) :
  (forall line, In line (splitlines stdout) -> job_id_field line <> Some (str j)) ->
  check_job_status_in_stdout other j stdout server = done.
Proof.
  intros H. unfold check_job_status_in_stdout.
  now rewrite scan_lines_first_match, first_match_none.
Qed.

Lemma absent_job_is_done_witness :
  check_job_status_in_stdout (fun _ _ => queued) (IntId 582600) test_stdout "server1" = done.
Proof.
  apply absent_job_is_done.
  intros line Hin. vm_compute in Hin.
  repeat (destruct Hin as [<- | Hin]; [vm_compute; discriminate |]).
  destruct Hin.
Defined.

(** C3: matching is exact on the leading field. A line belongs to the job
    exactly when its job-ID field is the string form of the identifier; a
    line whose job-ID field only contains the identifier, or is contained
    in it, without being equal to it does not match, and a snapshot of such
    lines gives done; the snapshot
    that lists job 582682 alone gives done for 82682 and for 5826820;
    and an integer identifier is compared as its decimal text. *)
Theorem matching_is_exact :
  (forall (j : job_id) (line : string),
      line_matches j line = true <-> job_id_field line = Some (str j))
  /\ (forall (j : job_id) (line f : string),
         job_id_field line = Some f ->
         proper_substring (str j) f \/ proper_substring f (str j) ->
         line_matches j line = false)
  /\ (forall other (j : job_id) (stdout server : string),
         (forall line f, In line (splitlines stdout) ->
                         job_id_field line = Some f ->
                         proper_substring (str j) f \/ proper_substring f (str j)) ->
         check_job_status_in_stdout other j stdout server = done)
  /\ (forall other server,
         check_job_status_in_stdout other (IntId 82682) only_582682 server = done
         /\ check_job_status_in_stdout other (IntId 5826820) only_582682 server = done
         /\ check_job_status_in_stdout other (IntId 582682) only_582682 server = errored)
  /\ (forall other (n : Z) (stdout server : string),
         check_job_status_in_stdout other (IntId n) stdout server
         = check_job_status_in_stdout other (StrId (str_of_int n)) stdout server)
  /\ (forall (n m : Z) (line : string),
         line_matches (IntId n) line = true -> line_matches (IntId m) line = true -> n = m).
Proof.
  split; [exact line_matches_iff |].
  split.
  { intros j line f Hf Hsub. apply line_matches_false. rewrite Hf.
    intros [= ->]. destruct Hsub as [[_ Hne] | [_ Hne]]; now apply Hne. }
  split.
  { intros other j stdout server H. unfold check_job_status_in_stdout.
    rewrite scan_lines_first_match, first_match_none; [reflexivity |].
    intros line Hin Hf.
    destruct (H line (str j) Hin Hf) as [[_ Hne] | [_ Hne]]; now apply Hne. }
  split; [intros other server; repeat split |].
  split; [intros; now apply scan_lines_str |].
  intros n m line Hn Hm.
  apply line_matches_iff in Hn, Hm. rewrite Hn in Hm.
  injection Hm as Hm. now apply str_of_int_injective.
Qed.

Lemma matching_is_exact_witness :
  check_job_status_in_stdout (fun _ _ => queued) (IntId 82682) twice_listed "server1" = done.
Proof.
  destruct matching_is_exact as (_ & _ & Hsub & _).
  apply Hsub. intros line f Hin Hf. vm_compute in Hin.
  repeat (destruct Hin as [<- | Hin];
          [vm_compute in Hf; injection Hf as <-;
           first [ left; split; [reflexivity | discriminate]
                 | right; split; [reflexivity | discriminate] ] |]).
  destruct Hin.
Defined.

End SSHFacts.

(* ===================================================================== *)
(** ** Running the constructor block by block *)
(* ===================================================================== *)

Module ARCFacts.
Import PyStr PyStrFacts ARC.

Ltac exec_cbn :=
  cbv beta iota delta [bind ret raise emit setattr getattr getstr getlist logging_log
                       logging_info logging_warning logging_error self trace fst snd truth];
  repeat match goal with
    | |- context [upd ?d ?n ?v ?m] =>
        let r := eval vm_compute in (String.eqb m n) in
        change (upd d n v m) with (if r then Some v else d m); cbv beta iota
    end;
  change (truthy "") with false; cbn [negb andb].

Ltac exec_step :=
  match goal with
  | H : ?d ?n = _ |- context [?d ?n] => rewrite H
  | H : ?b = _ |- context [if ?b then _ else _] => rewrite H
  | |- context [if ?b then _ else _] => destruct b eqn:?
  | |- context [match ?b with Some _ => _ | None => _ end] => destruct b eqn:?
  end; exec_cbn.

Ltac quiet_trace :=
  unfold quiet in *; cbn [trace self] in *; intros; rewrite ?forallb_app; cbn [forallb is_remote_work negb andb];
  rewrite ?andb_true_r; try assumption; try reflexivity.

Ltac lookup :=
  cbv beta delta [upd]; simpl; first [assumption | reflexivity].

Ltac exec :=
  unfold steps; exec_cbn; repeat exec_step;
  (eexists; split; [reflexivity | quiet_trace]).

Lemma steps_bind (c k : M unit) (w : world) (r : exn + unit) (d1 d2 : string -> option value) :
  steps c w (inr tt) d1 ->
  (forall t, steps k (mk_world d1 t) r d2) ->
  steps (c ;; k) w r d2.
Proof.
  intros (t1 & Hc & Hq1) Hk.
  destruct (Hk t1) as (t2 & Hk2 & Hq2).
  exists t2. unfold bind. rewrite Hc. split; [exact Hk2 | auto].
Qed.

Lemma steps_raise (c k : M unit) (w : world) (e : exn) (d1 : string -> option value) :
  steps c w (inl e) d1 -> steps (c ;; k) w (inl e) d1.
Proof.
  intros (t1 & Hc & Hq1). exists t1. unfold bind. rewrite Hc. auto.
Qed.

Lemma init_attributes_steps E a d t :
  steps (init_attributes E a) (mk_world d t) (inr tt) (plain_attributes E a d).
Proof.
  unfold init_attributes, initialize_log, log_header, plain_attributes. exec.
Qed.

Lemma resolve_conformer_level_steps E a d t :
  d "generate_conformers" = Some (VBool (generate_conformers a)) ->
  steps (resolve_conformer_level E a) (mk_world d t) (inr tt)
        (upd d "conformer_level" (VStr (conformer_value E a))).
Proof.
  intros Hg. unfold resolve_conformer_level, conformer_value. exec.
Qed.

Lemma resolve_level_of_theory_steps a d t :
  steps (resolve_level_of_theory a) (mk_world d t) (inr tt)
        (level_of_theory_attributes a d).
Proof.
  unfold resolve_level_of_theory, level_of_theory_attributes. exec.
Qed.

Lemma resolve_composite_method_steps a d t :
  level_of_theory a = "" ->
  d "use_bac" = Some (VBool (use_bac a)) ->
  steps (resolve_composite_method a) (mk_world d t)
        (composite_outcome a) (composite_attributes a d).
Proof.
  intros Hl Hu. unfold resolve_composite_method, composite_outcome, composite_attributes.
  rewrite Hl. exec.
Qed.

Lemma resolve_opt_level_steps E a d t :
  d "composite_method" = Some (VStr (lower (composite_method a))) ->
  steps (resolve_opt_level E a) (mk_world d t) (inr tt)
        (upd d "opt_level" (VStr (opt_value E a))).
Proof.
  intros Hc. unfold resolve_opt_level, opt_value. exec.
Qed.

Lemma resolve_freq_level_steps E a d t :
  d "composite_method" = Some (VStr (lower (composite_method a))) ->
  steps (resolve_freq_level E a) (mk_world d t) (inr tt)
        (upd d "freq_level" (VStr (freq_value E a))).
Proof.
  intros Hc. unfold resolve_freq_level, freq_value. exec.
Qed.

Lemma check_model_chemistry_steps mc sp ub d t :
  d "model_chemistry" = Some (VStr mc) ->
  d "sp_level" = Some (VStr sp) ->
  d "use_bac" = Some (VBool ub) ->
  steps check_model_chemistry (mk_world d t)
        (check_outcome mc sp ub) (check_attributes mc sp ub d).
Proof.
  intros Hm Hs Hu.
  unfold check_model_chemistry, check_outcome, check_attributes,
    inferred_model_chemistry, normalized_sp_level.
  exec.
Qed.

Lemma resolve_scan_level_steps E a d t :
  d "scan_rotors" = Some (VBool (scan_rotors a)) ->
  steps (resolve_scan_level E a) (mk_world d t) (inr tt)
        (upd d "scan_level" (VStr (scan_value E a))).
Proof.
  intros Hs. unfold resolve_scan_level, scan_value. exec.
Qed.

Lemma steps_continue (c : M unit) d t0 t r d' :
  steps c (mk_world d t0) r d' ->
  (quiet t = true -> quiet t0 = true) ->
  exists t', c (mk_world d t0) = (r, mk_world d' t') /\ (quiet t = true -> quiet t' = true).
Proof.
  intros (t' & Hc & Hq) H0. exists t'. split; [exact Hc | auto].
Qed.

Lemma resolve_sp_level_steps E a d t :
  d "composite_method" = Some (VStr (lower (composite_method a))) ->
  d "model_chemistry" = Some (VStr (model_chemistry_before_sp a)) ->
  d "use_bac" = Some (VBool (use_bac a)) ->
  steps (resolve_sp_level E a) (mk_world d t) (sp_outcome E a) (sp_attributes E a d).
Proof.
  intros Hc Hm Hu.
  unfold resolve_sp_level, sp_outcome, sp_attributes, checks_model_chemistry, sp_value.
  unfold steps. exec_cbn.
  destruct (truthy (sp_level a)) eqn:Hsp; exec_cbn.
  - cbn [orb]. apply steps_continue; [| quiet_trace].
    apply check_model_chemistry_steps; lookup.
  - cbn [orb]. rewrite Hc. exec_cbn.
    destruct (truthy (lower (composite_method a))) eqn:Hcm; exec_cbn.
    + eexists; split; [reflexivity | quiet_trace].
    + apply steps_continue; [| quiet_trace].
      apply check_model_chemistry_steps; lookup.
Qed.

(** Attributes a block does not store are as before it. *)
Ltac frame :=
  intros; cbv beta delta [upd];
  repeat match goal with
    | H : (?n =? ?x) = false |- context [?n =? ?x] => rewrite H
    end;
  repeat match goal with
    | |- context [if ?b then _ else _] => destruct b
    | |- context [match ?b with Some _ => _ | None => _ end] => destruct b
    | |- context [match ?b with inl _ => _ | inr _ => _ end] => destruct b
    end;
  cbv beta delta [upd];
  repeat match goal with
    | H : (?n =? ?x) = false |- context [?n =? ?x] => rewrite H
    end;
  first [discriminate | reflexivity].

Lemma level_of_theory_attributes_frame a d n :
  (n =? "composite_method") = false -> (n =? "opt_level") = false ->
  (n =? "freq_level") = false -> (n =? "sp_level") = false ->
  level_of_theory_attributes a d n = d n.
Proof. unfold level_of_theory_attributes. frame. Qed.

Lemma composite_attributes_frame a d n :
  (n =? "composite_method") = false -> (n =? "model_chemistry") = false ->
  composite_attributes a d n = d n.
Proof. unfold composite_attributes. frame. Qed.

Lemma composite_attributes_composite_method a d :
  composite_attributes a d "composite_method" = Some (VStr (lower (composite_method a))).
Proof.
  unfold composite_attributes.
  destruct (truthy (lower (composite_method a)));
    [destruct (lower (composite_method a) =? "cbs-qb3") |]; lookup.
Qed.

Lemma composite_attributes_model_chemistry a d :
  d "model_chemistry" = Some (VStr (model_chemistry a)) ->
  composite_attributes a d "model_chemistry" = Some (VStr (model_chemistry_before_sp a)).
Proof.
  intros Hm. unfold composite_attributes, model_chemistry_before_sp.
  destruct (truthy (lower (composite_method a)));
    [destruct (lower (composite_method a) =? "cbs-qb3") |]; cbn [andb]; lookup.
Qed.

Lemma check_attributes_frame mc sp ub d n :
  (n =? "model_chemistry") = false -> check_attributes mc sp ub d n = d n.
Proof. unfold check_attributes. frame. Qed.

Lemma sp_attributes_frame E a d n :
  (n =? "sp_level") = false -> (n =? "model_chemistry") = false ->
  sp_attributes E a d n = d n.
Proof. unfold sp_attributes, check_attributes. frame. Qed.

Lemma individual_attributes_frame E a d n :
  (n =? "composite_method") = false -> (n =? "model_chemistry") = false ->
  (n =? "opt_level") = false -> (n =? "freq_level") = false ->
  (n =? "sp_level") = false ->
  individual_attributes E a d n = d n.
Proof.
  intros. unfold individual_attributes.
  destruct (composite_outcome a).
  - now apply composite_attributes_frame.
  - rewrite sp_attributes_frame by assumption.
    cbv beta delta [upd]. rewrite H1, H2. now apply composite_attributes_frame.
Qed.

Lemma individual_steps E a d t :
  level_of_theory a = "" ->
  d "use_bac" = Some (VBool (use_bac a)) ->
  d "model_chemistry" = Some (VStr (model_chemistry a)) ->
  steps (resolve_composite_method a ;; resolve_opt_level E a ;;
         resolve_freq_level E a ;; resolve_sp_level E a)
        (mk_world d t) (individual_outcome E a) (individual_attributes E a d).
Proof.
  intros Hl Hu Hm. unfold individual_outcome, individual_attributes.
  pose proof (resolve_composite_method_steps a d t Hl Hu) as Hc.
  destruct (composite_outcome a) as [e | []].
  - now apply steps_raise.
  - eapply steps_bind; [exact Hc |]. intros t1.
    eapply steps_bind;
      [apply resolve_opt_level_steps, composite_attributes_composite_method |].
    intros t2.
    eapply steps_bind;
      [apply resolve_freq_level_steps; cbv beta delta [upd]; simpl;
       apply composite_attributes_composite_method |].
    intros t3.
    apply resolve_sp_level_steps; cbv beta delta [upd]; simpl.
    + apply composite_attributes_composite_method.
    + now apply composite_attributes_model_chemistry.
    + now rewrite composite_attributes_frame.
Qed.

Lemma resolve_steps E a :
  steps (resolve E a) start (resolve_outcome E a) (resolve_attributes E a).
Proof.
  unfold resolve, resolve_outcome, resolve_attributes, start.
  eapply steps_bind; [apply init_attributes_steps |]. intros t0.
  unfold check_separators at 1.
  destruct (1 <? count "//" (level_of_theory a))%nat eqn:Hc.
  { apply steps_raise. exec. }
  eapply steps_bind; [exec |]. intros t1.
  eapply steps_bind;
    [apply resolve_conformer_level_steps; unfold plain_attributes; lookup |].
  intros t2. unfold resolve_levels.
  destruct (truthy (level_of_theory a)) eqn:Hl.
  - eapply steps_bind; [apply resolve_level_of_theory_steps |]. intros t3.
    apply resolve_scan_level_steps.
    rewrite level_of_theory_attributes_frame by reflexivity.
    unfold plain_attributes; lookup.
  - apply truthy_false in Hl.
    pose proof (individual_steps E a
                  (upd (plain_attributes E a no_attrs) "conformer_level"
                       (VStr (conformer_value E a))) t2 Hl) as Hi.
    destruct (individual_outcome E a) as [e | []].
    + apply steps_raise, Hi; unfold plain_attributes; lookup.
    + eapply steps_bind; [apply Hi; unfold plain_attributes; lookup |].
      intros t3. apply resolve_scan_level_steps.
      rewrite individual_attributes_frame by reflexivity.
      unfold plain_attributes; lookup.
Qed.

(** *** The lists of species and reactions *)

Lemma add_rmg_species_loop E (l : list py_obj) :
  forall d t asl,
    d "arc_species_list" = Some (VList asl) ->
    exists d',
      for_each l (add_rmg_species E) (mk_world d t) = (rmg_outcome l, mk_world d' t)
      /\ (forall n, (n =? "arc_species_list") = false -> d' n = d n)
      /\ (rmg_outcome l = inr tt ->
          d' "arc_species_list"
          = Some (VList (asl ++ map (new_ARCSpecies E false) l)%list)).
Proof.
  induction l as [|x l IH]; intros d t asl Ha.
  - exists d. cbn. rewrite app_nil_r. auto.
  - cbn [for_each rmg_outcome]. unfold bind, add_rmg_species at 1.
    destruct (negb (isinstance x Species)); [exists d; cbn; split; [reflexivity | split; [auto | discriminate]] |].
    destruct (negb (truthy (obj_label x))); [exists d; cbn; split; [reflexivity | split; [auto | discriminate]] |].
    exec_cbn. rewrite Ha. exec_cbn.
    destruct (IH (upd d "arc_species_list" (VList (asl ++ [new_ARCSpecies E false x])%list)) t
                 (asl ++ [new_ARCSpecies E false x])%list)
      as (d' & Hrun & Hframe & Hlist); [lookup |].
    exists d'. rewrite Hrun. split; [reflexivity |]. split.
    + intros n Hn. rewrite Hframe by assumption. cbv beta delta [upd]. now rewrite Hn.
    + intros Hok. rewrite Hlist by assumption. now rewrite <- app_assoc.
Qed.

Lemma store_lists_run E a d t :
  exists d',
    store_lists E a (mk_world d t) = (rmg_outcome (rmg_species_list a), mk_world d' t)
    /\ (forall n, (n =? "arc_species_list") = false -> (n =? "rmg_species_list") = false ->
                  (n =? "rxn_list") = false -> (n =? "scheduler") = false ->
                  d' n = d n)
    /\ (rmg_outcome (rmg_species_list a) = inr tt ->
        d' "arc_species_list"
        = Some (VList (arc_species_list a ++ map (new_ARCSpecies E false) (rmg_species_list a))%list)
        /\ d' "rxn_list" = Some (VList (rxn_list a))).
Proof.
  unfold store_lists. exec_cbn.
  destruct (rmg_species_list a) as [|x l] eqn:Hl.
  - exec_cbn. eexists. split; [reflexivity |]. split.
    + frame.
    + intros _. cbn [map]. rewrite app_nil_r. split; lookup.
  - exec_cbn. cbn [app].
    destruct (add_rmg_species_loop E (x :: l)
                (upd (upd (upd d "arc_species_list" (VList []))
                        "arc_species_list" (VList (arc_species_list a)))
                   "rmg_species_list" (VList (x :: l))) t (arc_species_list a))
      as (d' & Hrun & Hframe & Hlist); [lookup |].
    rewrite Hrun.
    destruct (rmg_outcome (x :: l)) as [e | []].
    + exists d'. split; [reflexivity |]. split; [| discriminate].
      intros n H1 H2 H3 H4. rewrite Hframe by assumption.
      cbv beta delta [upd]. now rewrite H1, H2.
    + exec_cbn. eexists. split; [reflexivity |]. split.
      * intros n H1 H2 H3 H4. cbv beta delta [upd]. rewrite H3, H4.
        rewrite Hframe by assumption. cbv beta delta [upd]. now rewrite H1, H2.
      * intros _. split; cbv beta delta [upd]; simpl; [now apply Hlist | reflexivity].
Qed.

(** *** The constructor as a whole *)

Lemma construct_run E a :
  exists d t,
    construct E a = (init_outcome E a, mk_world d t)
    /\ quiet t = true
    /\ (forall n, (n =? "arc_species_list") = false -> (n =? "rmg_species_list") = false ->
                  (n =? "rxn_list") = false -> (n =? "scheduler") = false ->
                  d n = resolve_attributes E a n)
    /\ (init_outcome E a = inr tt ->
        d "arc_species_list"
        = Some (VList (arc_species_list a
                       ++ map (new_ARCSpecies E false) (rmg_species_list a))%list)
        /\ d "rxn_list" = Some (VList (rxn_list a))).
Proof.
  unfold construct, __init__, bind, init_outcome.
  destruct (resolve_steps E a) as (t & Hr & Hq). rewrite Hr.
  specialize (Hq eq_refl).
  destruct (resolve_outcome E a) as [e | []].
  - exists (resolve_attributes E a), t. repeat split; [assumption | discriminate | discriminate].
  - destruct (store_lists_run E a (resolve_attributes E a) t) as (d' & Hs & Hf & Hl).
    rewrite Hs. exists d', t. repeat split; try assumption; now apply Hl.
Qed.

(** *** The checks of [execute] *)

Lemma consider_species_loop (sl : list py_obj) :
  forall d t,
    exists t',
      for_each sl consider_species (mk_world d t) = (species_outcome sl, mk_world d t')
      /\ (quiet t = true -> quiet t' = true).
Proof.
  induction sl as [|x sl IH]; intros d t.
  - exists t. now split.
  - cbn [for_each species_outcome]. unfold bind, consider_species at 1.
    destruct (negb (isinstance x ARCSpecies)).
    + exists t. now split.
    + exec_cbn.
      destruct (IH d (t ++ [Log INFO ("Considering species: " ++ obj_label x)])%list)
        as (t' & Hrun & Hq).
      exists t'. split; [exact Hrun |]. intros Ht. apply Hq. quiet_trace.
Qed.

Lemma consider_reaction_loop (rl : list py_obj) :
  forall d t,
    exists t',
      for_each rl consider_reaction (mk_world d t) = (reactions_outcome rl, mk_world d t')
      /\ (quiet t = true -> quiet t' = true).
Proof.
  induction rl as [|x rl IH]; intros d t.
  - exists t. now split.
  - cbn [for_each reactions_outcome]. unfold bind, consider_reaction at 1.
    destruct (negb (isinstance x Reaction)).
    + exec_cbn. eexists. split; [reflexivity | quiet_trace].
    + exec_cbn.
      destruct (IH d (t ++ [Log INFO ("Considering reacrion " ++ obj_str x)])%list)
        as (t' & Hrun & Hq).
      exists t'. split; [exact Hrun |]. intros Ht. apply Hq. quiet_trace.
Qed.

Lemma species_outcome_refuses (sl : list py_obj) :
  has_other_than ARCSpecies sl = true ->
  exists m, species_outcome sl = inl (ValueError m).
Proof.
  unfold has_other_than. induction sl as [|x sl IH]; [discriminate |].
  cbn [existsb species_outcome]. destruct (negb (isinstance x ARCSpecies)).
  - intros _. eexists. reflexivity.
  - exact IH.
Qed.

Lemma species_outcome_cases (sl : list py_obj) :
  species_outcome sl = inr tt \/ exists m, species_outcome sl = inl (ValueError m).
Proof.
  induction sl as [|x sl IH]; [now left |].
  cbn [species_outcome]. destruct (negb (isinstance x ARCSpecies)); [right; eauto | exact IH].
Qed.

Lemma reactions_outcome_refuses (rl : list py_obj) :
  has_other_than Reaction rl = true -> reactions_outcome rl = inl (ValueError "").
Proof.
  unfold has_other_than. induction rl as [|x rl IH]; [discriminate |].
  cbn [existsb reactions_outcome]. destruct (negb (isinstance x Reaction)).
  - reflexivity.
  - exact IH.
Qed.

Lemma rmg_outcome_refuses (l : list py_obj) :
  has_other_than Species l = true -> exists m, rmg_outcome l = inl (InputError m).
Proof.
  unfold has_other_than. induction l as [|x l IH]; [discriminate |].
  cbn [existsb rmg_outcome]. destruct (negb (isinstance x Species)).
  - intros _. eexists. reflexivity.
  - destruct (negb (truthy (obj_label x))); [intros _; eexists; reflexivity | exact IH].
Qed.

Lemma rmg_outcome_cases (l : list py_obj) :
  rmg_outcome l = inr tt \/ exists m, rmg_outcome l = inl (InputError m).
Proof.
  induction l as [|x l IH]; [now left |].
  cbn [rmg_outcome]. destruct (negb (isinstance x Species)); [right; eauto |].
  destruct (negb (truthy (obj_label x))); [right; eauto | exact IH].
Qed.

(** [execute] stops at the first entry of the wrong class, before the
    [Scheduler]. *)
Lemma execute_refuses E d t sl rl :
  d "arc_species_list" = Some (VList sl) ->
  d "rxn_list" = Some (VList rl) ->
  has_other_than ARCSpecies sl || has_other_than Reaction rl = true ->
  exists m t',
    execute E (mk_world d t) = (inl (ValueError m), mk_world d t')
    /\ (quiet t = true -> quiet t' = true).
Proof.
  intros Hs Hr Hbad. unfold execute. exec_cbn. rewrite Hs. exec_cbn.
  match goal with
  | |- context [for_each sl consider_species ?w] =>
      destruct (consider_species_loop sl d (trace w)) as (t1 & Hrun & Hq1)
  end.
  cbn [trace] in Hrun, Hq1. rewrite Hrun.
  destruct (species_outcome_cases sl) as [Hok | [m Hm]].
  - rewrite Hok. exec_cbn. rewrite Hr. exec_cbn.
    match goal with
    | |- context [for_each rl consider_reaction ?w] =>
        destruct (consider_reaction_loop rl d (trace w)) as (t2 & Hrun2 & Hq2)
    end.
    cbn [trace] in Hrun2, Hq2. rewrite Hrun2.
    destruct (has_other_than ARCSpecies sl) eqn:Hsl.
    + destruct (species_outcome_refuses sl Hsl) as [m Hm]. congruence.
    + cbn [orb] in Hbad. rewrite (reactions_outcome_refuses rl Hbad).
      exists "", t2. split; [reflexivity |].
      intros Ht. apply Hq2. quiet_trace. apply Hq1. quiet_trace.
  - rewrite Hm. exists m, t1. split; [reflexivity |].
    intros Ht. apply Hq1. quiet_trace.
Qed.

(** *** Lower case is kept *)

Lemma construct_and_execute_unfold E a :
  construct_and_execute E a
  = match construct E a with
    | (inl e, w) => (inl e, w)
    | (inr _, w) => execute E w
    end.
Proof. reflexivity. Qed.

Lemma lowercased_on_upd names d k v :
  lowercased_on names d -> is_lowercased v -> lowercased_on names (upd d k (VStr v)).
Proof.
  intros Hd Hv n x Hn. cbv beta delta [upd].
  destruct (n =? k); [now intros [= <-] | now apply Hd].
Qed.

Lemma lowercased_on_upd_other names d k v :
  (forall s, v <> VStr s) -> lowercased_on names d -> lowercased_on names (upd d k v).
Proof.
  intros Hv Hd n x Hn. cbv beta delta [upd].
  destruct (n =? k); [intros [= H]; now elim (Hv x) | now apply Hd].
Qed.

Lemma lowercased_on_upd_outside names d k v :
  (forall n, In n names -> (n =? k) = false) ->
  lowercased_on names d -> lowercased_on names (upd d k v).
Proof.
  intros Hk Hd n x Hn. cbv beta delta [upd]. rewrite (Hk n Hn). now apply Hd.
Qed.

Lemma lowercased_on_no_attrs names : lowercased_on names no_attrs.
Proof. intros n v _. discriminate. Qed.

Ltac outside := intros ? Hin; cbn [In level_attributes] in Hin; intuition subst; reflexivity.

(** The plain attributes hold no level; of the strings they hold, only
    [model_chemistry] is of concern, and it is stored as given. *)
Lemma plain_attributes_levels E a :
  lowercased_on level_attributes (plain_attributes E a no_attrs).
Proof.
  unfold plain_attributes.
  repeat (apply lowercased_on_upd_outside; [outside |]).
  apply lowercased_on_no_attrs.
Qed.

Lemma plain_attributes_model_chemistry E a :
  is_lowercased (model_chemistry a) ->
  lowercased_on ("model_chemistry" :: level_attributes) (plain_attributes E a no_attrs).
Proof.
  intros Hm. unfold plain_attributes.
  apply lowercased_on_upd_other; [discriminate |].
  apply lowercased_on_upd_other; [discriminate |].
  apply lowercased_on_upd; [| exact Hm].
  repeat (apply lowercased_on_upd_other; [discriminate |]).
  repeat (apply lowercased_on_upd_outside; [outside |]).
  apply lowercased_on_no_attrs.
Qed.

Lemma normalized_sp_level_lowercased sp : is_lowercased (normalized_sp_level sp).
Proof.
  apply is_lowercased_iff. unfold normalized_sp_level.
  repeat (apply replace_no_upper; [reflexivity |]). apply no_upper_lower.
Qed.

Lemma inferred_model_chemistry_lowercased ub sp m :
  inferred_model_chemistry ub sp = Some m -> is_lowercased m.
Proof.
  unfold inferred_model_chemistry.
  pose proof (normalized_sp_level_lowercased sp) as Hn.
  repeat match goal with
         | |- context [if ?b then _ else _] => destruct b
         end; intros [= <-]; try assumption; try reflexivity.
  apply is_lowercased_iff. rewrite no_upper_append.
  apply is_lowercased_iff in Hn. now rewrite Hn.
Qed.

Lemma conformer_value_lowercased E a : is_lowercased (conformer_value E a).
Proof.
  unfold conformer_value.
  repeat match goal with |- context [if ?b then _ else _] => destruct b end;
    first [apply lower_is_lowercased | reflexivity].
Qed.

Lemma opt_value_lowercased E a : is_lowercased (opt_value E a).
Proof.
  unfold opt_value.
  repeat match goal with |- context [if ?b then _ else _] => destruct b end;
    first [apply lower_is_lowercased | reflexivity].
Qed.

Lemma freq_value_lowercased E a : is_lowercased (freq_value E a).
Proof.
  unfold freq_value.
  repeat match goal with |- context [if ?b then _ else _] => destruct b end;
    first [apply lower_is_lowercased | reflexivity].
Qed.

Lemma sp_value_lowercased E a : is_lowercased (sp_value E a).
Proof.
  unfold sp_value.
  repeat match goal with |- context [if ?b then _ else _] => destruct b end;
    first [apply lower_is_lowercased | reflexivity].
Qed.

Lemma scan_value_lowercased E a : is_lowercased (scan_value E a).
Proof.
  unfold scan_value.
  repeat match goal with |- context [if ?b then _ else _] => destruct b end;
    first [apply lower_is_lowercased | reflexivity].
Qed.

Lemma level_of_theory_attributes_lowercased names a d :
  lowercased_on names d -> lowercased_on names (level_of_theory_attributes a d).
Proof.
  intros Hd. unfold level_of_theory_attributes.
  repeat match goal with |- context [if ?b then _ else _] => destruct b end;
    repeat (apply lowercased_on_upd;
            [| first [apply split_item_lowercased | apply lower_is_lowercased]]);
    exact Hd.
Qed.

Lemma composite_attributes_lowercased names a d :
  lowercased_on names d -> lowercased_on names (composite_attributes a d).
Proof.
  intros Hd. unfold composite_attributes.
  repeat match goal with |- context [if ?b then _ else _] => destruct b end;
    repeat (apply lowercased_on_upd; [| apply lower_is_lowercased]);
    exact Hd.
Qed.

Lemma check_attributes_lowercased names mc sp ub d :
  lowercased_on names d -> lowercased_on names (check_attributes mc sp ub d).
Proof.
  intros Hd. unfold check_attributes.
  destruct (truthy mc); [apply lowercased_on_upd; [exact Hd | apply lower_is_lowercased] |].
  destruct (inferred_model_chemistry ub sp) as [m|] eqn:Hi; [| exact Hd].
  apply lowercased_on_upd; [exact Hd |].
  now apply (inferred_model_chemistry_lowercased ub sp).
Qed.

Lemma sp_attributes_lowercased names E a d :
  lowercased_on names d -> lowercased_on names (sp_attributes E a d).
Proof.
  intros Hd. unfold sp_attributes.
  destruct (checks_model_chemistry a); [apply check_attributes_lowercased |];
    (apply lowercased_on_upd; [exact Hd | apply sp_value_lowercased]).
Qed.

Lemma individual_attributes_lowercased names E a d :
  lowercased_on names d -> lowercased_on names (individual_attributes E a d).
Proof.
  intros Hd. unfold individual_attributes.
  destruct (composite_outcome a).
  - now apply composite_attributes_lowercased.
  - apply sp_attributes_lowercased.
    apply lowercased_on_upd; [| apply freq_value_lowercased].
    apply lowercased_on_upd; [| apply opt_value_lowercased].
    now apply composite_attributes_lowercased.
Qed.

Lemma resolve_attributes_lowercased names E a :
  lowercased_on names (plain_attributes E a no_attrs) ->
  lowercased_on names (resolve_attributes E a).
Proof.
  intros Hd. unfold resolve_attributes.
  destruct (1 <? count "//" (level_of_theory a))%nat; [exact Hd |].
  destruct (truthy (level_of_theory a)).
  - apply lowercased_on_upd; [| apply scan_value_lowercased].
    apply level_of_theory_attributes_lowercased.
    apply lowercased_on_upd; [exact Hd | apply conformer_value_lowercased].
  - assert (Hi : lowercased_on names
                   (individual_attributes E a
                      (upd (plain_attributes E a no_attrs) "conformer_level"
                           (VStr (conformer_value E a))))).
    { apply individual_attributes_lowercased.
      apply lowercased_on_upd; [exact Hd | apply conformer_value_lowercased]. }
    destruct (individual_outcome E a); [exact Hi |].
    apply lowercased_on_upd; [exact Hi | apply scan_value_lowercased].
Qed.

(** When [check_model_chemistry] returns, the model chemistry is lower case. *)
Lemma check_attributes_model_chemistry mc sp ub d :
  check_outcome mc sp ub = inr tt ->
  exists m, check_attributes mc sp ub d "model_chemistry" = Some (VStr m)
            /\ is_lowercased m.
Proof.
  unfold check_outcome, check_attributes. destruct (truthy mc).
  - intros _. exists (lower mc). split; [lookup | apply lower_is_lowercased].
  - destruct (inferred_model_chemistry ub sp) as [m|] eqn:Hi; [| discriminate].
    intros _. exists m. split; [lookup |].
    now apply (inferred_model_chemistry_lowercased ub sp).
Qed.

Lemma resolve_attributes_checked E a :
  level_of_theory a = "" ->
  checks_model_chemistry a = true ->
  resolve_outcome E a = inr tt ->
  exists m, resolve_attributes E a "model_chemistry" = Some (VStr m) /\ is_lowercased m.
Proof.
  intros Hl Hc. unfold resolve_outcome, resolve_attributes. rewrite Hl.
  change (1 <? count "//" "")%nat with false. change (truthy "") with false. cbv iota.
  intros Ho. rewrite Ho. cbv beta delta [upd]. cbn [String.eqb Ascii.eqb Bool.eqb].
  revert Ho. unfold individual_outcome, individual_attributes.
  destruct (composite_outcome a) as [e | []]; [discriminate |].
  unfold sp_outcome, sp_attributes. rewrite Hc.
  apply check_attributes_model_chemistry.
Qed.

End ARCFacts.

(* ===================================================================== *)
(** ** The constructor and [execute]: properties *)
(* ===================================================================== *)

Module ARCProperties.
Import PyStr PyStrFacts ARC ARCFacts.

Ltac level_cases H :=
  cbn [In level_attributes] in H;
  repeat (destruct H as [<- | H]); [.. | destruct H].

(** C4: a [level_of_theory] in which the separator occurs more than once
    makes the constructor raise [InputError] while no level attribute is
    assigned yet, and no job is handed to a server, also when [execute]
    is chained to the constructor. *)
Theorem too_many_separators_rejected E a :
  (1 < count "//" (level_of_theory a))%nat ->
  exists msg,
    raised (construct E a) = Some (InputError msg)
    /\ (forall n, In n level_attributes -> self (snd (construct E a)) n = None)
    /\ no_remote_work (snd (construct E a))
    /\ raised (construct_and_execute E a) = Some (InputError msg)
    /\ no_remote_work (snd (construct_and_execute E a)).
Proof.
  intros Hc. apply Nat.ltb_lt in Hc.
  destruct (construct_run E a) as (d & t & Hrun & Hq & Hf & _).
  rewrite construct_and_execute_unfold, Hrun.
  unfold init_outcome, resolve_outcome in *. rewrite Hc in *.
  eexists. unfold raised, no_remote_work. cbn [fst snd self trace].
  split; [reflexivity |]. split; [| auto].
  intros n Hn. unfold resolve_attributes in Hf. rewrite Hc in Hf.
  level_cases Hn; (rewrite Hf by reflexivity; reflexivity).
Qed.

Lemma too_many_separators_rejected_witness :
  exists msg,
    raised (construct sample_env (with_level_of_theory "ccsd(t)//mp2//hf")) = Some (InputError msg)
    /\ no_remote_work (snd (construct_and_execute sample_env (with_level_of_theory "ccsd(t)//mp2//hf"))).
Proof.
  destruct (too_many_separators_rejected sample_env (with_level_of_theory "ccsd(t)//mp2//hf"))
    as (msg & H1 & _ & _ & _ & H5).
  - vm_compute. lia.
  - exists msg. split; assumption.
Defined.

Lemma upd_same d k v : upd d k v k = Some v.
Proof. unfold upd. now rewrite String.eqb_refl. Qed.

Lemma upd_other d k v n : (n =? k) = false -> upd d k v n = d n.
Proof. unfold upd. now intros ->. Qed.

(** The attributes of the object the constructor leaves, away from the
    lists, are those of the resolution. *)
Lemma construct_attr_str E a n :
  (n =? "arc_species_list") = false -> (n =? "rmg_species_list") = false ->
  (n =? "rxn_list") = false -> (n =? "scheduler") = false ->
  attr_str (snd (construct E a)) n
  = match resolve_attributes E a n with Some (VStr s) => Some s | _ => None end.
Proof.
  intros H1 H2 H3 H4.
  destruct (construct_run E a) as (d & t & Hrun & _ & Hf & _).
  rewrite Hrun. unfold attr_str. cbn [snd self]. now rewrite Hf.
Qed.

Lemma construct_outcome E a : fst (construct E a) = init_outcome E a.
Proof.
  destruct (construct_run E a) as (d & t & Hrun & _). now rewrite Hrun.
Qed.

Lemma construct_quiet E a : no_remote_work (snd (construct E a)).
Proof.
  destruct (construct_run E a) as (d & t & Hrun & Hq & _). now rewrite Hrun.
Qed.

(** C5: a [level_of_theory] with exactly one separator is cut at it; the
    part on its left, in lower case, becomes [sp_level] and the part on
    its right, in lower case, becomes [opt_level] and [freq_level]. *)
Theorem single_separator_splits E a :
  count "//" (level_of_theory a) = 1 ->
  exists l r,
    level_of_theory a = l ++ "//" ++ r
    /\ find "//" (level_of_theory a) = Some (String.length l)
    /\ attr_str (snd (construct E a)) "sp_level" = Some (lower l)
    /\ attr_str (snd (construct E a)) "opt_level" = Some (lower r)
    /\ attr_str (snd (construct E a)) "freq_level" = Some (lower r).
Proof.
  intros Hc.
  destruct (split_once "/" "/" (level_of_theory a) Hc) as (l & r & Hlr & Hfind & Hsplit).
  exists l, r. split; [exact Hlr |]. split; [exact Hfind |].
  assert (Htruthy : truthy (level_of_theory a) = true).
  { apply truthy_true. rewrite Hlr. destruct l; discriminate. }
  assert (Hslash : contains "/" (level_of_theory a) = true)
    by apply (find_slashes_slash _ _ Hfind).
  assert (Hslashes : contains "//" (level_of_theory a) = true)
    by (unfold contains; now rewrite Hfind).
  assert (Hattrs : forall n,
             (n =? "scan_level") = false ->
             resolve_attributes E a n
             = upd (upd (upd (upd (plain_attributes E a no_attrs)
                 "conformer_level" (VStr (conformer_value E a)))
                 "opt_level" (VStr (lower r)))
                 "freq_level" (VStr (lower r)))
                 "sp_level" (VStr (lower l)) n).
  { intros n Hn. unfold resolve_attributes, level_of_theory_attributes.
    rewrite Hc, Htruthy, Hslash, Hslashes. cbn [Nat.ltb Nat.leb negb].
    rewrite split_slashes_lower, Hsplit. cbn [map item nth].
    cbv beta delta [upd]. now rewrite Hn. }
  repeat split; rewrite construct_attr_str by reflexivity;
    rewrite Hattrs by reflexivity; reflexivity.
Qed.

Lemma single_separator_splits_witness :
  count "//" "CCSD(T)-F12a/aug-cc-pVTZ//B3LYP/6-311++G(3df,3pd)" = 1
  /\ exists l r,
      "CCSD(T)-F12a/aug-cc-pVTZ//B3LYP/6-311++G(3df,3pd)" = l ++ "//" ++ r
      /\ find "//" "CCSD(T)-F12a/aug-cc-pVTZ//B3LYP/6-311++G(3df,3pd)" = Some (String.length l)
      /\ attr_str (snd (construct sample_env
                          (with_level_of_theory
                             "CCSD(T)-F12a/aug-cc-pVTZ//B3LYP/6-311++G(3df,3pd)")))
                  "sp_level" = Some (lower l)
      /\ attr_str (snd (construct sample_env
                          (with_level_of_theory
                             "CCSD(T)-F12a/aug-cc-pVTZ//B3LYP/6-311++G(3df,3pd)")))
                  "opt_level" = Some (lower r)
      /\ attr_str (snd (construct sample_env
                          (with_level_of_theory
                             "CCSD(T)-F12a/aug-cc-pVTZ//B3LYP/6-311++G(3df,3pd)")))
                  "freq_level" = Some (lower r).
Proof.
  split; [reflexivity |].
  apply (single_separator_splits sample_env
           (with_level_of_theory "CCSD(T)-F12a/aug-cc-pVTZ//B3LYP/6-311++G(3df,3pd)")).
  reflexivity.
Defined.

Example single_separator_example :
  let w := snd (construct sample_env
                  (with_level_of_theory "CCSD(T)-F12a/aug-cc-pVTZ//B3LYP/6-311++G(3df,3pd)")) in
  attr_str w "sp_level" = Some "ccsd(t)-f12a/aug-cc-pvtz"
  /\ attr_str w "opt_level" = Some "b3lyp/6-311++g(3df,3pd)"
  /\ attr_str w "freq_level" = Some "b3lyp/6-311++g(3df,3pd)".
Proof. vm_compute. repeat split. Qed.

(** C6, as stated, fails: with no [model_chemistry] and [use_bac] on, the
    composite method [cbs-qb3] leaves [sp_level] empty, which is in no
    table, and yet the constructor returns, with the composite method as
    model chemistry; and a combined [level_of_theory] never reaches the
    inference: an sp level in no table raises nothing, and one that is in
    the table leaves the model chemistry empty. *)
Lemma model_chemistry_not_always_inferred :
  (let a := with_composite_method "cbs-qb3" in
   model_chemistry a = "" /\ use_bac a = true
   /\ attr_str (snd (construct sample_env a)) "sp_level" = Some ""
   /\ inferred_model_chemistry true "" = None
   /\ raised (construct sample_env a) = None
   /\ attr_str (snd (construct sample_env a)) "model_chemistry" = Some "cbs-qb3")
  /\ (let a := with_level_of_theory "hf/sto-3g" in
      model_chemistry a = "" /\ use_bac a = true
      /\ attr_str (snd (construct sample_env a)) "sp_level" = Some "hf/sto-3g"
      /\ inferred_model_chemistry true "hf/sto-3g" = None
      /\ raised (construct sample_env a) = None
      /\ attr_str (snd (construct sample_env a)) "model_chemistry" = Some "")
  /\ (let a := with_level_of_theory "b3lyp/cbsb7" in
      attr_str (snd (construct sample_env a)) "sp_level" = Some "b3lyp/cbsb7"
      /\ inferred_model_chemistry true "b3lyp/cbsb7" = Some "b3lyp/cbsb7"
      /\ attr_str (snd (construct sample_env a)) "model_chemistry" = Some "").
Proof. vm_compute. repeat split. Qed.

(** C6, amended: when neither a combined [level_of_theory] nor a
    composite method nor a model chemistry is given, the model chemistry
    is inferred from the resolved [sp_level] by the fixed tables; when the
    tables have no entry for it and [use_bac] is on, the constructor raises
    [InputError], and no job is handed to a server. *)
Theorem model_chemistry_inferred_from_sp_level E a :
  level_of_theory a = "" -> composite_method a = "" -> model_chemistry a = "" ->
  let sp := if truthy (sp_level a) then lower (sp_level a)
            else lower (default_levels_of_theory E "sp") in
  attr_str (snd (construct E a)) "sp_level" = Some sp
  /\ match inferred_model_chemistry (use_bac a) sp with
     | Some m => attr_str (snd (construct E a)) "model_chemistry" = Some m
     | None =>
         use_bac a = true
         /\ mem (normalized_sp_level sp) f12_sp_levels = false
         /\ mem (normalized_sp_level sp) bac_model_chemistries = false
         /\ raised (construct E a) = Some (InputError msg_undetermined)
         /\ raised (construct_and_execute E a) = Some (InputError msg_undetermined)
         /\ no_remote_work (snd (construct_and_execute E a))
     end.
Proof.
  intros Hl Hc Hm sp.
  assert (Hsp : sp_value E a = sp).
  { unfold sp_value, sp. rewrite Hc. now destruct (truthy (sp_level a)). }
  assert (Hchecks : checks_model_chemistry a = true).
  { unfold checks_model_chemistry. rewrite Hc. now destruct (truthy (sp_level a)). }
  assert (Hco : composite_outcome a = inr tt)
    by (unfold composite_outcome; now rewrite Hc).
  assert (Hbefore : model_chemistry_before_sp a = "")
    by (unfold model_chemistry_before_sp; now rewrite Hc, Hm).
  assert (Hio : individual_outcome E a
                = match inferred_model_chemistry (use_bac a) sp with
                  | Some _ => inr tt
                  | None => inl (InputError msg_undetermined)
                  end).
  { unfold individual_outcome, sp_outcome, check_outcome.
    now rewrite Hco, Hchecks, Hbefore, Hsp. }
  assert (Hia : forall d n,
             individual_attributes E a d n
             = match inferred_model_chemistry (use_bac a) sp with
               | Some m => upd (upd (upd (upd (composite_attributes a d)
                             "opt_level" (VStr (opt_value E a)))
                             "freq_level" (VStr (freq_value E a)))
                             "sp_level" (VStr sp))
                             "model_chemistry" (VStr m) n
               | None => upd (upd (upd (composite_attributes a d)
                             "opt_level" (VStr (opt_value E a)))
                             "freq_level" (VStr (freq_value E a)))
                             "sp_level" (VStr sp) n
               end).
  { intros d n. unfold individual_attributes, sp_attributes, check_attributes.
    rewrite Hco, Hchecks, Hbefore, Hsp. change (truthy "") with false. cbv iota.
    now destruct (inferred_model_chemistry (use_bac a) sp). }
  assert (Hra : forall n, (n =? "scan_level") = false ->
             resolve_attributes E a n
             = individual_attributes E a
                 (upd (plain_attributes E a no_attrs) "conformer_level"
                      (VStr (conformer_value E a))) n).
  { intros n Hn. unfold resolve_attributes. rewrite Hl.
    change (1 <? count "//" "")%nat with false. change (truthy "") with false.
    cbv iota. destruct (individual_outcome E a); [reflexivity |].
    cbv beta delta [upd]. now rewrite Hn. }
  assert (Hro : resolve_outcome E a = individual_outcome E a).
  { unfold resolve_outcome. now rewrite Hl. }
  split.
  - rewrite construct_attr_str, Hra, Hia by reflexivity.
    now destruct (inferred_model_chemistry (use_bac a) sp).
  - destruct (inferred_model_chemistry (use_bac a) sp) as [m|] eqn:Hi.
    + now rewrite construct_attr_str, Hra, Hia by reflexivity.
    + assert (Hraised : fst (construct E a) = inl (InputError msg_undetermined)).
      { rewrite construct_outcome. unfold init_outcome. now rewrite Hro, Hio. }
      assert (Hce : construct_and_execute E a = construct E a).
      { rewrite construct_and_execute_unfold.
        destruct (construct E a) as [[e | u] w]; [reflexivity | discriminate]. }
      unfold inferred_model_chemistry in Hi.
      destruct (mem (normalized_sp_level sp) f12_sp_levels); [discriminate |].
      destruct (mem (normalized_sp_level sp) bac_model_chemistries); [discriminate |].
      destruct (use_bac a);
        [| destruct (mem (normalized_sp_level sp) aec_model_chemistries); discriminate].
      rewrite Hce. unfold raised. rewrite Hraised.
      repeat split. apply construct_quiet.
Qed.

Lemma model_chemistry_inferred_from_sp_level_witness :
  attr_str (snd (construct sample_env (default_args "demo"))) "sp_level"
  = Some "ccsd(t)-f12/cc-pvtz-f12"
  /\ attr_str (snd (construct sample_env (default_args "demo"))) "model_chemistry"
     = Some "ccsd(t)-f12/cc-pvtz-f12".
Proof.
  exact (model_chemistry_inferred_from_sp_level sample_env (default_args "demo")
           eq_refl eq_refl eq_refl).
Defined.

(** C7, as stated, fails: with [opt_level] given and [freq_level] not,
    the frequency level is the caller's [opt_level], not the default; with
    conformers or rotor scans off, their levels are empty; and with a
    composite method, [opt_level] and [sp_level] are empty and the frequency
    level is the entry [freq_for_composite]. *)
Lemma unset_levels_not_always_default :
  (let a := with_opt_level_only "HF/STO-3G" in
   level_of_theory a = "" /\ raised (construct sample_env a) = None
   /\ freq_level a = ""
   /\ attr_str (snd (construct sample_env a)) "freq_level" = Some "hf/sto-3g"
   /\ default_levels_of_theory sample_env "freq" = "wb97x-d3/6-311+g(d,p)"
   /\ conformer_level a = ""
   /\ attr_str (snd (construct sample_env a)) "conformer_level" = Some ""
   /\ default_levels_of_theory sample_env "conformer" = "b97-d3/6-311+g(d,p)"
   /\ scan_level a = ""
   /\ attr_str (snd (construct sample_env a)) "scan_level" = Some ""
   /\ default_levels_of_theory sample_env "scan" = "b3lyp/6-311+g(d,p)")
  /\ (let a := with_composite_method "cbs-qb3" in
      level_of_theory a = "" /\ raised (construct sample_env a) = None
      /\ opt_level a = ""
      /\ attr_str (snd (construct sample_env a)) "opt_level" = Some ""
      /\ default_levels_of_theory sample_env "opt" = "wb97x-d3/6-311+g(d,p)"
      /\ sp_level a = ""
      /\ attr_str (snd (construct sample_env a)) "sp_level" = Some ""
      /\ default_levels_of_theory sample_env "sp" = "ccsd(t)-f12/cc-pvtz-f12"
      /\ freq_level a = ""
      /\ attr_str (snd (construct sample_env a)) "freq_level" = Some "b3lyp/cbsb7").
Proof. vm_compute. repeat split. Qed.

Lemma resolve_outcome_cases E a :
  resolve_outcome E a = inr tt \/ exists msg, resolve_outcome E a = inl (InputError msg).
Proof.
  unfold resolve_outcome, individual_outcome, composite_outcome, sp_outcome, check_outcome.
  repeat match goal with
         | |- context [if ?b then _ else _] => destruct b
         | |- context [match ?b with Some _ => _ | None => _ end] => destruct b
         end; first [now left | right; eexists; reflexivity].
Qed.

Lemma init_outcome_cases E a :
  init_outcome E a = inr tt \/ exists msg, init_outcome E a = inl (InputError msg).
Proof.
  unfold init_outcome.
  destruct (resolve_outcome_cases E a) as [-> | [msg ->]]; [| right; eauto].
  apply rmg_outcome_cases.
Qed.

Lemma succeeded_construct E a :
  succeeded (construct E a) = true ->
  resolve_outcome E a = inr tt /\ rmg_outcome (rmg_species_list a) = inr tt.
Proof.
  unfold succeeded. rewrite construct_outcome. unfold init_outcome.
  destruct (resolve_outcome E a) as [e | []]; [discriminate |].
  destruct (rmg_outcome (rmg_species_list a)) as [e | []]; [discriminate | auto].
Qed.

(** The levels after lines 127 to 178 when they raise nothing. *)
Lemma individual_attributes_levels E a d :
  composite_outcome a = inr tt ->
  individual_attributes E a d "sp_level" = Some (VStr (sp_value E a))
  /\ individual_attributes E a d "freq_level" = Some (VStr (freq_value E a))
  /\ individual_attributes E a d "opt_level" = Some (VStr (opt_value E a))
  /\ individual_attributes E a d "conformer_level" = d "conformer_level".
Proof.
  intros Hc. unfold individual_attributes. rewrite Hc.
  repeat split.
  - unfold sp_attributes. destruct (checks_model_chemistry a);
      [rewrite check_attributes_frame by reflexivity |]; lookup.
  - rewrite sp_attributes_frame by reflexivity. lookup.
  - rewrite sp_attributes_frame by reflexivity. lookup.
  - rewrite sp_attributes_frame by reflexivity.
    cbv beta delta [upd]. cbn [String.eqb Ascii.eqb Bool.eqb].
    now rewrite composite_attributes_frame.
Qed.

(** C7, amended: with no combined [level_of_theory], when the constructor
    returns, a level the caller did not set is: for [conformer_level] and
    [scan_level], the default in lower case if conformers are generated,
    respectively rotors scanned, and empty otherwise; for [opt_level] and
    [sp_level], the default in lower case if no composite method is given
    and empty otherwise; for [freq_level], the entry [freq_for_composite]
    in lower case if a composite method is given, else the caller's
    [opt_level] in lower case if there is one, else the default in lower
    case. *)
Theorem unset_levels_fall_back E a :
  level_of_theory a = "" ->
  succeeded (construct E a) = true ->
  let w := snd (construct E a) in
  let default key := lower (default_levels_of_theory E key) in
  (conformer_level a = "" ->
   attr_str w "conformer_level"
   = Some (if generate_conformers a then default "conformer" else ""))
  /\ (scan_level a = "" ->
      attr_str w "scan_level" = Some (if scan_rotors a then default "scan" else ""))
  /\ (opt_level a = "" ->
      attr_str w "opt_level"
      = Some (if truthy (composite_method a) then "" else default "opt"))
  /\ (sp_level a = "" ->
      attr_str w "sp_level"
      = Some (if truthy (composite_method a) then "" else default "sp"))
  /\ (freq_level a = "" ->
      attr_str w "freq_level"
      = Some (if truthy (composite_method a) then default "freq_for_composite"
              else if truthy (opt_level a) then lower (opt_level a)
                   else default "freq")).
Proof.
  intros Hl Hok w default. subst w default.
  apply succeeded_construct in Hok as [Hro _].
  assert (Hio : individual_outcome E a = inr tt).
  { unfold resolve_outcome in Hro. now rewrite Hl in Hro. }
  assert (Hco : composite_outcome a = inr tt).
  { unfold individual_outcome in Hio.
    destruct (composite_outcome a) as [e | []]; [discriminate | reflexivity]. }
  assert (Hra : forall n,
             resolve_attributes E a n
             = upd (individual_attributes E a
                      (upd (plain_attributes E a no_attrs) "conformer_level"
                           (VStr (conformer_value E a))))
                   "scan_level" (VStr (scan_value E a)) n).
  { intros n. unfold resolve_attributes. rewrite Hl, Hio. reflexivity. }
  destruct (individual_attributes_levels E a
              (upd (plain_attributes E a no_attrs) "conformer_level"
                   (VStr (conformer_value E a))) Hco)
    as (Hsp & Hfreq & Hopt & Hconf).
  repeat split; intros Hunset; rewrite construct_attr_str, Hra by reflexivity.
  - rewrite upd_other, Hconf, upd_same by reflexivity.
    unfold conformer_value. now rewrite Hunset.
  - rewrite upd_same. unfold scan_value. now rewrite Hunset.
  - rewrite upd_other, Hopt by reflexivity.
    unfold opt_value. rewrite Hunset, truthy_lower.
    now destruct (truthy (composite_method a)).
  - rewrite upd_other, Hsp by reflexivity.
    unfold sp_value. rewrite Hunset, truthy_lower.
    now destruct (truthy (composite_method a)).
  - rewrite upd_other, Hfreq by reflexivity.
    unfold freq_value. rewrite Hunset, truthy_lower.
    now destruct (truthy (composite_method a)).
Qed.

Lemma unset_levels_fall_back_witness :
  level_of_theory (with_opt_level_only "HF/STO-3G") = ""
  /\ succeeded (construct sample_env (with_opt_level_only "HF/STO-3G")) = true
  /\ attr_str (snd (construct sample_env (with_opt_level_only "HF/STO-3G"))) "freq_level"
     = Some "hf/sto-3g"
  /\ attr_str (snd (construct sample_env (with_opt_level_only "HF/STO-3G"))) "sp_level"
     = Some "ccsd(t)-f12/cc-pvtz-f12".
Proof.
  split; [reflexivity |]. split; [reflexivity |].
  destruct (unset_levels_fall_back sample_env (with_opt_level_only "HF/STO-3G")
              eq_refl eq_refl) as (_ & _ & _ & Hsp & Hfreq).
  split; [exact (Hfreq eq_refl) | exact (Hsp eq_refl)].
Defined.

Lemma has_other_than_app c (l1 l2 : list py_obj) :
  has_other_than c (l1 ++ l2)%list = has_other_than c l1 || has_other_than c l2.
Proof. apply existsb_app. Qed.

(** A list with an entry of the wrong class ends the run: an entry of
    [rmg_species_list] that is no [Species] makes the constructor raise
    [InputError]; when the constructor returns, an entry of
    [arc_species_list] that is no [ARCSpecies], or of [rxn_list] that is no
    [Reaction], makes [execute] raise [ValueError]; in every such case the
    run ends in one of these two classes of error before the [Scheduler] is
    built, so no job is handed to a server. Which error it is depends on
    what the run meets first. *)
Lemma wrong_entry_ends_run E a :
  has_other_than Species (rmg_species_list a)
  || has_other_than ARCSpecies (arc_species_list a)
  || has_other_than Reaction (rxn_list a) = true ->
  (has_other_than Species (rmg_species_list a) = true ->
   exists msg, raised (construct E a) = Some (InputError msg))
  /\ (resolve_outcome E a = inr tt ->
      fst (construct E a) = rmg_outcome (rmg_species_list a))
  /\ (succeeded (construct E a) = true ->
      exists msg, raised (construct_and_execute E a) = Some (ValueError msg))
  /\ (exists e, raised (construct_and_execute E a) = Some e
                /\ is_InputError e || is_ValueError e = true)
  /\ no_remote_work (snd (construct_and_execute E a)).
Proof.
  intros Hbad.
  destruct (construct_run E a) as (d & t & Hrun & Hq & _ & Hlists).
  assert (Hrmg : has_other_than Species (rmg_species_list a) = true ->
                 exists msg, init_outcome E a = inl (InputError msg)).
  { intros H. unfold init_outcome.
    destruct (resolve_outcome_cases E a) as [-> | [msg ->]]; [| eauto].
    now apply rmg_outcome_refuses. }
  assert (Hexec : init_outcome E a = inr tt ->
                  exists msg t',
                    execute E (mk_world d t) = (inl (ValueError msg), mk_world d t')
                    /\ quiet t' = true).
  { intros Hok. destruct (Hlists Hok) as [Hsl Hrl].
    destruct (has_other_than Species (rmg_species_list a)) eqn:Hs.
    - destruct (Hrmg eq_refl) as [msg Hm]. congruence.
    - cbn [orb] in Hbad.
      destruct (execute_refuses E d t _ _ Hsl Hrl) as (msg & t' & He & Hq').
      + rewrite has_other_than_app.
        destruct (has_other_than ARCSpecies (arc_species_list a)); [reflexivity |].
        cbn [orb] in *. rewrite Hbad. apply orb_true_r.
      + exists msg, t'. split; [exact He | now apply Hq']. }
  rewrite construct_and_execute_unfold, Hrun. unfold raised, succeeded. cbn [fst snd].
  split; [intros H; destruct (Hrmg H) as [msg ->]; eauto |].
  split; [unfold init_outcome; now intros -> |].
  destruct (init_outcome_cases E a) as [Hok | [msg Hm]].
  - destruct (Hexec Hok) as (msg & t' & He & Hq'). rewrite Hok, He. cbn [fst snd].
    split; [eauto |]. split; [eexists; split; reflexivity | exact Hq'].
  - rewrite Hm. cbn [fst snd].
    split; [discriminate |]. split; [eexists; split; reflexivity | exact Hq].
Qed.

Example wrong_types_examples :
  raised (construct sample_env (with_lists [a_species; an_integer] [] []))
  = Some (InputError ("All entries of rmg_species_list have to be RMG Species objects."
                      ++ " Got: <type 'int'>"))
  /\ raised (construct sample_env (with_lists [] [an_integer] [])) = None
  /\ raised (construct_and_execute sample_env (with_lists [] [an_integer] []))
     = Some (ValueError ("All species in species_list must be ARCSpecies objects."
                         ++ " Got <type 'int'>"))
  /\ raised (construct_and_execute sample_env (with_lists [] [] [an_integer]))
     = Some (ValueError "")
  /\ raised (construct_and_execute sample_env (with_lists [a_species] [] [])) = None
  /\ quiet (trace (snd (construct_and_execute sample_env (with_lists [a_species] [] []))))
     = false.
Proof. vm_compute. repeat split. Qed.

(** C9, as stated, fails for [model_chemistry]: given next to a combined
    [level_of_theory], it is stored as it is and never put in lower case. *)
Lemma model_chemistry_kept_as_given :
  let a := with_model_chemistry "CBS-QB3" "CBS-QB3" in
  raised (construct sample_env a) = None
  /\ attr_str (snd (construct sample_env a)) "model_chemistry" = Some "CBS-QB3"
  /\ lower "CBS-QB3" = "cbs-qb3"
  /\ ~ is_lowercased "CBS-QB3".
Proof. vm_compute. repeat split. discriminate. Qed.

(** C9, amended: when the constructor returns, each of [conformer_level],
    [composite_method], [opt_level], [freq_level], [sp_level] and
    [scan_level] that was assigned is in lower case (the empty string
    included); [model_chemistry] is in lower case when it was given in
    lower case or not at all, and when [check_model_chemistry] ran, that is
    with no combined [level_of_theory] and either an [sp_level] or no
    composite method. *)
Theorem resolved_levels_lowercased E a :
  succeeded (construct E a) = true ->
  let w := snd (construct E a) in
  (forall n v, In n level_attributes -> attr_str w n = Some v -> is_lowercased v)
  /\ (forall v,
         attr_str w "model_chemistry" = Some v ->
         is_lowercased (model_chemistry a)
         \/ (level_of_theory a = ""
             /\ (sp_level a <> "" \/ composite_method a = "")) ->
         is_lowercased v).
Proof.
  intros Hok w. subst w. apply succeeded_construct in Hok as [Hro _]. split.
  - intros n v Hn.
    rewrite construct_attr_str
      by (cbn [In level_attributes] in Hn; intuition subst; reflexivity).
    destruct (resolve_attributes E a n) as [[| s | | | | |] |] eqn:Hd; try discriminate.
    intros [= <-].
    apply (resolve_attributes_lowercased level_attributes E a
             (plain_attributes_levels E a) n s Hn Hd).
  - intros v. rewrite construct_attr_str by reflexivity.
    destruct (resolve_attributes E a "model_chemistry") as [[| s | | | | |] |] eqn:Hd;
      try discriminate.
    intros [= <-] [Hgiven | [Hl Hchecks]].
    + apply (resolve_attributes_lowercased ("model_chemistry" :: level_attributes) E a
               (plain_attributes_model_chemistry E a Hgiven) "model_chemistry" s);
        [now left | exact Hd].
    + destruct (resolve_attributes_checked E a Hl) as (m & Hm & Hlow);
        [| exact Hro | congruence].
      unfold checks_model_chemistry. rewrite truthy_lower.
      destruct Hchecks as [Hsp | ->]; [| apply orb_true_r].
      apply truthy_true in Hsp. now rewrite Hsp.
Qed.

Lemma resolved_levels_lowercased_witness :
  succeeded (construct sample_env (with_opt_level_only "HF/STO-3G")) = true
  /\ is_lowercased "hf/sto-3g" /\ is_lowercased "ccsd(t)-f12/cc-pvtz-f12".
Proof.
  split; [reflexivity |].
  destruct (resolved_levels_lowercased sample_env (with_opt_level_only "HF/STO-3G") eq_refl)
    as [Hlevels Hmc].
  split.
  - apply (Hlevels "opt_level"); [cbn; tauto | reflexivity].
  - apply Hmc; [reflexivity | left; reflexivity].
Defined.

Lemma check_model_chemistry_given d t mc :
  d "model_chemistry" = Some (VStr mc) ->
  truthy mc = true ->
  check_model_chemistry (mk_world d t)
  = (inr tt,
     mk_world (upd d "model_chemistry" (VStr (lower mc)))
       (t ++ Log INFO (msg_model_chemistry (lower mc))
          :: (if mem (lower mc) bac_model_chemistries then []
              else [Log WARNING (msg_no_bac (lower mc))]))%list).
Proof.
  intros Hm Hne. unfold check_model_chemistry. exec_cbn.
  repeat (first [rewrite Hm | rewrite Hne]; exec_cbn).
  destruct (mem (lower mc) bac_model_chemistries); do 2 exec_cbn.
  - reflexivity.
  - now rewrite <- app_assoc.
Qed.

(** C10: with a model chemistry given, [check_model_chemistry] raises
    nothing whatever [use_bac] and [sp_level] are: it stores the given
    value in lower case, leaves every other attribute alone, logs it, and
    logs one warning more when Arkane has no corrections for it. *)
Theorem given_model_chemistry_kept (w : world) (mc : string) :
  self w "model_chemistry" = Some (VStr mc) ->
  mc <> "" ->
  fst (check_model_chemistry w) = inr tt
  /\ attr_str (snd (check_model_chemistry w)) "model_chemistry" = Some (lower mc)
  /\ (forall n, n <> "model_chemistry" ->
                self (snd (check_model_chemistry w)) n = self w n)
  /\ trace (snd (check_model_chemistry w))
     = (trace w
        ++ Log INFO (msg_model_chemistry (lower mc))
           :: (if mem (lower mc) bac_model_chemistries then []
               else [Log WARNING (msg_no_bac (lower mc))]))%list.
Proof.
  intros Hm Hne. apply truthy_true in Hne. destruct w as [d t]. cbn [self trace] in *.
  rewrite (check_model_chemistry_given d t mc Hm Hne).
  unfold attr_str. cbn [fst snd self trace]. rewrite upd_same.
  repeat split. intros n Hn. apply upd_other. now apply String.eqb_neq.
Qed.

Lemma given_model_chemistry_kept_witness :
  fst (check_model_chemistry
         (mk_world (upd (upd (upd no_attrs "model_chemistry" (VStr "My-Method/Basis"))
                           "use_bac" (VBool true)) "sp_level" (VStr "hf/sto-3g")) []))
  = inr tt
  /\ attr_str (snd (check_model_chemistry
         (mk_world (upd (upd (upd no_attrs "model_chemistry" (VStr "My-Method/Basis"))
                           "use_bac" (VBool true)) "sp_level" (VStr "hf/sto-3g")) [])))
       "model_chemistry"
     = Some "my-method/basis".
Proof.
  destruct (given_model_chemistry_kept
              (mk_world (upd (upd (upd no_attrs "model_chemistry" (VStr "My-Method/Basis"))
                                "use_bac" (VBool true)) "sp_level" (VStr "hf/sto-3g")) [])
              "My-Method/Basis")
    as (H1 & H2 & _); [reflexivity | discriminate |].
  split; [exact H1 | exact H2].
Defined.

Example given_model_chemistry_example :
  check_model_chemistry
    (mk_world (upd (upd (upd no_attrs "model_chemistry" (VStr "My-Method/Basis"))
                      "use_bac" (VBool true)) "sp_level" (VStr "hf/sto-3g")) [])
  = (inr tt,
     mk_world (upd (upd (upd (upd no_attrs "model_chemistry" (VStr "My-Method/Basis"))
                          "use_bac" (VBool true)) "sp_level" (VStr "hf/sto-3g"))
                 "model_chemistry" (VStr "my-method/basis"))
       [Log INFO (msg_model_chemistry "my-method/basis");
        Log WARNING (msg_no_bac "my-method/basis")]).
Proof. reflexivity. Qed.
End ARCProperties.

(* ===================================================================== *)
(** ** Further properties of the constructor *)
(* ===================================================================== *)

Module ARCMore.
Import PyStr PyStrFacts ARC ARCFacts ARCProperties ARCNotions.

Lemma find_none_count (sep s : string) :
  find sep s = None -> forall k, count_go sep k s = 0.
Proof.
  induction s as [|c s IH]; intros H k; [reflexivity |].
  rewrite find_cons in H. cbn [count_go].
  destruct (startswith sep (String c s)); [discriminate |].
  destruct (find sep s); [discriminate |].
  destruct k; now apply IH.
Qed.

Lemma not_contains_count (sep s : string) : contains sep s = false -> count sep s = 0.
Proof.
  unfold contains, count. intros H. apply find_none_count.
  destruct (find sep s); [discriminate | reflexivity].
Qed.

Lemma no_slash_no_slashes (s : string) : contains "/" s = false -> contains "//" s = false.
Proof.
  intros H. unfold contains. destruct (find "//" s) as [n|] eqn:Hf; [| reflexivity].
  rewrite (find_slashes_slash s n Hf) in H. discriminate.
Qed.

Lemma construct_self E a n :
  is_list_attribute n = false ->
  self (snd (construct E a)) n = resolve_attributes E a n.
Proof.
  unfold is_list_attribute. intros H.
  apply orb_false_iff in H as [H H4]. apply orb_false_iff in H as [H H3].
  apply orb_false_iff in H as [H1 H2].
  destruct (construct_run E a) as (d & t & Hrun & _ & Hf & _).
  rewrite Hrun. cbn [snd self]. now apply Hf.
Qed.

(** With a combined [level_of_theory] and at most one separator, lines 62
    to 187 raise nothing and leave these attributes. *)
Lemma resolve_combined E a :
  (1 <? count "//" (level_of_theory a))%nat = false ->
  truthy (level_of_theory a) = true ->
  resolve_outcome E a = inr tt
  /\ resolve_attributes E a
     = upd (level_of_theory_attributes a
              (upd (plain_attributes E a no_attrs) "conformer_level"
                   (VStr (conformer_value E a))))
           "scan_level" (VStr (scan_value E a)).
Proof.
  intros Hc Hl. unfold resolve_outcome, resolve_attributes. now rewrite Hc, Hl.
Qed.

Lemma init_outcome_resolved E a :
  resolve_outcome E a = inr tt -> fst (construct E a) = rmg_outcome (rmg_species_list a).
Proof.
  intros H. rewrite construct_outcome. unfold init_outcome. now rewrite H.
Qed.

(** A combined [level_of_theory] with a slash and no separator is the level
    of the optimization, of the frequencies and of the single point alike;
    no composite method is assigned, the model chemistry stays as given and
    only the RMG species can still make the constructor fail. *)
Theorem one_level_for_all E a :
  contains "/" (level_of_theory a) = true ->
  contains "//" (level_of_theory a) = false ->
  let w := snd (construct E a) in
  attr_str w "opt_level" = Some (lower (level_of_theory a))
  /\ attr_str w "freq_level" = Some (lower (level_of_theory a))
  /\ attr_str w "sp_level" = Some (lower (level_of_theory a))
  /\ self w "composite_method" = None
  /\ attr_str w "model_chemistry" = Some (model_chemistry a)
  /\ fst (construct E a) = rmg_outcome (rmg_species_list a).
Proof.
  intros Hs Hss w. subst w.
  assert (Hc : (1 <? count "//" (level_of_theory a))%nat = false)
    by now rewrite not_contains_count.
  assert (Hl : truthy (level_of_theory a) = true)
    by (destruct (level_of_theory a); [discriminate | reflexivity]).
  destruct (resolve_combined E a Hc Hl) as [Ho Ha].
  assert (Hlot : level_of_theory_attributes a
                 = fun d => upd (upd (upd d
                     "opt_level" (VStr (lower (level_of_theory a))))
                     "freq_level" (VStr (lower (level_of_theory a))))
                     "sp_level" (VStr (lower (level_of_theory a)))).
  { unfold level_of_theory_attributes. now rewrite Hs, Hss. }
  rewrite Hlot in Ha.
  repeat split; try (rewrite construct_attr_str by reflexivity; now rewrite Ha).
  - rewrite construct_self by reflexivity. now rewrite Ha.
  - now apply init_outcome_resolved.
Qed.

Lemma one_level_for_all_witness :
  attr_str (snd (construct sample_env (with_level_of_theory "B3LYP/6-31G**"))) "sp_level"
  = Some "b3lyp/6-31g**"
  /\ self (snd (construct sample_env (with_level_of_theory "B3LYP/6-31G**"))) "composite_method"
     = None.
Proof.
  destruct (one_level_for_all sample_env (with_level_of_theory "B3LYP/6-31G**")
              eq_refl eq_refl) as (_ & _ & Hsp & Hcm & _).
  split; [exact Hsp | exact Hcm].
Defined.

(** A combined [level_of_theory] without a slash is taken as a composite
    method, in lower case; the levels of optimization, frequencies and single
    point are not assigned at all, and the model chemistry stays as given,
    also for [cbs-qb3]. *)
Theorem bare_name_is_composite_method E a :
  level_of_theory a <> "" ->
  contains "/" (level_of_theory a) = false ->
  let w := snd (construct E a) in
  attr_str w "composite_method" = Some (lower (level_of_theory a))
  /\ self w "opt_level" = None
  /\ self w "freq_level" = None
  /\ self w "sp_level" = None
  /\ attr_str w "model_chemistry" = Some (model_chemistry a)
  /\ fst (construct E a) = rmg_outcome (rmg_species_list a).
Proof.
  intros Hne Hs w. subst w.
  assert (Hc : (1 <? count "//" (level_of_theory a))%nat = false)
    by now rewrite not_contains_count by now apply no_slash_no_slashes.
  assert (Hl : truthy (level_of_theory a) = true) by now apply truthy_true.
  destruct (resolve_combined E a Hc Hl) as [Ho Ha].
  assert (Hlot : level_of_theory_attributes a
                 = fun d => upd d "composite_method" (VStr (lower (level_of_theory a)))).
  { unfold level_of_theory_attributes. now rewrite Hs. }
  rewrite Hlot in Ha.
  repeat split; try (rewrite construct_attr_str by reflexivity; now rewrite Ha);
    try (rewrite construct_self by reflexivity; now rewrite Ha).
  now apply init_outcome_resolved.
Qed.

Lemma bare_name_is_composite_method_witness :
  attr_str (snd (construct sample_env (with_level_of_theory "CBS-QB3"))) "composite_method"
  = Some "cbs-qb3"
  /\ self (snd (construct sample_env (with_level_of_theory "CBS-QB3"))) "opt_level" = None
  /\ attr_str (snd (construct sample_env (with_level_of_theory "CBS-QB3"))) "model_chemistry"
     = Some "".
Proof.
  destruct (bare_name_is_composite_method sample_env (with_level_of_theory "CBS-QB3"))
    as (Hcm & Hopt & _ & _ & Hmc & _); [discriminate | reflexivity |].
  split; [exact Hcm |]. split; [exact Hopt | exact Hmc].
Defined.

(** A combined [level_of_theory] takes precedence: the composite method
    and the levels of optimization, frequencies and single point given next
    to it change neither the outcome of the constructor nor any attribute
    it resolves. *)
Theorem level_of_theory_takes_precedence E a (cm opt freq sp : string) :
  level_of_theory a <> "" ->
  fst (construct E (with_individual_levels a cm opt freq sp)) = fst (construct E a)
  /\ forall n, is_list_attribute n = false ->
               self (snd (construct E (with_individual_levels a cm opt freq sp))) n
               = self (snd (construct E a)) n.
Proof.
  intros Hne. apply truthy_true in Hne.
  assert (Ho : resolve_outcome E (with_individual_levels a cm opt freq sp)
               = resolve_outcome E a).
  { unfold resolve_outcome. cbn [level_of_theory with_individual_levels].
    destruct (1 <? count "//" (level_of_theory a))%nat; [reflexivity |]. now rewrite Hne. }
  assert (Ha : resolve_attributes E (with_individual_levels a cm opt freq sp)
               = resolve_attributes E a).
  { unfold resolve_attributes. cbn [level_of_theory with_individual_levels].
    destruct (1 <? count "//" (level_of_theory a))%nat; [reflexivity |]. now rewrite Hne. }
  split.
  - rewrite !construct_outcome. unfold init_outcome. now rewrite Ho.
  - intros n Hn. now rewrite !construct_self, Ha by assumption.
Qed.

Lemma level_of_theory_takes_precedence_witness :
  fst (construct sample_env
         (with_individual_levels (with_level_of_theory "a//b") "g3" "x" "y" "z"))
  = fst (construct sample_env (with_level_of_theory "a//b")).
Proof.
  apply (level_of_theory_takes_precedence sample_env (with_level_of_theory "a//b")).
  discriminate.
Defined.

Lemma rmg_outcome_accepts (l : list py_obj) :
  rmg_outcome l = inr tt <-> forallb labelled_species l = true.
Proof.
  unfold labelled_species. induction l as [|x l IH]; [easy |].
  cbn [rmg_outcome forallb].
  destruct (isinstance x Species); cbn [negb andb]; [| easy].
  destruct (truthy (obj_label x)); cbn [negb andb]; [exact IH | easy].
Qed.

Lemma rmg_outcome_first_refused (good rest : list py_obj) (x : py_obj) :
  forallb labelled_species good = true ->
  labelled_species x = false ->
  rmg_outcome (good ++ x :: rest)
  = inl (InputError (if isinstance x Species then msg_no_label x else msg_not_species x)).
Proof.
  unfold labelled_species. intros Hg Hx.
  induction good as [|y good IH]; cbn [app rmg_outcome forallb] in *.
  - destruct (isinstance x Species); cbn [negb andb] in *; [| reflexivity].
    now rewrite Hx.
  - apply andb_true_iff in Hg as [Hy Hg]. apply andb_true_iff in Hy as [-> ->].
    cbn [negb]. now apply IH.
Qed.

Lemma rmg_outcome_messages (l : list py_obj) :
  rmg_outcome l = inr tt
  \/ exists x, In x l
               /\ (rmg_outcome l = inl (InputError (msg_not_species x))
                   \/ rmg_outcome l = inl (InputError (msg_no_label x))).
Proof.
  induction l as [|x l IH]; [now left |].
  cbn [rmg_outcome].
  destruct (negb (isinstance x Species)); [right; exists x; split; [now left | now left] |].
  destruct (negb (truthy (obj_label x))); [right; exists x; split; [now left | now right] |].
  destruct IH as [H | (y & Hy & H)]; [now left |].
  right. exists y. split; [now right | exact H].
Qed.

Lemma resolve_outcome_messages E a :
  resolve_outcome E a = inr tt
  \/ resolve_outcome E a = inl (InputError (msg_separators (level_of_theory a)))
  \/ resolve_outcome E a = inl (InputError (msg_composite (lower (composite_method a))))
  \/ resolve_outcome E a = inl (InputError msg_undetermined).
Proof.
  unfold resolve_outcome, individual_outcome, composite_outcome, sp_outcome, check_outcome.
  repeat match goal with
         | |- context [if ?b then _ else _] => destruct b
         | |- context [match ?b with Some _ => _ | None => _ end] => destruct b
         end; auto.
Qed.

(** The constructor returns or raises [InputError] with one of five
    messages: about the separators, the composite method, the model
    chemistry, or an entry of [rmg_species_list] that is no [Species] or has
    no label. It reads no attribute before it is assigned, and the error of
    line 130, [Specify either composite_method or level_of_theory], is never
    raised, whatever is given. *)
Theorem constructor_errors E a :
  (raised (construct E a) = None
   \/ raised (construct E a) = Some (InputError (msg_separators (level_of_theory a)))
   \/ raised (construct E a) = Some (InputError (msg_composite (lower (composite_method a))))
   \/ raised (construct E a) = Some (InputError msg_undetermined)
   \/ exists x, In x (rmg_species_list a)
                /\ (raised (construct E a) = Some (InputError (msg_not_species x))
                    \/ raised (construct E a) = Some (InputError (msg_no_label x))))
  /\ raised (construct E a) <> Some (InputError msg_either).
Proof.
  unfold raised. rewrite construct_outcome. unfold init_outcome.
  destruct (resolve_outcome_messages E a) as [-> | [-> | [-> | ->]]].
  - destruct (rmg_outcome_messages (rmg_species_list a)) as [-> | (x & Hx & [-> | ->])].
    + split; [now left | discriminate].
    + split; [do 4 right; exists x; split; [exact Hx | now left] | discriminate].
    + split; [do 4 right; exists x; split; [exact Hx | now right] | discriminate].
  - split; [right; now left | discriminate].
  - split; [do 2 right; now left | discriminate].
  - split; [do 3 right; now left | discriminate].
Qed.

(** With [use_bac] off nothing about the model chemistry or the composite
    method can fail: the constructor returns exactly when the separator
    occurs at most once and every entry of [rmg_species_list] is a
    [Species] with a label. *)
Theorem without_bac_construction E a :
  use_bac a = false ->
  (succeeded (construct E a) = true
   <-> (count "//" (level_of_theory a) <= 1)%nat
       /\ forallb labelled_species (rmg_species_list a) = true).
Proof.
  intros Hu. unfold succeeded. rewrite construct_outcome. unfold init_outcome.
  assert (Hr : resolve_outcome E a
               = if (1 <? count "//" (level_of_theory a))%nat
                 then inl (InputError (msg_separators (level_of_theory a)))
                 else inr tt).
  { assert (Hco : composite_outcome a = inr tt).
    { unfold composite_outcome. rewrite Hu.
      destruct (truthy (lower (composite_method a))); [| reflexivity].
      now destruct (lower (composite_method a) =? "cbs-qb3"). }
    assert (Hch : forall mc sp, check_outcome mc sp false = inr tt).
    { intros mc sp. unfold check_outcome, inferred_model_chemistry.
      destruct (truthy mc); [reflexivity |].
      destruct (mem (normalized_sp_level sp) f12_sp_levels); [reflexivity |].
      destruct (mem (normalized_sp_level sp) bac_model_chemistries); [reflexivity |].
      now destruct (mem (normalized_sp_level sp) aec_model_chemistries). }
    unfold resolve_outcome, individual_outcome, sp_outcome. rewrite Hco, Hu, Hch.
    destruct (1 <? count "//" (level_of_theory a))%nat; [reflexivity |].
    destruct (truthy (level_of_theory a)); [reflexivity |].
    now destruct (checks_model_chemistry a). }
  rewrite Hr. rewrite <- rmg_outcome_accepts.
  destruct (1 <? count "//" (level_of_theory a))%nat eqn:Hc.
  - apply Nat.ltb_lt in Hc. split; [discriminate | intros [H _]; lia].
  - apply Nat.ltb_ge in Hc.
    destruct (rmg_outcome (rmg_species_list a)) as [e | []]; split;
      try discriminate; try tauto; intros [_ H]; discriminate.
Qed.

Lemma without_bac_construction_witness :
  succeeded (construct sample_env (without_bac "" "g3" "my/level")) = true.
Proof.
  apply (without_bac_construction sample_env (without_bac "" "g3" "my/level") eq_refl).
  split; [vm_compute; lia | reflexivity].
Defined.

(** Given on its own, a composite method decides the model chemistry:
    [cbs-qb3] in any case of letters becomes the model chemistry, whatever
    model chemistry and [sp_level] were given, and any other composite method
    makes the constructor raise [InputError] under [use_bac], also when a
    model chemistry was given. *)
Theorem composite_method_decides_model_chemistry E a :
  level_of_theory a = "" ->
  composite_method a <> "" ->
  (lower (composite_method a) = "cbs-qb3" ->
   attr_str (snd (construct E a)) "model_chemistry" = Some "cbs-qb3"
   /\ attr_str (snd (construct E a)) "composite_method" = Some "cbs-qb3"
   /\ fst (construct E a) = rmg_outcome (rmg_species_list a))
  /\ (lower (composite_method a) <> "cbs-qb3" ->
      use_bac a = true ->
      raised (construct E a)
      = Some (InputError (msg_composite (lower (composite_method a))))
      /\ attr_str (snd (construct E a)) "model_chemistry" = Some (model_chemistry a)
      /\ self (snd (construct E a)) "opt_level" = None).
Proof.
  intros Hl Hne. apply truthy_true in Hne. rewrite <- truthy_lower in Hne.
  assert (Hra : resolve_attributes E a
                = match individual_outcome E a with
                  | inl _ => individual_attributes E a
                               (upd (plain_attributes E a no_attrs) "conformer_level"
                                    (VStr (conformer_value E a)))
                  | inr _ => upd (individual_attributes E a
                                    (upd (plain_attributes E a no_attrs) "conformer_level"
                                         (VStr (conformer_value E a))))
                                 "scan_level" (VStr (scan_value E a))
                  end).
  { unfold resolve_attributes. now rewrite Hl. }
  assert (Hro : resolve_outcome E a = individual_outcome E a).
  { unfold resolve_outcome. now rewrite Hl. }
  split.
  - intros Hcbs.
    assert (Hco : composite_outcome a = inr tt).
    { unfold composite_outcome. now rewrite Hne, Hcbs. }
    assert (Hbefore : model_chemistry_before_sp a = "cbs-qb3").
    { unfold model_chemistry_before_sp. now rewrite Hne, Hcbs. }
    assert (Hio : individual_outcome E a = inr tt).
    { unfold individual_outcome, sp_outcome, check_outcome.
      rewrite Hco, Hbefore. now destruct (checks_model_chemistry a). }
    rewrite Hio in Hra.
    split; [| split].
    + rewrite construct_attr_str, Hra, upd_other by reflexivity.
      unfold individual_attributes, sp_attributes, check_attributes.
      rewrite Hco, Hbefore.
      destruct (checks_model_chemistry a); cbn [truthy String.eqb negb].
      * now rewrite upd_same.
      * rewrite !upd_other by reflexivity.
        rewrite composite_attributes_model_chemistry by reflexivity.
        now rewrite Hbefore.
    + rewrite construct_attr_str, Hra, upd_other by reflexivity.
      unfold individual_attributes. rewrite Hco, sp_attributes_frame by reflexivity.
      rewrite !upd_other by reflexivity.
      now rewrite composite_attributes_composite_method, Hcbs.
    + apply init_outcome_resolved. now rewrite Hro.
  - intros Hnot Hu. apply String.eqb_neq in Hnot.
    assert (Hco : composite_outcome a
                  = inl (InputError (msg_composite (lower (composite_method a))))).
    { unfold composite_outcome. now rewrite Hne, Hnot, Hu. }
    assert (Hio : individual_outcome E a
                  = inl (InputError (msg_composite (lower (composite_method a))))).
    { unfold individual_outcome. now rewrite Hco. }
    rewrite Hio in Hra.
    assert (Hia : individual_attributes E a
                  = fun d => upd d "composite_method" (VStr (lower (composite_method a)))).
    { unfold individual_attributes, composite_attributes. now rewrite Hco, Hne, Hnot. }
    rewrite Hia in Hra.
    split; [| split].
    + unfold raised. rewrite construct_outcome. unfold init_outcome. now rewrite Hro, Hio.
    + rewrite construct_attr_str by reflexivity. now rewrite Hra.
    + rewrite construct_self by reflexivity. now rewrite Hra.
Qed.

Lemma composite_method_decides_model_chemistry_witness :
  attr_str (snd (construct sample_env
                   (mk_args "demo" [] [] [] "" "" "CBS-QB3" "" "" "HF/STO-3G" ""
                      true true true true "My-Own/Method" INFO)))
           "model_chemistry" = Some "cbs-qb3"
  /\ raised (construct sample_env
               (mk_args "demo" [] [] [] "" "" "G3" "" "" "" ""
                  true true true true "g3" INFO))
     = Some (InputError (msg_composite "g3")).
Proof.
  split.
  - destruct (composite_method_decides_model_chemistry sample_env
                (mk_args "demo" [] [] [] "" "" "CBS-QB3" "" "" "HF/STO-3G" ""
                   true true true true "My-Own/Method" INFO))
      as [Hcbs _]; [reflexivity | discriminate |].
    apply Hcbs. reflexivity.
  - destruct (composite_method_decides_model_chemistry sample_env
                (mk_args "demo" [] [] [] "" "" "G3" "" "" "" ""
                   true true true true "g3" INFO))
      as [_ Hother]; [reflexivity | discriminate |].
    apply Hother; [discriminate | reflexivity].
Defined.

Lemma resolve_run E a :
  exists t, resolve E a start = (resolve_outcome E a, mk_world (resolve_attributes E a) t)
            /\ quiet t = true.
Proof.
  destruct (resolve_steps E a) as (t & Hr & Hq). exists t. split; [exact Hr | now apply Hq].
Qed.

(** Once the levels are resolved, the first entry of [rmg_species_list]
    that is no [Species], or is one without a label, decides the error: the
    message names the type of the former and the latter itself. Entries
    after it are not looked at. *)
Theorem first_refused_species_decides E a (good rest : list py_obj) (x : py_obj) :
  fst (resolve E a start) = inr tt ->
  rmg_species_list a = (good ++ x :: rest)%list ->
  forallb labelled_species good = true ->
  labelled_species x = false ->
  raised (construct E a)
  = Some (InputError (if isinstance x Species then msg_no_label x else msg_not_species x)).
Proof.
  intros Hr Hl Hg Hx.
  destruct (resolve_run E a) as (t & Hrun & _). rewrite Hrun in Hr. cbn [fst] in Hr.
  unfold raised. rewrite construct_outcome. unfold init_outcome.
  now rewrite Hr, Hl, (rmg_outcome_first_refused good rest x Hg Hx).
Qed.

Lemma first_refused_species_decides_witness :
  raised (construct sample_env (with_lists [a_species; unlabelled_species; an_integer] [] []))
  = Some (InputError (msg_no_label unlabelled_species)).
Proof.
  apply (first_refused_species_decides sample_env
           (with_lists [a_species; unlabelled_species; an_integer] [] [])
           [a_species] [an_integer] unlabelled_species); reflexivity.
Defined.

Lemma store_lists_accepts E a d t :
  rmg_outcome (rmg_species_list a) = inr tt ->
  exists d',
    store_lists E a (mk_world d t) = (inr tt, mk_world d' t)
    /\ d' "arc_species_list"
       = Some (VList (arc_species_list a
                      ++ map (new_ARCSpecies E false) (rmg_species_list a))%list)
    /\ d' "rmg_species_list" = Some (VList (rmg_species_list a))
    /\ d' "rxn_list" = Some (VList (rxn_list a))
    /\ d' "scheduler" = Some VNone
    /\ forall n, is_list_attribute n = false -> d' n = d n.
Proof.
  intros Hok. unfold store_lists. exec_cbn.
  destruct (rmg_species_list a) as [|x l] eqn:Hl.
  - exec_cbn. eexists. split; [reflexivity |].
    cbn [map app]. rewrite app_nil_r.
    repeat split; try lookup.
    unfold is_list_attribute. intros n Hn.
    apply orb_false_iff in Hn as [Hn H4]. apply orb_false_iff in Hn as [Hn H3].
    apply orb_false_iff in Hn as [H1 H2]. now rewrite !upd_other.
  - exec_cbn. cbn [app].
    destruct (add_rmg_species_loop E (x :: l)
                (upd (upd (upd d "arc_species_list" (VList []))
                        "arc_species_list" (VList (arc_species_list a)))
                   "rmg_species_list" (VList (x :: l))) t (arc_species_list a))
      as (d' & Hrun & Hframe & Hlist); [lookup |].
    rewrite Hrun, Hok. exec_cbn. eexists. split; [reflexivity |].
    repeat split.
    + rewrite !upd_other by reflexivity. now apply Hlist.
    + rewrite !upd_other, Hframe by reflexivity. lookup.
    + unfold is_list_attribute. intros n Hn.
      apply orb_false_iff in Hn as [Hn H4]. apply orb_false_iff in Hn as [Hn H3].
      apply orb_false_iff in Hn as [H1 H2].
      now rewrite !upd_other, Hframe, !upd_other.
Qed.

Lemma construct_accepts E a :
  succeeded (construct E a) = true ->
  exists d t,
    construct E a = (inr tt, mk_world d t)
    /\ quiet t = true
    /\ d "arc_species_list"
       = Some (VList (arc_species_list a
                      ++ map (new_ARCSpecies E false) (rmg_species_list a))%list)
    /\ d "rmg_species_list" = Some (VList (rmg_species_list a))
    /\ d "rxn_list" = Some (VList (rxn_list a))
    /\ d "scheduler" = Some VNone
    /\ forall n, is_list_attribute n = false -> d n = resolve_attributes E a n.
Proof.
  intros Hok. apply succeeded_construct in Hok as [Hro Hrmg].
  destruct (resolve_run E a) as (t & Hrun & Hq).
  destruct (store_lists_accepts E a (resolve_attributes E a) t Hrmg)
    as (d' & Hs & H1 & H2 & H3 & H4 & Hf).
  exists d', t. unfold construct, __init__, bind. rewrite Hrun, Hro, Hs.
  repeat split; assumption.
Qed.

(** When the constructor returns, [arc_species_list] holds the given
    [ARCSpecies] followed by one [ARCSpecies] made of each RMG species, in
    the order given; [rmg_species_list] and [rxn_list] are stored as given,
    and [scheduler] is [None]. *)
Theorem lists_stored_in_order E a :
  succeeded (construct E a) = true ->
  let w := snd (construct E a) in
  self w "arc_species_list"
  = Some (VList (arc_species_list a ++ map (new_ARCSpecies E false) (rmg_species_list a))%list)
  /\ self w "rmg_species_list" = Some (VList (rmg_species_list a))
  /\ self w "rxn_list" = Some (VList (rxn_list a))
  /\ self w "scheduler" = Some VNone.
Proof.
  intros Hok w. subst w.
  destruct (construct_accepts E a Hok) as (d & t & Hrun & _ & H1 & H2 & H3 & H4 & _).
  rewrite Hrun. cbn [snd self]. repeat split; assumption.
Qed.

Lemma lists_stored_in_order_witness :
  self (snd (construct sample_env (with_lists [a_species] [an_integer] [])))
       "arc_species_list"
  = Some (VList [an_integer; new_ARCSpecies sample_env false a_species]).
Proof.
  apply (lists_stored_in_order sample_env (with_lists [a_species] [an_integer] [])).
  reflexivity.
Defined.

(** *** [execute] *)

Lemma consider_species_accepts (sl : list py_obj) :
  has_other_than ARCSpecies sl = false ->
  forall d t,
    for_each sl consider_species (mk_world d t)
    = (inr tt, mk_world d (t ++ map considering_species sl)%list).
Proof.
  unfold has_other_than. induction sl as [|x sl IH]; intros H d t.
  - cbn. now rewrite app_nil_r.
  - cbn [existsb] in H. apply orb_false_iff in H as [Hx H].
    cbn [for_each map]. unfold bind, consider_species at 1. rewrite Hx. exec_cbn.
    rewrite IH by assumption. now rewrite <- app_assoc.
Qed.

Lemma consider_species_stops (good rest : list py_obj) (x : py_obj) :
  has_other_than ARCSpecies good = false ->
  isinstance x ARCSpecies = false ->
  forall d t,
    for_each (good ++ x :: rest)%list consider_species (mk_world d t)
    = (inl (ValueError (msg_not_arc_species x)),
       mk_world d (t ++ map considering_species good)%list).
Proof.
  unfold has_other_than. intros Hg Hx. induction good as [|y good IH]; intros d t.
  - cbn [app for_each map]. unfold bind, consider_species. rewrite Hx.
    cbn. now rewrite app_nil_r.
  - cbn [existsb] in Hg. apply orb_false_iff in Hg as [Hy Hg].
    cbn [app for_each map]. unfold bind, consider_species at 1. rewrite Hy. exec_cbn.
    rewrite IH by assumption. now rewrite <- app_assoc.
Qed.

Lemma consider_reaction_accepts (rl : list py_obj) :
  has_other_than Reaction rl = false ->
  forall d t,
    for_each rl consider_reaction (mk_world d t)
    = (inr tt, mk_world d (t ++ map considering_reaction rl)%list).
Proof.
  unfold has_other_than. induction rl as [|x rl IH]; intros H d t.
  - cbn. now rewrite app_nil_r.
  - cbn [existsb] in H. apply orb_false_iff in H as [Hx H].
    cbn [for_each map]. unfold bind, consider_reaction at 1. rewrite Hx. exec_cbn.
    rewrite IH by assumption. now rewrite <- app_assoc.
Qed.

Lemma consider_reaction_stops (good rest : list py_obj) (x : py_obj) :
  has_other_than Reaction good = false ->
  isinstance x Reaction = false ->
  forall d t,
    for_each (good ++ x :: rest)%list consider_reaction (mk_world d t)
    = (inl (ValueError ""),
       mk_world d (t ++ map considering_reaction good
                     ++ [Log ERROR (msg_not_reaction x)])%list).
Proof.
  unfold has_other_than. intros Hg Hx. induction good as [|y good IH]; intros d t.
  - cbn [app for_each map]. unfold bind, consider_reaction. rewrite Hx. reflexivity.
  - cbn [existsb] in Hg. apply orb_false_iff in Hg as [Hy Hg].
    cbn [app for_each map]. unfold bind, consider_reaction at 1. rewrite Hy. exec_cbn.
    rewrite IH by assumption. now rewrite <- !app_assoc.
Qed.

(** [execute] looks at the species first and at the reactions only when
    every species is an [ARCSpecies]. It stops at the first entry of the
    wrong class with [ValueError]: for a species the message names its type
    and the species before it were logged; for a reaction the message is
    empty and the type goes to the log as an error. Nothing else is done and
    no attribute changes. *)
Theorem execute_stops_at_first_wrong_entry E (w : world) (sl rl good rest : list py_obj)
    (x : py_obj) :
  self w "arc_species_list" = Some (VList sl) ->
  self w "rxn_list" = Some (VList rl) ->
  (sl = (good ++ x :: rest)%list ->
   has_other_than ARCSpecies good = false ->
   isinstance x ARCSpecies = false ->
   execute E w
   = (inl (ValueError (msg_not_arc_species x)),
      mk_world (self w)
        (trace w ++ Log INFO (nl ++ nl) :: map considering_species good)%list))
  /\ (has_other_than ARCSpecies sl = false ->
      rl = (good ++ x :: rest)%list ->
      has_other_than Reaction good = false ->
      isinstance x Reaction = false ->
      execute E w
      = (inl (ValueError ""),
         mk_world (self w)
           (trace w ++ Log INFO (nl ++ nl) :: map considering_species sl
              ++ Log INFO nl :: map considering_reaction good
              ++ [Log ERROR (msg_not_reaction x)])%list)).
Proof.
  destruct w as [d t]. cbn [self trace]. intros Hs Hr. split.
  - intros -> Hg Hx. unfold execute. exec_cbn. rewrite Hs. exec_cbn.
    rewrite (consider_species_stops good rest x Hg Hx).
    now rewrite <- app_assoc.
  - intros Hsl -> Hg Hx. unfold execute. exec_cbn. rewrite Hs. exec_cbn.
    rewrite (consider_species_accepts sl Hsl). exec_cbn. rewrite Hr. exec_cbn.
    rewrite (consider_reaction_stops good rest x Hg Hx).
    f_equal. f_equal. rewrite <- !app_assoc. reflexivity.
Qed.

Lemma execute_stops_at_first_wrong_entry_witness :
  execute sample_env
    (mk_world (upd (upd no_attrs "arc_species_list" (VList [an_arc_species; an_integer]))
                 "rxn_list" (VList [an_integer])) [])
  = (inl (ValueError (msg_not_arc_species an_integer)),
     mk_world (upd (upd no_attrs "arc_species_list" (VList [an_arc_species; an_integer]))
                 "rxn_list" (VList [an_integer]))
       [Log INFO (nl ++ nl); considering_species an_arc_species]).
Proof.
  destruct (execute_stops_at_first_wrong_entry sample_env
              (mk_world (upd (upd no_attrs "arc_species_list"
                                (VList [an_arc_species; an_integer]))
                           "rxn_list" (VList [an_integer])) [])
              [an_arc_species; an_integer] [an_integer] [an_arc_species] [] an_integer
              eq_refl eq_refl) as [H _].
  apply H; reflexivity.
Defined.

Lemma quiet_app (t1 t2 : list event) : quiet (t1 ++ t2)%list = quiet t1 && quiet t2.
Proof. apply forallb_app. Qed.

Lemma quiet_considering_species (l : list py_obj) : quiet (map considering_species l) = true.
Proof. induction l as [|x l IH]; [reflexivity | exact IH]. Qed.

Lemma quiet_considering_reaction (l : list py_obj) : quiet (map considering_reaction l) = true.
Proof. induction l as [|x l IH]; [reflexivity | exact IH]. Qed.

Lemma quiet_closing_lines E : quiet (closing_lines E) = true.
Proof.
  unfold closing_lines. rewrite quiet_app. cbn [quiet forallb is_remote_work negb andb].
  rewrite andb_true_r. induction (scheduler_output E) as [|[label status] l IH];
    [reflexivity |].
  cbn [map forallb summary_line]. now destruct (status =? "converged").
Qed.

Lemma quiet_filter (t : list event) : quiet t = true -> filter is_remote_work t = [].
Proof.
  unfold quiet. induction t as [|ev t IH]; [reflexivity |].
  cbn [forallb filter]. intros H. apply andb_true_iff in H as [Hev H].
  apply negb_true_iff in Hev. rewrite Hev. now apply IH.
Qed.

Lemma summary_lines_run (l : list (string * string)) :
  forall d t,
    for_each l
      (fun '(label, status) =>
         if status =? "converged" then
           logging_info ("Species " ++ label ++ " converged successfully")
         else
           logging_info ("Species " ++ label ++ " failed with message:" ++ nl ++ "  " ++ status))
      (mk_world d t)
    = (inr tt, mk_world d (t ++ map summary_line l)%list).
Proof.
  induction l as [|[label status] l IH]; intros d t.
  - cbn. now rewrite app_nil_r.
  - cbn [for_each map summary_line]. unfold bind at 1.
    destruct (status =? "converged"); exec_cbn; rewrite IH; now rewrite <- app_assoc.
Qed.

(** From the last check of [execute] to its end, on an object that has
    all the attributes the [Scheduler] and the [Processor] are given. *)
Lemma execute_runs E d t (sl rl : list py_obj) kw kw' v :
  d "arc_species_list" = Some (VList sl) ->
  d "rxn_list" = Some (VList rl) ->
  has_other_than ARCSpecies sl = false ->
  has_other_than Reaction rl = false ->
  read_arguments d scheduler_arguments = Some kw ->
  read_arguments d processor_arguments = Some kw' ->
  d "t0" = Some v ->
  execute E (mk_world d t)
  = (inr tt,
     mk_world (upd d "scheduler" VScheduler)
       (t ++ Log INFO (nl ++ nl) :: map considering_species sl
          ++ Log INFO nl :: map considering_reaction rl
          ++ Log INFO nl :: SchedulerRun kw :: ProcessorProcess kw' :: closing_lines E)%list).
Proof.
  intros Hsl Hrl Hs Hr Hkw Hkw' Ht0.
  cbn [read_arguments scheduler_arguments processor_arguments] in Hkw, Hkw'.
  rewrite Hsl in Hkw.
  destruct (d "project") as [v1|] eqn:H1; [| discriminate].
  destruct (d "composite_method") as [v2|] eqn:H2; [| discriminate].
  destruct (d "conformer_level") as [v3|] eqn:H3; [| discriminate].
  destruct (d "opt_level") as [v4|] eqn:H4; [| discriminate].
  destruct (d "freq_level") as [v5|] eqn:H5; [| discriminate].
  destruct (d "sp_level") as [v6|] eqn:H6; [| discriminate].
  destruct (d "scan_level") as [v7|] eqn:H7; [| discriminate].
  destruct (d "fine") as [v8|] eqn:H8; [| discriminate].
  destruct (d "generate_conformers") as [v9|] eqn:H9; [| discriminate].
  destruct (d "scan_rotors") as [v10|] eqn:H10; [| discriminate].
  destruct (d "use_bac") as [v11|] eqn:H11; [| discriminate].
  destruct (d "model_chemistry") as [v12|] eqn:H12; [| discriminate].
  injection Hkw as <-. injection Hkw' as <-.
  unfold execute, summary, log_footer. exec_cbn. rewrite Hsl. exec_cbn.
  rewrite (consider_species_accepts sl Hs). exec_cbn. rewrite Hrl. exec_cbn.
  rewrite (consider_reaction_accepts rl Hr). exec_cbn.
  rewrite H1, Hsl, H2, H3, H4, H5, H6, H7, H8, H9, H10. exec_cbn.
  rewrite H1. exec_cbn. rewrite H11. exec_cbn. rewrite H12. exec_cbn.
  rewrite summary_lines_run. exec_cbn. rewrite Ht0. exec_cbn.
  f_equal. f_equal. unfold closing_lines.
  repeat (rewrite <- app_assoc; cbn [app]). reflexivity.
Qed.

Lemma plain_attributes_values E a d :
  plain_attributes E a d "project" = Some (VStr (project a))
  /\ plain_attributes E a d "t0" = Some (VNum (time_time E))
  /\ plain_attributes E a d "fine" = Some (VBool (fine a))
  /\ plain_attributes E a d "generate_conformers" = Some (VBool (generate_conformers a))
  /\ plain_attributes E a d "scan_rotors" = Some (VBool (scan_rotors a))
  /\ plain_attributes E a d "use_bac" = Some (VBool (use_bac a))
  /\ plain_attributes E a d "model_chemistry" = Some (VStr (model_chemistry a)).
Proof. unfold plain_attributes. repeat split. Qed.

(** The attributes after lines 62 to 187 when no combined
    [level_of_theory] is given and nothing is raised. *)
Lemma resolved_individually E a :
  level_of_theory a = "" ->
  resolve_outcome E a = inr tt ->
  let d := resolve_attributes E a in
  (d "project" = Some (VStr (project a))
   /\ d "t0" = Some (VNum (time_time E))
   /\ d "fine" = Some (VBool (fine a))
   /\ d "generate_conformers" = Some (VBool (generate_conformers a))
   /\ d "scan_rotors" = Some (VBool (scan_rotors a))
   /\ d "use_bac" = Some (VBool (use_bac a)))
  /\ (d "composite_method" = Some (VStr (lower (composite_method a)))
      /\ d "conformer_level" = Some (VStr (conformer_value E a))
      /\ d "opt_level" = Some (VStr (opt_value E a))
      /\ d "freq_level" = Some (VStr (freq_value E a))
      /\ d "sp_level" = Some (VStr (sp_value E a))
      /\ d "scan_level" = Some (VStr (scan_value E a)))
  /\ exists m, d "model_chemistry" = Some (VStr m).
Proof.
  intros Hl Hro d. subst d.
  assert (Hio : individual_outcome E a = inr tt).
  { unfold resolve_outcome in Hro. now rewrite Hl in Hro. }
  assert (Hco : composite_outcome a = inr tt).
  { unfold individual_outcome in Hio.
    destruct (composite_outcome a) as [e | []]; [discriminate | reflexivity]. }
  assert (Hra : resolve_attributes E a
                = upd (individual_attributes E a
                         (upd (plain_attributes E a no_attrs) "conformer_level"
                              (VStr (conformer_value E a))))
                      "scan_level" (VStr (scan_value E a))).
  { unfold resolve_attributes. now rewrite Hl, Hio. }
  rewrite Hra.
  destruct (plain_attributes_values E a no_attrs) as (P1 & P2 & P3 & P4 & P5 & P6 & P7).
  destruct (individual_attributes_levels E a
              (upd (plain_attributes E a no_attrs) "conformer_level"
                   (VStr (conformer_value E a))) Hco)
    as (Hsp & Hfreq & Hopt & Hconf).
  split; [| split].
  - repeat split; rewrite upd_other, individual_attributes_frame, upd_other by reflexivity;
      assumption.
  - repeat split; try (rewrite upd_other by reflexivity; assumption).
    rewrite upd_other by reflexivity. unfold individual_attributes.
    rewrite Hco, sp_attributes_frame, !upd_other by reflexivity.
    apply composite_attributes_composite_method.
  - rewrite upd_other by reflexivity. unfold individual_attributes. rewrite Hco.
    unfold sp_attributes. unfold individual_outcome, sp_outcome in Hio. rewrite Hco in Hio.
    destruct (checks_model_chemistry a).
    + destruct (check_attributes_model_chemistry _ _ _
                  (upd (upd (upd (composite_attributes a
                     (upd (plain_attributes E a no_attrs) "conformer_level"
                          (VStr (conformer_value E a))))
                     "opt_level" (VStr (opt_value E a)))
                     "freq_level" (VStr (freq_value E a)))
                     "sp_level" (VStr (sp_value E a))) Hio) as (m & Hm & _).
      now exists m.
    + rewrite !upd_other by reflexivity.
      rewrite composite_attributes_model_chemistry
        by (rewrite upd_other by reflexivity; exact P7).
      eauto.
Qed.

Lemma has_other_than_converted E (l : list py_obj) :
  makes_arc_species E -> has_other_than ARCSpecies (map (new_ARCSpecies E false) l) = false.
Proof.
  intros HE. unfold has_other_than. induction l as [|x l IH]; [reflexivity |].
  cbn [map existsb]. now rewrite HE, IH.
Qed.

(** A run that is in order: with no combined [level_of_theory], a
    constructor that returns, an [ARCSpecies] constructor that gives
    [ARCSpecies], and lists of the right classes, [execute] raises nothing.
    It logs the species and then the reactions, builds the [Scheduler] once,
    with the attributes of the object as keyword arguments, hands [use_bac]
    and the model chemistry of the object to the [Processor], and ends with
    the summary and the footer. *)
Theorem run_in_order E a :
  makes_arc_species E ->
  level_of_theory a = "" ->
  succeeded (construct E a) = true ->
  has_other_than ARCSpecies (arc_species_list a) = false ->
  has_other_than Reaction (rxn_list a) = false ->
  let w0 := snd (construct E a) in
  exists kw kw',
    read_arguments (self w0) scheduler_arguments = Some kw
    /\ read_arguments (self w0) processor_arguments = Some kw'
    /\ construct_and_execute E a
       = (inr tt,
          mk_world (upd (self w0) "scheduler" VScheduler)
            (trace w0 ++ Log INFO (nl ++ nl)
               :: map considering_species
                    (arc_species_list a
                     ++ map (new_ARCSpecies E false) (rmg_species_list a))
               ++ Log INFO nl :: map considering_reaction (rxn_list a)
               ++ Log INFO nl :: SchedulerRun kw :: ProcessorProcess kw'
                  :: closing_lines E)%list)
    /\ filter is_remote_work (trace (snd (construct_and_execute E a))) = [SchedulerRun kw].
Proof.
  intros HE Hl Hok Harc Hrxn w0. subst w0.
  destruct (construct_accepts E a Hok) as (d & t & Hrun & Hq & H1 & H2 & H3 & H4 & Hf).
  apply succeeded_construct in Hok as [Hro _].
  destruct (resolved_individually E a Hl Hro)
    as ((P1 & P2 & P3 & P4 & P5 & P6) & (L1 & L2 & L3 & L4 & L5 & L6) & (m & Hm)).
  rewrite <- !Hf in P1, P2, P3, P4, P5, P6, L1, L2, L3, L4, L5, L6, Hm by reflexivity.
  rewrite construct_and_execute_unfold, Hrun. cbn [snd self trace].
  assert (Hsl : has_other_than ARCSpecies
                  (arc_species_list a ++ map (new_ARCSpecies E false) (rmg_species_list a))%list
                = false).
  { rewrite has_other_than_app, Harc. now apply has_other_than_converted. }
  eexists. eexists.
  split; [cbn [read_arguments scheduler_arguments];
          rewrite P1, H1, L1, L2, L3, L4, L5, L6, P3, P4, P5; reflexivity |].
  split; [cbn [read_arguments processor_arguments]; rewrite P1, P6, Hm; reflexivity |].
  assert (Hexec := execute_runs E d t _ _ _ _ _ H1 H3 Hsl Hrxn
                     ltac:(cbn [read_arguments scheduler_arguments];
                           rewrite P1, H1, L1, L2, L3, L4, L5, L6, P3, P4, P5; reflexivity)
                     ltac:(cbn [read_arguments processor_arguments];
                           rewrite P1, P6, Hm; reflexivity)
                     P2).
  split; [exact Hexec |].
  rewrite Hexec. cbn [snd trace].
  rewrite filter_app, (quiet_filter t Hq). cbn [app filter is_remote_work].
  rewrite filter_app, (quiet_filter _ (quiet_considering_species _)).
  cbn [app filter is_remote_work].
  rewrite filter_app, (quiet_filter _ (quiet_considering_reaction _)).
  cbn [app filter is_remote_work].
  now rewrite (quiet_filter _ (quiet_closing_lines E)).
Qed.

Lemma run_in_order_witness :
  exists kw,
    filter is_remote_work
      (trace (snd (construct_and_execute sample_env
                     (with_lists [a_species] [an_arc_species] [a_reaction]))))
    = [SchedulerRun kw].
Proof.
  destruct (run_in_order sample_env (with_lists [a_species] [an_arc_species] [a_reaction])
              (fun _ _ => eq_refl) eq_refl eq_refl eq_refl eq_refl)
    as (kw & kw' & _ & _ & _ & H).
  exists kw. exact H.
Defined.

(** [execute] on an object that passes the checks of its lists but lacks
    an attribute the [Scheduler] is given. *)
Lemma execute_lacks_attribute E d t (sl rl : list py_obj) v :
  d "arc_species_list" = Some (VList sl) ->
  d "rxn_list" = Some (VList rl) ->
  has_other_than ARCSpecies sl = false ->
  has_other_than Reaction rl = false ->
  d "project" = Some v ->
  (d "composite_method" = None ->
   exists t', execute E (mk_world d t) = (inl (AttributeError "composite_method"), mk_world d t')
              /\ (quiet t = true -> quiet t' = true))
  /\ (forall v2 v3, d "composite_method" = Some v2 -> d "conformer_level" = Some v3 ->
      d "opt_level" = None ->
      exists t', execute E (mk_world d t) = (inl (AttributeError "opt_level"), mk_world d t')
                 /\ (quiet t = true -> quiet t' = true)).
Proof.
  intros Hsl Hrl Hs Hr H1.
  assert (Hq : quiet t = true ->
               quiet (((((t ++ [Log INFO (nl ++ nl)]) ++ map considering_species sl)
                          ++ [Log INFO nl]) ++ map considering_reaction rl)
                        ++ [Log INFO nl])%list = true).
  { intros Ht. rewrite !quiet_app, Ht, quiet_considering_species, quiet_considering_reaction.
    reflexivity. }
  split.
  - intros H2. unfold execute. exec_cbn. rewrite Hsl. exec_cbn.
    rewrite (consider_species_accepts sl Hs). exec_cbn. rewrite Hrl. exec_cbn.
    rewrite (consider_reaction_accepts rl Hr). exec_cbn.
    rewrite H1, Hsl, H2. eexists. split; [reflexivity | exact Hq].
  - intros v2 v3 H2 H3 H4. unfold execute. exec_cbn. rewrite Hsl. exec_cbn.
    rewrite (consider_species_accepts sl Hs). exec_cbn. rewrite Hrl. exec_cbn.
    rewrite (consider_reaction_accepts rl Hr). exec_cbn.
    rewrite H1, Hsl, H2, H3, H4. eexists. split; [reflexivity | exact Hq].
Qed.

(** With a combined [level_of_theory], [execute] never gets to the
    [Scheduler]: the constructor leaves either [composite_method] or
    [opt_level] unassigned, so a run that passes every check of the
    constructor and of the lists ends with [AttributeError] on that
    attribute, and no job is handed to a server. *)
Theorem combined_level_never_runs E a :
  level_of_theory a <> "" ->
  (exists e, raised (construct_and_execute E a) = Some e)
  /\ no_remote_work (snd (construct_and_execute E a))
  /\ (succeeded (construct E a) = true ->
      has_other_than ARCSpecies
        (arc_species_list a ++ map (new_ARCSpecies E false) (rmg_species_list a))%list = false ->
      has_other_than Reaction (rxn_list a) = false ->
      raised (construct_and_execute E a)
      = Some (AttributeError (if contains "/" (level_of_theory a)
                              then "composite_method" else "opt_level"))).
Proof.
  intros Hne. apply truthy_true in Hne.
  rewrite construct_and_execute_unfold.
  destruct (succeeded (construct E a)) eqn:Hok.
  - destruct (construct_accepts E a Hok) as (d & t & Hrun & Hq & H1 & H2 & H3 & H4 & Hf).
    rewrite Hrun. unfold raised, no_remote_work.
    apply succeeded_construct in Hok as [Hro _].
    assert (Hc : (1 <? count "//" (level_of_theory a))%nat = false).
    { unfold resolve_outcome in Hro.
      destruct (1 <? count "//" (level_of_theory a))%nat; [discriminate | reflexivity]. }
    destruct (resolve_combined E a Hc Hne) as [_ Ha].
    assert (Hp : d "project" = Some (VStr (project a))).
    { rewrite Hf, Ha, upd_other, level_of_theory_attributes_frame, upd_other by reflexivity.
      apply plain_attributes_values. }
    assert (Hmissing :
              has_other_than ARCSpecies
                (arc_species_list a ++ map (new_ARCSpecies E false) (rmg_species_list a))%list
              = false ->
              has_other_than Reaction (rxn_list a) = false ->
              exists t',
                execute E (mk_world d t)
                = (inl (AttributeError (if contains "/" (level_of_theory a)
                                        then "composite_method" else "opt_level")),
                   mk_world d t')
                /\ quiet t' = true).
    { intros Hsl Hrl.
      destruct (execute_lacks_attribute E d t _ _ _ H1 H3 Hsl Hrl Hp) as [HA HB].
      destruct (contains "/" (level_of_theory a)) eqn:Hs.
      - destruct HA as (t' & He & Hq').
        + rewrite Hf, Ha, upd_other by reflexivity.
          unfold level_of_theory_attributes. rewrite Hs. cbn [negb].
          destruct (contains "//" (level_of_theory a)); reflexivity.
        + exists t'. split; [exact He | now apply Hq'].
      - assert (Hla : level_of_theory_attributes a
                      = fun d => upd d "composite_method" (VStr (lower (level_of_theory a)))).
        { unfold level_of_theory_attributes. now rewrite Hs. }
        destruct (HB (VStr (lower (level_of_theory a))) (VStr (conformer_value E a)))
          as (t' & He & Hq');
          try (rewrite Hf, Ha, Hla by reflexivity; reflexivity).
        exists t'. split; [exact He | now apply Hq']. }
    destruct (has_other_than ARCSpecies
                (arc_species_list a ++ map (new_ARCSpecies E false) (rmg_species_list a))%list
              || has_other_than Reaction (rxn_list a)) eqn:Hbad.
    + destruct (execute_refuses E d t _ _ H1 H3 Hbad) as (msg & t' & He & Hq').
      rewrite He. cbn [fst snd trace].
      split; [eauto |]. split; [now apply Hq' |].
      intros _ Hsl Hrl. rewrite Hsl, Hrl in Hbad. discriminate.
    + apply orb_false_iff in Hbad as [Hsl Hrl].
      destruct (Hmissing Hsl Hrl) as (t' & He & Hq').
      rewrite He. cbn [fst snd trace]. split; [eauto |]. split; [exact Hq' | reflexivity].
  - destruct (construct_run E a) as (d & t & Hrun & Hq & _).
    unfold succeeded in Hok. rewrite Hrun in *. cbn [fst] in Hok.
    destruct (init_outcome E a) as [e | []]; [| discriminate].
    unfold raised, no_remote_work. cbn [fst snd trace].
    split; [eauto |]. split; [exact Hq | discriminate].
Qed.

Lemma combined_level_never_runs_witness :
  raised (construct_and_execute sample_env (with_level_of_theory "ccsd(t)-f12/cc-pvtz-f12//b3lyp/cbsb7"))
  = Some (AttributeError "composite_method")
  /\ raised (construct_and_execute sample_env (with_level_of_theory "cbs-qb3"))
     = Some (AttributeError "opt_level").
Proof.
  split.
  - destruct (combined_level_never_runs sample_env
                (with_level_of_theory "ccsd(t)-f12/cc-pvtz-f12//b3lyp/cbsb7"))
      as (_ & _ & H); [discriminate |].
    apply H; reflexivity.
  - destruct (combined_level_never_runs sample_env (with_level_of_theory "cbs-qb3"))
      as (_ & _ & H); [discriminate |].
    apply H; reflexivity.
Defined.

(** *** [check_model_chemistry] on its own *)

Lemma mem_cases (x : string) (l : list string) : mem x l = true -> In x l.
Proof.
  unfold mem. intros H. apply existsb_exists in H as (y & Hy & He).
  apply String.eqb_eq in He. now subst y.
Qed.

(** [check_model_chemistry] raises in one case only: no model chemistry on
    the object, [use_bac] on, and an sp level, once put in lower case with
    [f12a] and [f12b] read as [f12], in neither table of known methods. It
    then leaves the object as it was and logs nothing. *)
Theorem check_model_chemistry_raises_exactly_when (w : world) (mc sp : string) (ub : bool) :
  self w "model_chemistry" = Some (VStr mc) ->
  self w "sp_level" = Some (VStr sp) ->
  self w "use_bac" = Some (VBool ub) ->
  (fst (check_model_chemistry w) <> inr tt
   <-> mc = "" /\ ub = true
       /\ mem (normalized_sp_level sp) f12_sp_levels = false
       /\ mem (normalized_sp_level sp) bac_model_chemistries = false)
  /\ (fst (check_model_chemistry w) <> inr tt ->
      check_model_chemistry w = (inl (InputError msg_undetermined), w)).
Proof.
  destruct w as [d t]. cbn [self]. intros Hm Hs Hu.
  destruct (check_model_chemistry_steps mc sp ub d t Hm Hs Hu) as (t' & Hrun & _).
  assert (Hiff : check_outcome mc sp ub <> inr tt
                 <-> mc = "" /\ ub = true
                     /\ mem (normalized_sp_level sp) f12_sp_levels = false
                     /\ mem (normalized_sp_level sp) bac_model_chemistries = false).
  { unfold check_outcome, inferred_model_chemistry.
    destruct (truthy mc) eqn:Ht.
    - apply truthy_true in Ht. split; [congruence | intros [H _]; contradiction].
    - apply truthy_false in Ht.
      destruct (mem (normalized_sp_level sp) f12_sp_levels);
        [split; [congruence | intros (_ & _ & H & _); discriminate] |].
      destruct (mem (normalized_sp_level sp) bac_model_chemistries);
        [split; [congruence | intros (_ & _ & _ & H); discriminate] |].
      destruct ub.
      + split; [auto | discriminate].
      + destruct (mem (normalized_sp_level sp) aec_model_chemistries);
          (split; [congruence | intros (_ & H & _); discriminate]). }
  split.
  - rewrite Hrun. exact Hiff.
  - intros Hfail. rewrite Hrun in Hfail. cbn [fst] in Hfail.
    apply Hiff in Hfail as (-> & -> & Hf12 & Hbac). clear Hrun Hiff.
    unfold check_model_chemistry. exec_cbn. rewrite Hm. exec_cbn. rewrite Hs. exec_cbn.
    fold (normalized_sp_level sp). rewrite Hf12, Hbac. exec_cbn. rewrite Hu. reflexivity.
Qed.

Lemma check_model_chemistry_raises_exactly_when_witness :
  check_model_chemistry
    (mk_world (upd (upd (upd no_attrs "model_chemistry" (VStr ""))
                      "sp_level" (VStr "hf/sto-3g")) "use_bac" (VBool true)) [])
  = (inl (InputError msg_undetermined),
     mk_world (upd (upd (upd no_attrs "model_chemistry" (VStr ""))
                      "sp_level" (VStr "hf/sto-3g")) "use_bac" (VBool true)) []).
Proof.
  destruct (check_model_chemistry_raises_exactly_when
              (mk_world (upd (upd (upd no_attrs "model_chemistry" (VStr ""))
                                "sp_level" (VStr "hf/sto-3g")) "use_bac" (VBool true)) [])
              "" "hf/sto-3g" true eq_refl eq_refl eq_refl) as [Hiff Hsame].
  apply Hsame. apply Hiff. repeat split.
Defined.

(** Under [use_bac], a model chemistry that [check_model_chemistry]
    infers is always one Arkane has bond additivity corrections for: an sp
    level of the first table gets the suffix [-f12] and is then an entry of
    the second. *)
Theorem inferred_model_chemistry_has_corrections (w : world) (sp : string) :
  self w "model_chemistry" = Some (VStr "") ->
  self w "sp_level" = Some (VStr sp) ->
  self w "use_bac" = Some (VBool true) ->
  fst (check_model_chemistry w) = inr tt ->
  exists m,
    attr_str (snd (check_model_chemistry w)) "model_chemistry" = Some m
    /\ mem m bac_model_chemistries = true
    /\ (m = normalized_sp_level sp \/ m = normalized_sp_level sp ++ "-f12").
Proof.
  destruct w as [d t]. cbn [self]. intros Hm Hs Hu.
  destruct (check_model_chemistry_steps "" sp true d t Hm Hs Hu) as (t' & Hrun & _).
  rewrite Hrun. cbn [fst snd]. unfold check_outcome, check_attributes, attr_str.
  change (truthy "") with false. cbv iota. unfold inferred_model_chemistry.
  destruct (mem (normalized_sp_level sp) f12_sp_levels) eqn:Hf12.
  - intros _. exists (normalized_sp_level sp ++ "-f12"). cbn [self]. rewrite upd_same.
    split; [reflexivity |]. split; [| now right].
    apply mem_cases in Hf12. cbn [In f12_sp_levels] in Hf12.
    destruct Hf12 as [<- | [<- | [<- | []]]]; reflexivity.
  - destruct (mem (normalized_sp_level sp) bac_model_chemistries) eqn:Hbac; [| discriminate].
    intros _. exists (normalized_sp_level sp). cbn [self]. rewrite upd_same.
    split; [reflexivity |]. split; [exact Hbac | now left].
Qed.

Lemma inferred_model_chemistry_has_corrections_witness :
  exists m,
    attr_str (snd (check_model_chemistry
                     (mk_world (upd (upd (upd no_attrs "model_chemistry" (VStr ""))
                                       "sp_level" (VStr "CCSD(T)-F12a/cc-pVTZ"))
                                  "use_bac" (VBool true)) [])))
             "model_chemistry" = Some m
    /\ mem m bac_model_chemistries = true
    /\ (m = normalized_sp_level "CCSD(T)-F12a/cc-pVTZ"
        \/ m = normalized_sp_level "CCSD(T)-F12a/cc-pVTZ" ++ "-f12").
Proof.
  apply (inferred_model_chemistry_has_corrections
           (mk_world (upd (upd (upd no_attrs "model_chemistry" (VStr ""))
                             "sp_level" (VStr "CCSD(T)-F12a/cc-pVTZ"))
                        "use_bac" (VBool true)) [])
           "CCSD(T)-F12a/cc-pVTZ"); reflexivity.
Defined.

Lemma normalized_sp_level_no_upper (sp : string) :
  no_upper (normalized_sp_level sp) = true.
Proof.
  unfold normalized_sp_level.
  apply replace_no_upper; [reflexivity |].
  apply replace_no_upper; [reflexivity |]. apply no_upper_lower.
Qed.

(** Whatever [check_model_chemistry] stores is in lower case, so the one
    entry of the table of atom energy corrections that is written with
    capitals can never be the model chemistry: an sp level written like that
    entry, in any case of letters, gets the empty model chemistry when
    [use_bac] is off. *)
Theorem entry_in_capitals_out_of_reach (w : world) (mc sp : string) (ub : bool) :
  self w "model_chemistry" = Some (VStr mc) ->
  self w "sp_level" = Some (VStr sp) ->
  self w "use_bac" = Some (VBool ub) ->
  fst (check_model_chemistry w) = inr tt ->
  In "MRCI+Davidson/aug-cc-pV(T+d)Z" aec_model_chemistries
  /\ exists m,
      attr_str (snd (check_model_chemistry w)) "model_chemistry" = Some m
      /\ is_lowercased m
      /\ m <> "MRCI+Davidson/aug-cc-pV(T+d)Z"
      /\ (mc = "" -> ub = false ->
          lower sp = lower "MRCI+Davidson/aug-cc-pV(T+d)Z" -> m = "").
Proof.
  destruct w as [d t]. cbn [self]. intros Hm Hs Hu.
  destruct (check_model_chemistry_steps mc sp ub d t Hm Hs Hu) as (t' & Hrun & _).
  rewrite Hrun. cbn [fst snd]. intros Hok.
  split; [unfold aec_model_chemistries; cbn [In]; tauto |].
  assert (Hlow : forall m, no_upper m = true ->
                           is_lowercased m /\ m <> "MRCI+Davidson/aug-cc-pV(T+d)Z").
  { intros m H. split; [now apply is_lowercased_iff |]. intros ->. discriminate. }
  pose proof (normalized_sp_level_no_upper sp) as Hn.
  unfold check_outcome in Hok. unfold check_attributes, attr_str. cbn [self].
  destruct (truthy mc) eqn:Ht.
  - exists (lower mc). rewrite upd_same. split; [reflexivity |].
    destruct (Hlow (lower mc) (no_upper_lower mc)) as [H1 H2].
    repeat split; try assumption. intros ->. discriminate.
  - destruct (inferred_model_chemistry ub sp) as [m|] eqn:Hi; [| discriminate].
    exists m. rewrite upd_same. split; [reflexivity |].
    unfold inferred_model_chemistry in Hi.
    assert (Hm' : no_upper m = true).
    { destruct (mem (normalized_sp_level sp) f12_sp_levels).
      - injection Hi as <-. now rewrite no_upper_append, Hn.
      - destruct (mem (normalized_sp_level sp) bac_model_chemistries);
          [injection Hi as <-; exact Hn |].
        destruct ub; [discriminate |].
        destruct (mem (normalized_sp_level sp) aec_model_chemistries);
          injection Hi as <-; [exact Hn | reflexivity]. }
    destruct (Hlow m Hm') as [H1 H2]. repeat split; try assumption.
    intros _ -> Hsp. unfold normalized_sp_level in Hi. rewrite Hsp in Hi.
    vm_compute in Hi. now injection Hi as <-.
Qed.

Lemma entry_in_capitals_out_of_reach_witness :
  exists m,
    attr_str (snd (check_model_chemistry
                     (mk_world (upd (upd (upd no_attrs "model_chemistry" (VStr ""))
                                       "sp_level" (VStr "MRCI+Davidson/aug-cc-pV(T+d)Z"))
                                  "use_bac" (VBool false)) [])))
             "model_chemistry" = Some m
    /\ is_lowercased m
    /\ m <> "MRCI+Davidson/aug-cc-pV(T+d)Z"
    /\ ("" = "" -> false = false ->
        lower "MRCI+Davidson/aug-cc-pV(T+d)Z" = lower "MRCI+Davidson/aug-cc-pV(T+d)Z" -> m = "").
Proof.
  exact (proj2 (entry_in_capitals_out_of_reach
                  (mk_world (upd (upd (upd no_attrs "model_chemistry" (VStr ""))
                                    "sp_level" (VStr "MRCI+Davidson/aug-cc-pV(T+d)Z"))
                               "use_bac" (VBool false)) [])
                  "" "MRCI+Davidson/aug-cc-pV(T+d)Z" false
                  eq_refl eq_refl eq_refl eq_refl)).
Defined.

(** *** The log is set up once, at the start *)

Lemma appends_ret {A} P (x : A) : appends P (ret x).
Proof. intros w. exists []. now rewrite app_nil_r. Qed.

Lemma appends_raise {A} P (e : exn) : appends P (@raise A e).
Proof. intros w. exists []. now rewrite app_nil_r. Qed.

Lemma appends_emit P (ev : event) : P ev = true -> appends P (emit ev).
Proof. intros H w. exists [ev]. cbn. now rewrite H. Qed.

Lemma appends_setattr P n v : appends P (setattr n v).
Proof. intros w. exists []. now rewrite app_nil_r. Qed.

Lemma appends_getattr P n : appends P (getattr n).
Proof. intros w. exists []. unfold getattr. rewrite app_nil_r. now destruct (self w n). Qed.

Lemma appends_bind {A B} P (c : M A) (k : A -> M B) :
  appends P c -> (forall x, appends P (k x)) -> appends P (bind c k).
Proof.
  intros Hc Hk w. unfold bind. destruct (Hc w) as (t1 & H1 & P1).
  destruct (c w) as [[e | x] w1]; cbn [snd] in *.
  - now exists t1.
  - destruct (Hk x w1) as (t2 & H2 & P2). exists (t1 ++ t2)%list.
    now rewrite H2, H1, app_assoc, forallb_app, P1, P2.
Qed.

Lemma appends_for_each {A} P (l : list A) (body : A -> M unit) :
  (forall x, appends P (body x)) -> appends P (for_each l body).
Proof.
  intros H. induction l as [|x l IH]; cbn [for_each].
  - apply appends_ret.
  - apply appends_bind; [apply H | intros _; exact IH].
Qed.

Ltac appends_step :=
  first
    [ apply appends_ret
    | apply appends_raise
    | apply appends_setattr
    | apply appends_getattr
    | apply appends_emit; reflexivity
    | apply appends_for_each; intros
    | apply appends_bind; [| intros]
    | match goal with
      | |- appends _ (if ?b then _ else _) => destruct b
      | |- appends _ (match ?x with _ => _ end) => destruct x
      | |- appends _ (let _ := _ in _) => cbv zeta
      end ].

Ltac appends_all :=
  unfold getstr, getlist, logging_info, logging_warning, logging_error, logging_log;
  repeat appends_step.

Lemma check_model_chemistry_no_handler :
  appends (fun ev => negb (is_handler ev)) check_model_chemistry.
Proof. unfold check_model_chemistry. appends_all. Qed.

Lemma after_startup_no_handler E a :
  appends (fun ev => negb (is_handler ev))
    (check_separators a ;; resolve_conformer_level E a ;; resolve_levels E a ;;
     resolve_scan_level E a).
Proof.
  pose proof check_model_chemistry_no_handler as Hc.
  unfold check_separators, resolve_conformer_level, resolve_levels, resolve_scan_level,
    resolve_level_of_theory, resolve_composite_method, resolve_opt_level,
    resolve_freq_level, resolve_sp_level.
  unfold getstr, getlist, logging_info, logging_warning, logging_error, logging_log.
  repeat first [exact Hc | appends_step].
Qed.

Lemma store_lists_no_handler E a :
  appends (fun ev => negb (is_handler ev)) (store_lists E a).
Proof. unfold store_lists, add_rmg_species. appends_all. Qed.

Lemma execute_no_handler E : appends (fun ev => negb (is_handler ev)) (execute E).
Proof.
  unfold execute, summary, log_footer, consider_species, consider_reaction. appends_all.
Qed.

Lemma truthy_log_file E a : truthy (log_file E a) = true.
Proof.
  unfold log_file, path_join. cbn [startswith Ascii.eqb Bool.eqb].
  destruct (negb (truthy (project_directory E a))
            || (substring (String.length (project_directory E a) - 1) 1
                  (project_directory E a) =? "/")).
  - destruct (project_directory E a); reflexivity.
  - destruct (project_directory E a); reflexivity.
Qed.

Lemma init_attributes_run E a :
  init_attributes E a start
  = (inr tt, mk_world (plain_attributes E a no_attrs) (startup E a)).
Proof.
  pose proof (truthy_log_file E a) as Hl. unfold log_file, project_directory in Hl.
  unfold init_attributes, initialize_log, log_header, start, plain_attributes, startup,
    early_lines, header_lines, log_file, project_directory.
  exec_cbn. repeat exec_step; first [reflexivity | exfalso; cbn [negb] in *; congruence].
Qed.

Lemma construct_after_startup E a :
  exists rest,
    trace (snd (construct E a)) = (startup E a ++ rest)%list
    /\ forallb (fun ev => negb (is_handler ev)) rest = true.
Proof.
  unfold construct, __init__, resolve.
  unfold bind at 1. unfold bind at 1. rewrite init_attributes_run.
  destruct (after_startup_no_handler E a
              (mk_world (plain_attributes E a no_attrs) (startup E a))) as (t1 & H1 & P1).
  cbn [trace] in H1.
  destruct ((check_separators a ;; resolve_conformer_level E a ;; resolve_levels E a ;;
             resolve_scan_level E a)
              (mk_world (plain_attributes E a no_attrs) (startup E a))) as [[e | x] w1];
    cbn [snd] in *.
  - now exists t1.
  - destruct (store_lists_no_handler E a w1) as (t2 & H2 & P2).
    exists (t1 ++ t2)%list. now rewrite H2, H1, app_assoc, forallb_app, P1, P2.
Qed.

Lemma filter_none {A} (f : A -> bool) (l : list A) :
  forallb (fun x => negb (f x)) l = true -> filter f l = [].
Proof.
  induction l as [|x l IH]; [reflexivity |]. cbn [forallb filter].
  intros H. apply andb_true_iff in H as [Hx Hl]. apply negb_true_iff in Hx.
  rewrite Hx. now apply IH.
Qed.

Lemma startup_handlers E a :
  filter is_handler (startup E a)
  = [StreamHandler (verbose a); FileHandler (log_file E a) (Z.min DEBUG (verbose a))].
Proof.
  unfold startup, early_lines.
  destruct (path_exists E (project_directory E a)), (truthy (model_chemistry a)),
    (fine a), (scan_rotors a); reflexivity.
Qed.

(** Whatever the arguments, and also when the constructor raises later
    on, it starts in the same way: the project directory is made when it
    is missing; what lines 72 to 82 have to say about the model chemistry,
    the grid and the rotor scans is logged before the log is set up; then one
    console handler at level [verbose] and one file handler on [arc.log] in
    the project directory, at the lower of [DEBUG] and [verbose], are
    installed, the header is written and the project is named. Nothing that
    follows, in the constructor or in [execute], touches the handlers. *)
Theorem log_set_up_once_at_start E a :
  (exists rest,
      trace (snd (construct E a)) = (startup E a ++ rest)%list
      /\ forallb (fun ev => negb (is_handler ev)) rest = true)
  /\ (exists rest,
         trace (snd (construct_and_execute E a)) = (startup E a ++ rest)%list
         /\ forallb (fun ev => negb (is_handler ev)) rest = true)
  /\ filter is_handler (trace (snd (construct_and_execute E a)))
     = [StreamHandler (verbose a); FileHandler (log_file E a) (Z.min DEBUG (verbose a))].
Proof.
  assert (Hrun : exists rest,
             trace (snd (construct_and_execute E a)) = (startup E a ++ rest)%list
             /\ forallb (fun ev => negb (is_handler ev)) rest = true).
  { rewrite construct_and_execute_unfold.
    destruct (construct_after_startup E a) as (t1 & H1 & P1).
    destruct (construct E a) as [[e | x] w1]; cbn [snd] in *; [now exists t1 |].
    destruct (execute_no_handler E w1) as (t2 & H2 & P2).
    exists (t1 ++ t2)%list. now rewrite H2, H1, app_assoc, forallb_app, P1, P2. }
  split; [apply construct_after_startup |]. split; [exact Hrun |].
  destruct Hrun as (rest & -> & Hrest).
  now rewrite filter_app, startup_handlers, (filter_none _ _ Hrest).
Qed.

Example startup_of_coarse_args :
  trace (snd (construct sample_env coarse_args))
  = startup sample_env coarse_args
  /\ raised (construct sample_env coarse_args)
     = Some (InputError (msg_separators "a//b//c")).
Proof. split; reflexivity. Qed.

End ARCMore.

(* ===================================================================== *)
(** ** Entries of the wrong class in the lists *)
(* ===================================================================== *)

Module ARCLists.
Import PyStr PyStrFacts ARC ARCFacts ARCProperties ARCNotions ARCMore.

Lemma construct_and_execute_raised E a (e : exn) :
  raised (construct E a) = Some e -> raised (construct_and_execute E a) = Some e.
Proof.
  rewrite construct_and_execute_unfold. unfold raised.
  destruct (construct E a) as [[e' | []] w]; cbn [fst]; [auto | discriminate].
Qed.

Lemma execute_stops_at_species E d t (good rest : list py_obj) (x : py_obj) :
  d "arc_species_list" = Some (VList (good ++ x :: rest)%list) ->
  has_other_than ARCSpecies good = false ->
  isinstance x ARCSpecies = false ->
  execute E (mk_world d t)
  = (inl (ValueError (msg_not_arc_species x)),
     mk_world d (t ++ Log INFO (nl ++ nl) :: map considering_species good)%list).
Proof.
  intros Hs Hg Hx. unfold execute. exec_cbn. rewrite Hs. exec_cbn.
  rewrite (consider_species_stops good rest x Hg Hx). now rewrite <- app_assoc.
Qed.

Lemma execute_stops_at_reaction E d t (sl good rest : list py_obj) (x : py_obj) :
  d "arc_species_list" = Some (VList sl) ->
  d "rxn_list" = Some (VList (good ++ x :: rest)%list) ->
  has_other_than ARCSpecies sl = false ->
  has_other_than Reaction good = false ->
  isinstance x Reaction = false ->
  execute E (mk_world d t)
  = (inl (ValueError ""),
     mk_world d
       (t ++ Log INFO (nl ++ nl) :: map considering_species sl
          ++ Log INFO nl :: map considering_reaction good
          ++ [Log ERROR (msg_not_reaction x)])%list).
Proof.
  intros Hs Hr Hsl Hg Hx. unfold execute. exec_cbn. rewrite Hs. exec_cbn.
  rewrite (consider_species_accepts sl Hsl). exec_cbn. rewrite Hr. exec_cbn.
  rewrite (consider_reaction_stops good rest x Hg Hx).
  f_equal. f_equal. rewrite <- !app_assoc. reflexivity.
Qed.

(** C8, as stated, fails: an entry of the wrong class is not always what
    the run reports, and the constructor does not look at
    [arc_species_list] nor at [rxn_list]. A [Species] without label in front
    of an integer gives the error of the missing label; an integer in
    [arc_species_list] next to an sp level of no table gives the error of the
    model chemistry; and the constructor alone accepts an integer in
    [arc_species_list] and in [rxn_list]. *)
Lemma wrong_entry_not_always_type_error :
  (has_other_than Species [unlabelled_species; an_integer] = true
   /\ raised (construct_and_execute sample_env
                (with_lists [unlabelled_species; an_integer] [] []))
      = Some (InputError (msg_no_label unlabelled_species))
   /\ msg_no_label unlabelled_species <> msg_not_species an_integer)
  /\ (has_other_than ARCSpecies [an_integer] = true
      /\ raised (construct_and_execute sample_env
                   (with_species_and_sp_level [an_integer] "HF/STO-3G"))
         = Some (InputError msg_undetermined))
  /\ (has_other_than ARCSpecies [an_integer] = true
      /\ has_other_than Reaction [an_integer] = true
      /\ raised (construct sample_env (with_lists [] [an_integer] [an_integer])) = None).
Proof.
  split; [| split].
  - split; [reflexivity |]. split; [reflexivity | discriminate].
  - split; reflexivity.
  - repeat split.
Qed.

(** C8: each list is checked for the class of its entries before the
    [Scheduler] is built. Once the levels are resolved, the first entry of
    [rmg_species_list] that is no [Species], the entries before it being
    [Species] with a label, makes the constructor raise [InputError] with the
    message that names its type. When the constructor returns, the first
    entry of [arc_species_list] that is no [ARCSpecies] makes [execute] raise
    [ValueError] with the message that names its type; and, every species
    being an [ARCSpecies], the first entry of [rxn_list] that is no
    [Reaction] makes [execute] raise [ValueError] without message, its type
    having gone to the log as an error. Whenever one of the lists has an
    entry of the wrong class, the run ends in an [InputError] or a
    [ValueError] and no job is handed to a server. *)
Theorem wrong_types_rejected E a (good rest : list py_obj) (x : py_obj) :
  (rmg_species_list a = (good ++ x :: rest)%list ->
   forallb labelled_species good = true ->
   isinstance x Species = false ->
   fst (resolve E a start) = inr tt ->
   raised (construct E a) = Some (InputError (msg_not_species x))
   /\ raised (construct_and_execute E a) = Some (InputError (msg_not_species x)))
  /\ (arc_species_list a = (good ++ x :: rest)%list ->
      has_other_than ARCSpecies good = false ->
      isinstance x ARCSpecies = false ->
      succeeded (construct E a) = true ->
      raised (construct_and_execute E a) = Some (ValueError (msg_not_arc_species x))
      /\ self (snd (construct_and_execute E a)) = self (snd (construct E a)))
  /\ (rxn_list a = (good ++ x :: rest)%list ->
      has_other_than Reaction good = false ->
      isinstance x Reaction = false ->
      succeeded (construct E a) = true ->
      has_other_than ARCSpecies
        (arc_species_list a ++ map (new_ARCSpecies E false) (rmg_species_list a))%list
      = false ->
      raised (construct_and_execute E a) = Some (ValueError "")
      /\ (exists t, trace (snd (construct_and_execute E a))
                    = (t ++ [Log ERROR (msg_not_reaction x)])%list)
      /\ self (snd (construct_and_execute E a)) = self (snd (construct E a)))
  /\ (has_other_than Species (rmg_species_list a)
      || has_other_than ARCSpecies (arc_species_list a)
      || has_other_than Reaction (rxn_list a) = true ->
      (exists e, raised (construct_and_execute E a) = Some e
                 /\ is_InputError e || is_ValueError e = true)
      /\ no_remote_work (snd (construct_and_execute E a))).
Proof.
  split; [| split; [| split]].
  - intros Hl Hg Hx Hr.
    assert (Hc : raised (construct E a) = Some (InputError (msg_not_species x))).
    { destruct (resolve_run E a) as (t & Hrun & _). rewrite Hrun in Hr. cbn [fst] in Hr.
      unfold raised. rewrite construct_outcome. unfold init_outcome.
      rewrite Hr, Hl, (rmg_outcome_first_refused good rest x Hg).
      - now rewrite Hx.
      - unfold labelled_species. now rewrite Hx. }
    split; [exact Hc | now apply construct_and_execute_raised].
  - intros Hl Hg Hx Hok.
    destruct (construct_accepts E a Hok) as (d & t & Hrun & _ & Hs & _).
    rewrite construct_and_execute_unfold, Hrun. cbn [snd].
    rewrite Hl, <- app_assoc in Hs. cbn [app] in Hs.
    rewrite (execute_stops_at_species E d t good _ x Hs Hg Hx). split; reflexivity.
  - intros Hl Hg Hx Hok Hsl.
    destruct (construct_accepts E a Hok) as (d & t & Hrun & _ & Hs & _ & Hr & _).
    rewrite construct_and_execute_unfold, Hrun. cbn [snd].
    rewrite Hl in Hr.
    rewrite (execute_stops_at_reaction E d t _ good rest x Hs Hr Hsl Hg Hx).
    split; [reflexivity |]. split; [| reflexivity].
    cbn [snd trace].
    exists (t ++ Log INFO (nl ++ nl)
              :: map considering_species
                   (arc_species_list a ++ map (new_ARCSpecies E false) (rmg_species_list a))
              ++ Log INFO nl :: map considering_reaction good)%list.
    rewrite <- app_assoc. cbn [app]. rewrite <- app_assoc. reflexivity.
  - intros Hbad.
    destruct (wrong_entry_ends_run E a Hbad) as (_ & _ & _ & He & Hq). now split.
Qed.

Lemma wrong_types_rejected_witness :
  raised (construct sample_env (with_lists [a_species; an_integer] [] []))
  = Some (InputError (msg_not_species an_integer))
  /\ raised (construct_and_execute sample_env
               (with_lists [] [an_arc_species; an_integer] []))
     = Some (ValueError (msg_not_arc_species an_integer))
  /\ raised (construct_and_execute sample_env
               (with_lists [a_species] [an_arc_species] [a_reaction; an_integer]))
     = Some (ValueError "")
  /\ no_remote_work (snd (construct_and_execute sample_env
                            (with_lists [a_species] [an_arc_species]
                               [a_reaction; an_integer]))).
Proof.
  split; [| split; [| split]].
  - destruct (wrong_types_rejected sample_env (with_lists [a_species; an_integer] [] [])
                [a_species] [] an_integer) as (H & _).
    now apply H.
  - destruct (wrong_types_rejected sample_env
                (with_lists [] [an_arc_species; an_integer] [])
                [an_arc_species] [] an_integer) as (_ & H & _).
    now apply H.
  - destruct (wrong_types_rejected sample_env
                (with_lists [a_species] [an_arc_species] [a_reaction; an_integer])
                [a_reaction] [] an_integer) as (_ & _ & H & _).
    now apply H.
  - destruct (wrong_types_rejected sample_env
                (with_lists [a_species] [an_arc_species] [a_reaction; an_integer])
                [a_reaction] [] an_integer) as (_ & _ & _ & H).
    now apply H.
Defined.

End ARCLists.

(* ===================================================================== *)
(** ** [delete_all_arc_jobs]: properties *)
(* ===================================================================== *)

Module ClusterFacts.
Import PyStr Cluster.

Lemma startswith_leading_digits (s : string) : startswith (leading_digits s) s = true.
Proof.
  induction s as [|c s IH]; [reflexivity |].
  cbn [leading_digits]. destruct (is_digit c); [| reflexivity].
  cbn [startswith]. now rewrite Ascii.eqb_refl, IH.
Qed.

Lemma leading_digits_idempotent (s : string) :
  leading_digits (leading_digits s) = leading_digits s.
Proof.
  induction s as [|c s IH]; [reflexivity |].
  cbn [leading_digits]. destruct (is_digit c) eqn:H; [| reflexivity].
  cbn [leading_digits]. now rewrite H, IH.
Qed.

(** On a line [re.match] accepts, [re.search] finds the pattern at the start
    of the line too. *)
Lemma re_match_search_digits (s : string) (m : match_object) :
  re_match_arc_job s = Some m ->
  exists digits,
    re_search_arc_job s = Some (mk_match 0 (" a" ++ digits))
    /\ startswith (" a" ++ digits) s = true
    /\ digits <> "" /\ leading_digits digits = digits.
Proof.
  unfold re_match_arc_job, re_search_arc_job.
  destruct s as [|c1 [|c2 [|c3 rest]]]; try discriminate.
  cbn [re_search_from arc_job_here].
  destruct (Ascii.eqb c1 " " && Ascii.eqb c2 "a" && is_digit c3) eqn:H; [| discriminate].
  intros _. apply andb_true_iff in H as [H H3]. apply andb_true_iff in H as [H1 H2].
  apply Ascii.eqb_eq in H1, H2. subst c1 c2.
  exists (leading_digits (String c3 rest)).
  split; [reflexivity |]. split; [| split].
  - change (" a" ++ leading_digits (String c3 rest))
      with (String " " (String "a" (leading_digits (String c3 rest)))).
    cbn [startswith]. rewrite !Ascii.eqb_refl. apply startswith_leading_digits.
  - cbn [leading_digits]. rewrite H3. discriminate.
  - apply leading_digits_idempotent.
Qed.

Section Settings.

Variable servers : string -> option (string -> option string).
Variable check_status_command : string -> option string.
Variable remote_stdout : string -> string -> list string.
Variable delete_job : string -> option match_object -> option exn.
Variable match_repr : option match_object -> string.

Local Abbreviation run :=
  (delete_all_arc_jobs servers check_status_command remote_stdout delete_job match_repr).
Local Abbreviation loop := (delete_arc_jobs delete_job match_repr).
Local Abbreviation query := (status_query servers check_status_command).

Lemma run_with_settings (server_name cmd : string) :
  query server_name = Some cmd ->
  run server_name
  = (fst (loop server_name (remote_stdout server_name cmd)),
     Info ("Deleting all ARC jobs from " ++ server_name)
     :: NewClient server_name :: SendCommand server_name cmd
     :: snd (loop server_name (remote_stdout server_name cmd))).
Proof.
  unfold status_query, delete_all_arc_jobs.
  destruct (servers server_name) as [server|]; [| discriminate].
  destruct (server "cluster_soft") as [soft|]; [| discriminate].
  destruct (server "un") as [un|]; [| discriminate].
  destruct (check_status_command soft) as [status_command|]; [| discriminate].
  now intros [= <-].
Qed.

Lemma run_without_settings (server_name : string) :
  query server_name = None ->
  (exists key, fst (run server_name) = inl (KeyError key))
  /\ snd (run server_name) = [Info ("Deleting all ARC jobs from " ++ server_name)].
Proof.
  unfold status_query, delete_all_arc_jobs.
  destruct (servers server_name) as [server|]; [| split; [eexists |]; reflexivity].
  destruct (server "cluster_soft") as [soft|]; [| split; [eexists |]; reflexivity].
  destruct (server "un") as [un|];
    (destruct (check_status_command soft) as [status_command|];
     [| split; [eexists |]; reflexivity]);
    [discriminate | split; [eexists |]; reflexivity].
Qed.

Lemma loop_never_connects (server_name : string) (lines : list string) :
  forallb (fun x => negb (connects x)) (snd (loop server_name lines)) = true.
Proof.
  induction lines as [|l ls IH]; [reflexivity |].
  cbn [delete_arc_jobs]. destruct (re_match_arc_job l); [| exact IH].
  destruct (delete_job server_name (re_search_arc_job l)); [reflexivity |].
  cbn [snd forallb connects negb andb]. exact IH.
Qed.

Lemma loop_deletes_line_starts (server_name : string) (lines : list string)
      (name : string) (job_id : option match_object) :
  In (DeleteJob name job_id) (snd (loop server_name lines)) ->
  name = server_name
  /\ exists line digits,
      In line lines
      /\ job_id = Some (mk_match 0 (" a" ++ digits))
      /\ startswith (" a" ++ digits) line = true
      /\ digits <> "" /\ leading_digits digits = digits.
Proof.
  induction lines as [|l ls IH]; [intros [] |].
  cbn [delete_arc_jobs].
  assert (Hrest : In (DeleteJob name job_id) (snd (loop server_name ls)) ->
                  name = server_name
                  /\ exists line digits,
                      In line (l :: ls)
                      /\ job_id = Some (mk_match 0 (" a" ++ digits))
                      /\ startswith (" a" ++ digits) line = true
                      /\ digits <> "" /\ leading_digits digits = digits).
  { intros H. destruct (IH H) as (-> & line & digits & Hin & Hrest).
    split; [reflexivity |]. exists line, digits. split; [now right | exact Hrest]. }
  destruct (re_match_arc_job l) as [m|] eqn:Hm; [| exact Hrest].
  destruct (re_match_search_digits l m Hm) as (digits & Hs & Hp & Hne & Hd).
  assert (Hhere : DeleteJob server_name (re_search_arc_job l) = DeleteJob name job_id ->
                  name = server_name
                  /\ exists line digits,
                      In line (l :: ls)
                      /\ job_id = Some (mk_match 0 (" a" ++ digits))
                      /\ startswith (" a" ++ digits) line = true
                      /\ digits <> "" /\ leading_digits digits = digits).
  { intros [= <- <-]. split; [reflexivity |]. exists l, digits.
    split; [now left |]. repeat split; assumption. }
  destruct (delete_job server_name (re_search_arc_job l)).
  - intros [H | []]. now apply Hhere.
  - cbn [snd]. intros [H | [H | H]]; [now apply Hhere | discriminate | now apply Hrest].
Qed.

Lemma loop_one_per_line (server_name : string) (lines : list string) :
  (forall job_id, delete_job server_name job_id = None) ->
  fst (loop server_name lines) = inr tt
  /\ filter is_delete (snd (loop server_name lines))
     = map (fun line => DeleteJob server_name (re_search_arc_job line))
         (filter is_arc_job_line lines).
Proof.
  intros Hok. induction lines as [|l ls [IH1 IH2]]; [split; reflexivity |].
  cbn [delete_arc_jobs filter]. unfold is_arc_job_line at 1.
  destruct (re_match_arc_job l); [| split; assumption].
  rewrite Hok. cbn [fst snd filter is_delete map]. split; [exact IH1 | now rewrite IH2].
Qed.

(** When the settings lack the server, its cluster software, its user
    name or the status command of the software, [delete_all_arc_jobs] raises
    [KeyError] after announcing itself in the log and before any client is
    made or command sent. Otherwise it raises no [KeyError], makes one
    client and sends one command, the status command with [-u] and the user
    name. *)
Theorem settings_looked_up_before_connecting (server_name : string) :
  match query server_name with
  | None =>
      (exists key, fst (run server_name) = inl (KeyError key))
      /\ snd (run server_name) = [Info ("Deleting all ARC jobs from " ++ server_name)]
  | Some cmd =>
      filter connects (snd (run server_name))
      = [NewClient server_name; SendCommand server_name cmd]
      /\ forall key, fst (run server_name) = inl (KeyError key) ->
                     exists job_id, delete_job server_name job_id = Some (KeyError key)
  end.
Proof.
  destruct (query server_name) as [cmd|] eqn:Hq; [| now apply run_without_settings].
  rewrite (run_with_settings _ _ Hq). cbn [fst snd filter connects]. split.
  - do 2 f_equal.
    pose proof (loop_never_connects server_name (remote_stdout server_name cmd)) as H.
    induction (snd (loop server_name (remote_stdout server_name cmd))) as [|x xs IH];
      [reflexivity |].
    cbn [forallb] in H. apply andb_true_iff in H as [Hx Hxs].
    cbn [filter]. apply negb_true_iff in Hx. rewrite Hx. now apply IH.
  - intros key. induction (remote_stdout server_name cmd) as [|l ls IH]; [discriminate |].
    cbn [delete_arc_jobs]. destruct (re_match_arc_job l); [| exact IH].
    destruct (delete_job server_name (re_search_arc_job l)) as [e|] eqn:He; [| exact IH].
    cbn [fst]. intros [= ->]. eauto.
Qed.

(** Every job [delete_all_arc_jobs] asks to delete comes from a status line
    that starts with a space, the letter [a] and a digit. What [delete_job]
    is given is the match object of [re.search], found at the start of that
    line over [ a] and the digits that follow, not a job number nor the
    job-ID the line may show further on; a line that starts otherwise, as
    with a numeric job-ID, is never acted on. *)
Theorem deleted_jobs_are_line_starts (server_name name : string)
      (job_id : option match_object) :
  In (DeleteJob name job_id) (snd (run server_name)) ->
  name = server_name
  /\ exists cmd line digits,
      query server_name = Some cmd
      /\ In line (remote_stdout server_name cmd)
      /\ job_id = Some (mk_match 0 (" a" ++ digits))
      /\ startswith (" a" ++ digits) line = true
      /\ digits <> "" /\ leading_digits digits = digits.
Proof.
  intros Hin. destruct (query server_name) as [cmd|] eqn:Hq.
  - rewrite (run_with_settings _ _ Hq) in Hin. cbn [snd] in Hin.
    destruct Hin as [H | [H | [H | Hin]]]; try discriminate.
    destruct (loop_deletes_line_starts _ _ _ _ Hin) as (-> & line & digits & H).
    split; [reflexivity |]. exists cmd, line, digits. split; [reflexivity | exact H].
  - destruct (run_without_settings _ Hq) as [_ H]. rewrite H in Hin.
    destruct Hin as [Hin | []]. discriminate.
Qed.

(** With the settings in place and a [delete_job] that raises nothing,
    [delete_all_arc_jobs] returns normally and asks for one deletion per
    status line that starts with a space, [a] and a digit, in the order of
    the lines, and for no other. *)
Theorem one_deletion_per_arc_line (server_name cmd : string) :
  query server_name = Some cmd ->
  (forall job_id, delete_job server_name job_id = None) ->
  fst (run server_name) = inr tt
  /\ filter is_delete (snd (run server_name))
     = map (fun line => DeleteJob server_name (re_search_arc_job line))
         (filter is_arc_job_line (remote_stdout server_name cmd)).
Proof.
  intros Hq Hok. rewrite (run_with_settings _ _ Hq). cbn [fst snd filter is_delete].
  now apply loop_one_per_line.
Qed.

End Settings.

Lemma settings_looked_up_before_connecting_witness :
  (exists key, fst (sample_run "server2") = inl (KeyError key))
  /\ filter connects (snd (sample_run "server1"))
     = [NewClient "server1"; SendCommand "server1" "qstat -u alongd"].
Proof.
  split.
  - exact (proj1 (settings_looked_up_before_connecting sample_servers sample_status_command
                    (fun _ _ => sample_queue) (fun _ _ => None) sample_repr "server2")).
  - exact (proj1 (settings_looked_up_before_connecting sample_servers sample_status_command
                    (fun _ _ => sample_queue) (fun _ _ => None) sample_repr "server1")).
Defined.

Lemma deleted_jobs_are_line_starts_witness :
  In (DeleteJob "server1" (Some (mk_match 0 " a14121"))) (snd (sample_run "server1"))
  /\ exists cmd line digits,
      status_query sample_servers sample_status_command "server1" = Some cmd
      /\ In line sample_queue
      /\ Some (mk_match 0 " a14121") = Some (mk_match 0 (" a" ++ digits))
      /\ startswith (" a" ++ digits) line = true
      /\ digits <> "" /\ leading_digits digits = digits.
Proof.
  assert (H : In (DeleteJob "server1" (Some (mk_match 0 " a14121")))
                (snd (sample_run "server1"))).
  { vm_compute. right. right. right. left. reflexivity. }
  split; [exact H |].
  exact (proj2 (deleted_jobs_are_line_starts sample_servers sample_status_command
                  (fun _ _ => sample_queue) (fun _ _ => None) sample_repr
                  "server1" "server1" (Some (mk_match 0 " a14121")) H)).
Defined.

Lemma one_deletion_per_arc_line_witness :
  fst (sample_run "server1") = inr tt
  /\ filter is_delete (snd (sample_run "server1"))
     = [DeleteJob "server1" (Some (mk_match 0 " a14121"))].
Proof.
  exact (one_deletion_per_arc_line sample_servers sample_status_command
           (fun _ _ => sample_queue) (fun _ _ => None) sample_repr
           "server1" "qstat -u alongd" eq_refl (fun _ => eq_refl)).
Defined.

End ClusterFacts.
